(** * Elastic agent: the orchestration loop and the result-shaping pipeline

    A shallow embedding of the TypeScript sources
    - [tools.ts]                      (class [ToolSystem]),
    - [providers/openai-provider.ts]  (class [OpenAIProvider]),
    - [ai-agent.ts]                   (class [AIAgent]),
    and the properties the specification states about them.

    JavaScript built-ins the code relies on ([JSON.parse], [JSON.stringify],
    string coercion in template literals) and the remote services (the
    search backend and the completion service) are the fields of a [Host]
    and an [AIProvider]: the general theorems hold for all of their
    behaviours.  Console output is not modelled, but what a log line
    evaluates is, where evaluating it can throw. *)

From Stdlib Require Import ZArith List String Ascii Bool Lia Arith.
Import ListNotations.

Set Warnings "-register-all".

Local Open Scope string_scope.
Local Open Scope Z_scope.

(** ** JavaScript strings

    A string is a sequence of code units; [String.length] is the [length]
    property. *)

Module JsString.

Definition len (s : string) : Z := Z.of_nat (String.length s).

Fixpoint take (n : nat) (s : string) : string :=
  match n, s with
  | O, _ => EmptyString
  | S _, EmptyString => EmptyString
  | S n', String c s' => String c (take n' s')
  end.

Fixpoint drop (n : nat) (s : string) : string :=
  match n, s with
  | O, _ => s
  | S _, EmptyString => EmptyString
  | S n', String _ s' => drop n' s'
  end.

(** [clamp s i] is what [substring] does to an index: negative becomes 0
    and anything past the end becomes the length. *)
Definition clamp (s : string) (i : Z) : Z := Z.max 0 (Z.min i (len s)).

(** [s.substring(start, end)]: both indices are clamped and swapped when
    [start > end]. *)
Definition substring (s : string) (start stop : Z) : string :=
  let a := clamp s start in
  let b := clamp s stop in
  let lo := Z.min a b in
  let hi := Z.max a b in
  take (Z.to_nat (hi - lo)) (drop (Z.to_nat lo) s).

(** [s.substring(start)]: up to the end of the string. *)
Definition substring_from (s : string) (start : Z) : string :=
  substring s start (len s).

Definition nl : string := String (ascii_of_nat 10) EmptyString.

(** [isPrefix p s] and [includes s p]: [s.startsWith(p)] and
    [s.includes(p)]. *)
Fixpoint isPrefix (p s : string) : bool :=
  match p, s with
  | EmptyString, _ => true
  | String _ _, EmptyString => false
  | String a p', String b s' => Ascii.eqb a b && isPrefix p' s'
  end.

Fixpoint includes (s p : string) : bool :=
  isPrefix p s ||
  match s with
  | EmptyString => false
  | String _ s' => includes s' p
  end.

End JsString.

(** ** Condensation unit ([ToolSystem.estimateTokens], [ToolSystem.condenseContent]) *)

Module Condense.
Import JsString.

(** [Math.ceil(text.length / 4)] *)
Definition estimateTokens (text : string) : Z := (len text + 3) / 4.

Definition marker : string :=
  nl ++ nl ++ "... [CONTENT CONDENSED DUE TO LENGTH] ..." ++ nl ++ nl.

(** [Math.floor(maxTokens * 4 * 0.8)] for an integer token budget, in exact
    arithmetic: [maxTokens * 4 * 8 / 10] rounded down. *)
Definition maxCharacters (maxTokens : Z) : Z := (maxTokens * 4 * 8) / 10.

(** [Math.floor(maxCharacters / 2)] *)
Definition halfMaxChars (maxTokens : Z) : Z := maxCharacters maxTokens / 2.

Definition condenseContent (content : string) (maxTokens : Z) : string :=
  let estimatedTokens := estimateTokens content in
  if estimatedTokens <=? maxTokens then content
  else
    let half := halfMaxChars maxTokens in
    let beginning := substring content 0 half in
    let ending := substring_from content (len content - half) in
    beginning ++ marker ++ ending.

(** The default budget of [condenseContent]. *)
Definition defaultMaxTokens : Z := 128000.

(** *** The reference definition, following the specification's words *)

(** The first [n] and the last [n] characters of a text. *)
Definition firstChars (n : nat) (s : string) : string := take n s.
Definition lastChars (n : nat) (s : string) : string :=
  drop (String.length s - n) s.

(** [ceil(length / 4)] as the least [t] with [length <= 4 * t]. *)
Definition ceilDiv4 (n : nat) : nat := Nat.div (n + 3) 4.

(** The effective character budget, [floor(budget * 4 * 0.8)], as
    [floor(16 * budget / 5)]. *)
Definition effectiveBudget (budget : nat) : nat := Nat.div (16 * budget) 5.

Definition condense_spec (content : string) (budget : nat) : string :=
  if Nat.leb (ceilDiv4 (String.length content)) budget then content
  else
    let n := Nat.div (effectiveBudget budget) 2 in
    firstChars n content ++ marker ++ lastChars n content.

End Condense.

(** ** JavaScript values

    What [JSON.parse] returns and what the tools receive as [args: any].
    [any] adds [undefined] as [None].  Numbers are the integer-valued ones. *)

Module Js.

Inductive value : Type :=
| Null
| Bool (b : bool)
| Num (n : Z)
| Str (s : string)
| Arr (items : list value)
| Obj (fields : list (string * value)).

Definition any : Type := option value.

(** What a [catch] clause binds: an [Error] instance with its [message], or
    any other thrown value (for which [instanceof Error] is false). *)
Inductive thrown : Type :=
| Error (message : string)
| NonError.

(** [e instanceof Error ? e.message : 'Unknown error'] *)
Definition errorMessage (e : thrown) : string :=
  match e with
  | Error m => m
  | NonError => "Unknown error"
  end.

Inductive result (A : Type) : Type :=
| Ok (a : A)
| Throw (e : thrown).
Arguments Ok {A} a.
Arguments Throw {A} e.

(** Truthiness, as used by [!x], [x || y] and [if (x)]. *)
Definition truthy (v : any) : bool :=
  match v with
  | None => false
  | Some Null => false
  | Some (Bool b) => b
  | Some (Num n) => negb (n =? 0)
  | Some (Str s) => negb (String.eqb s "")
  | Some (Arr _) => true
  | Some (Obj _) => true
  end.

(** [typeof v === 'object'] ([null] and arrays included). *)
Definition isObjectType (v : any) : bool :=
  match v with
  | Some Null | Some (Arr _) | Some (Obj _) => true
  | _ => false
  end.

Fixpoint lookup (k : string) (fields : list (string * value)) : any :=
  match fields with
  | [] => None
  | (k', v) :: rest => if String.eqb k k' then Some v else lookup k rest
  end.

Definition sq : string := String (ascii_of_nat 39) EmptyString.
Definition dq : string := String (ascii_of_nat 34) EmptyString.

(** The message of the [TypeError] of a property read on [null] or
    [undefined] (as V8 words it). *)
Definition readOfNullish (what k : string) : thrown :=
  Error ("Cannot read properties of " ++ what ++ " (reading " ++ sq ++ k ++ sq ++ ")").

(** [v.k] for one of the property names the code reads ([index], [query],
    [size], [message], [search_text], [filter_field], [filter_value],
    [bool], [must], and [match] on anything but a string): own properties of
    objects; [undefined] on primitives and arrays, whose prototypes have no
    property of these names; a [TypeError] on [null] and [undefined]. *)
Definition get (v : any) (k : string) : result any :=
  match v with
  | None => Throw (readOfNullish "undefined" k)
  | Some Null => Throw (readOfNullish "null" k)
  | Some (Obj fields) => Ok (lookup k fields)
  | Some _ => Ok None
  end.

(** [v?.k] *)
Definition getOpt (v : any) (k : string) : any :=
  match v with
  | Some (Obj fields) => lookup k fields
  | _ => None
  end.

Definition chars (s : string) : list value :=
  map (fun c => Str (String c EmptyString)) (list_ascii_of_string s).

(** [Object.values(v)]: throws on [null] and [undefined]. *)
Definition objectValues (v : any) : result (list value) :=
  match v with
  | None | Some Null => Throw (Error "Cannot convert undefined or null to object")
  | Some (Obj fields) => Ok (map snd fields)
  | Some (Arr items) => Ok items
  | Some (Str s) => Ok (chars s)
  | Some _ => Ok []
  end.

(** [Object.keys(v).length]: throws on [null]. *)
Definition objectKeysLength (v : value) : result nat :=
  match v with
  | Null => Throw (Error "Cannot convert undefined or null to object")
  | Obj fields => Ok (List.length fields)
  | Arr items => Ok (List.length items)
  | Str s => Ok (String.length s)
  | _ => Ok O
  end.

(** [v[0]] *)
Definition first (v : any) : result any :=
  match v with
  | None => Throw (readOfNullish "undefined" "0")
  | Some Null => Throw (readOfNullish "null" "0")
  | Some (Arr items) => Ok (hd_error items)
  | Some (Obj fields) => Ok (lookup "0" fields)
  | Some (Str s) => Ok (hd_error (chars s))
  | Some _ => Ok None
  end.

(** [a || b] *)
Definition or (a : any) (b : value) : value :=
  match a with
  | Some v => if truthy a then v else b
  | None => b
  end.

End Js.

(** ** Effects: mutable state that survives exceptions

    A method body is a function from the store to a result (a value or a
    thrown exception) and the store as the body left it. *)

Module Eff.
Import Js.

Definition M (S A : Type) : Type := S -> result A * S.

Definition ret {S A} (a : A) : M S A := fun s => (Ok a, s).

Definition bind {S A B} (m : M S A) (k : A -> M S B) : M S B :=
  fun s =>
    match m s with
    | (Ok a, s') => k a s'
    | (Throw e, s') => (Throw e, s')
    end.

Definition throw {S A} (e : thrown) : M S A := fun s => (Throw e, s).

(** [try { body } catch (e) { handler(e) }] *)
Definition try_catch {S A} (body : M S A) (handler : thrown -> M S A) : M S A :=
  fun s =>
    match body s with
    | (Ok a, s') => (Ok a, s')
    | (Throw e, s') => handler e s'
    end.

Definition gets {S A} (f : S -> A) : M S A := fun s => (Ok (f s), s).

Definition modify {S} (f : S -> S) : M S unit := fun s => (Ok tt, f s).

(** A pure computation that may throw. *)
Definition lift {S A} (r : result A) : M S A := fun s => (r, s).

(** Running a computation on a component of the store. *)
Definition zoom {S T A} (proj : S -> T) (upd : T -> S -> S) (m : M T A) : M S A :=
  fun s => let (r, t) := m (proj s) in (r, upd t s).

End Eff.

Declare Scope eff_scope.
Delimit Scope eff_scope with eff.
Notation "x <- c1 ;; c2" := (Eff.bind c1 (fun x => c2))
  (at level 61, c1 at next level, right associativity) : eff_scope.
Notation "c1 ;; c2" := (Eff.bind c1 (fun _ => c2))
  (at level 61, right associativity) : eff_scope.

(** ** The tool layer ([tools.ts], [elastic-client.ts]) *)

Module Tools.
Import Js Eff JsString.

(** [ElasticQuery] of [types.ts]; the fields hold whatever the tool
    arguments held. *)
Record ElasticQuery : Type := {
  index : any;
  query : any;
  size : any;
  from : any
}.

(** The request [ElasticClient.search] hands to the Elasticsearch client. *)
Record SearchRequest : Type := {
  req_index : any;
  body_query : any;
  body_size : value;
  body_from : value
}.

(** [ElasticResult] of [types.ts] ([_score] is a number). *)
Record Hit : Type := {
  _source : value;
  _score : value;
  _id : string
}.

Record ElasticResult : Type := {
  total_value : Z;
  hits : list Hit
}.

(** The request of [rephraseResults] to the completion service
    ([temperature: 0.1] is left out). *)
Record ChatRequest : Type := {
  model : string;
  system_content : string;
  user_content : string;
  max_tokens : Z
}.

(** [response.choices], each choice with its [message.content]
    ([string | null]). *)
Record ChatCompletion : Type := {
  choices : list (option string)
}.

(** A call that reached the search backend. *)
Inductive ClientCall : Type :=
| CallSearch (r : SearchRequest)
| CallCatIndices
| CallGetMapping (index : any).

(** The host: JavaScript built-ins and the two remote services.  A remote
    call is answered by the number of calls made before it and its request,
    so that a service may answer the same request differently over time. *)
Record Host : Type := {
  JSON_parse : string -> option value;
  JSON_stringify : value -> string;
  JS_String : any -> string;
  client_search : nat -> SearchRequest -> result ElasticResult;
  client_cat_indices : nat -> result (list string);
  client_getMapping : nat -> any -> result value;
  chat_create : nat -> ChatRequest -> result ChatCompletion
}.

(** The mutable part of a [ToolSystem] and of the services behind it. *)
Record ToolStore : Type := {
  executionCounter : Z;
  clientCalls : list ClientCall;
  chatCalls : list ChatRequest
}.

Definition initialToolStore : ToolStore :=
  {| executionCounter := 0; clientCalls := []; chatCalls := [] |}.

Definition searchCalls (t : ToolStore) : list SearchRequest :=
  flat_map (fun c => match c with CallSearch r => [r] | _ => [] end) (clientCalls t).

(** [ToolCall] of [types.ts]. *)
Record ToolCall : Type := {
  name : string;
  arguments : value
}.

Section WithHost.
Variable h : Host.

Local Open Scope eff_scope.

Definition callClient {A} (c : ClientCall) (answer : nat -> result A) : M ToolStore A :=
  fun t =>
    (answer (List.length (clientCalls t)),
     {| executionCounter := executionCounter t;
        clientCalls := clientCalls t ++ [c];
        chatCalls := chatCalls t |}).

Definition callChat (r : ChatRequest) : M ToolStore ChatCompletion :=
  fun t =>
    (chat_create h (List.length (chatCalls t)) r,
     {| executionCounter := executionCounter t;
        clientCalls := clientCalls t;
        chatCalls := chatCalls t ++ [r] |}).

(** *** [ElasticClient] *)

(** [ElasticClient.search]: the [catch] logs and rethrows. *)
Definition ElasticClient_search (q : ElasticQuery) : M ToolStore ElasticResult :=
  let r := {| req_index := index q;
              body_query := query q;
              body_size := Js.or (size q) (Num 10);
              body_from := Js.or (from q) (Num 0) |} in
  try_catch (callClient (CallSearch r) (fun n => client_search h n r))
            (fun error => throw error).

Definition ElasticClient_getIndices : M ToolStore (list string) :=
  try_catch (callClient CallCatIndices (client_cat_indices h))
            (fun error => throw error).

Definition ElasticClient_getMapping (index : any) : M ToolStore value :=
  try_catch (callClient (CallGetMapping index) (fun n => client_getMapping h n index))
            (fun error => throw error).

(** *** [ToolSystem] *)

Definition rephrasePrompt (originalQuery : any) (searchResults : string) : string :=
  "You are an AI assistant helping to summarize and rephrase search results from an Elasticsearch database." ++ nl ++
  nl ++
  "Original Query: " ++ dq ++ JS_String h originalQuery ++ dq ++ nl ++
  nl ++
  "Search Results:" ++ nl ++
  searchResults ++ nl ++
  nl ++
  "Please provide a clear, concise, and well-structured response that:" ++ nl ++
  "1. Directly addresses the original query" ++ nl ++
  "2. Summarizes the most relevant findings from the search results" ++ nl ++
  "3. Highlights key information and patterns" ++ nl ++
  "4. Maintains important technical details" ++ nl ++
  "5. Is easy to understand and actionable" ++ nl ++
  nl ++
  "Focus on what would be most useful for someone trying to understand or work with this codebase data.".

Definition rephraseRequest (originalQuery : any) (searchResults : string) : ChatRequest :=
  {| model := "gpt-4o-mini";
     system_content := "You are a helpful assistant that specializes in analyzing and summarizing code search results. Provide clear, concise, and actionable summaries.";
     user_content := rephrasePrompt originalQuery searchResults;
     max_tokens := 2000 |}.

(** [response.choices[0]?.message?.content || searchResults] *)
Definition firstContentOr (response : ChatCompletion) (searchResults : string) : string :=
  match choices response with
  | Some content :: _ => if String.eqb content "" then searchResults else content
  | _ => searchResults
  end.

Definition rephraseResults (originalQuery : any) (searchResults : string) : M ToolStore string :=
  try_catch
    (response <- callChat (rephraseRequest originalQuery searchResults) ;;
     ret (firstContentOr response searchResults))
    (fun error => ret searchResults).

(** [JSON.stringify({ total, results: hits.map(...) }, null, 2)] *)
Definition formatResult (result : ElasticResult) : string :=
  JSON_stringify h
    (Obj [("total", Num (total_value result));
          ("results",
           Arr (map (fun hit => Obj [("id", Str (_id hit));
                                     ("score", _score hit);
                                     ("source", _source hit)])
                    (hits result)))]).

(** The extraction of the searched text from a structured query; the
    surrounding [try]/[catch] keeps the default when a step throws. *)
Definition extractOriginalQuery (q : any) : any :=
  let default := Some (Str "elasticsearch query") in
  let extracted : result any :=
    if isObjectType q then
      match get q "match" with
      | Throw e => Throw e
      | Ok m =>
          if truthy m then
            match objectValues m with
            | Ok vs => Ok (hd_error vs)
            | Throw e => Throw e
            end
          else if truthy (getOpt (getOpt q "bool") "must") then
            match first (getOpt (getOpt q "bool") "must") with
            | Throw e => Throw e
            | Ok (Some (Str _)) =>
                (* [mustClause.match] is [String.prototype.match]: truthy, and
                   a function has no values of its own. *)
                Ok None
            | Ok mustClause =>
                match get mustClause "match" with
                | Throw e => Throw e
                | Ok mm =>
                    if truthy mm then
                      match objectValues mm with
                      | Ok vs => Ok (hd_error vs)
                      | Throw e => Throw e
                      end
                    else Ok default
                end
            end
          else Ok default
      end
    else Ok default in
  match extracted with
  | Ok v => v
  | Throw _ => default
  end.

Definition searchElastic (args : value) : M ToolStore string :=
  try_catch
    (index <- lift (get (Some args) "index") ;;
     if negb (truthy index) then
       ret ("Error: " ++ "Missing required parameter: index")
     else
       query <- lift (get (Some args) "query") ;;
       if negb (truthy query) then
         ret ("Error: " ++ "Missing required parameter: query" ++
              ". The search_elastic tool requires both " ++ sq ++ "index" ++ sq ++
              " and " ++ sq ++ "query" ++ sq ++ " parameters.")
       else
         size <- lift (get (Some args) "size") ;;
         let q := {| index := index;
                     query := query;
                     size := Some (Js.or size (Num 10));
                     from := None |} in
         result <- ElasticClient_search q ;;
         let formattedResult := formatResult result in
         let condensedResult := Condense.condenseContent formattedResult 128000 in
         let originalQuery := extractOriginalQuery query in
         rephraseResults originalQuery condensedResult)
    (fun error => ret ("Error searching Elasticsearch: " ++ errorMessage error)).

(** The query [simpleSearch] builds. *)
Definition multiMatch (search_text : any) : value :=
  Obj [("multi_match",
        Obj (match search_text with Some t => [("query", t)] | None => [] end ++
             [("fields", Arr [Str "name^2"; Str "content"; Str "file_path"]);
              ("type", Str "best_fields");
              ("fuzziness", Str "AUTO")]))].

Definition simpleQuery (search_text filter_field filter_value : any) : value :=
  if truthy filter_field && truthy filter_value then
    Obj [("bool",
          Obj [("must",
                Arr [multiMatch search_text;
                     Obj [("term",
                           Obj (match filter_value with
                                | Some v => [(JS_String h filter_field, v)]
                                | None => []
                                end))]])])]
  else multiMatch search_text.

Definition simpleSearch (args : value) : M ToolStore string :=
  try_catch
    (index <- lift (get (Some args) "index") ;;
     if negb (truthy index) then
       ret ("Error: " ++ "Missing required parameter: index")
     else
       search_text <- lift (get (Some args) "search_text") ;;
       if negb (truthy search_text) then
         ret ("Error: " ++ "Missing required parameter: search_text")
       else
         filter_field <- lift (get (Some args) "filter_field") ;;
         filter_value <- lift (get (Some args) "filter_value") ;;
         size <- lift (get (Some args) "size") ;;
         let q := {| index := index;
                     query := Some (simpleQuery search_text filter_field filter_value);
                     size := Some (Js.or size (Num 10));
                     from := None |} in
         result <- ElasticClient_search q ;;
         let formattedResult := formatResult result in
         let condensedResult := Condense.condenseContent formattedResult 128000 in
         let originalQuery := Some (Js.or search_text (Str "simple search query")) in
         rephraseResults originalQuery condensedResult)
    (fun error => ret ("Error in simple search: " ++ errorMessage error)).

Definition listIndices : M ToolStore string :=
  try_catch
    (indices <- ElasticClient_getIndices ;;
     ret ("Available indices: " ++ String.concat ", " indices))
    (fun error => ret ("Error listing indices: " ++ errorMessage error)).

Definition getMapping (args : value) : M ToolStore string :=
  try_catch
    (index <- lift (get (Some args) "index") ;;
     mapping <- ElasticClient_getMapping index ;;
     ret ("Mapping for index " ++ dq ++ JS_String h index ++ dq ++ ":" ++ nl ++
          JSON_stringify h mapping))
    (fun error => ret ("Error getting mapping: " ++ errorMessage error)).

(** [reply]: the log lines read [args.message?.length] and call
    [args.message?.substring(0, 100)], which throws when the message is
    neither a string nor nullish. *)
Definition reply (args : value) : M ToolStore string :=
  message <- lift (get (Some args) "message") ;;
  match message with
  | None | Some Null | Some (Str _) => ret ("REPLY: " ++ JS_String h message)
  | Some _ => throw (Error "args.message?.substring is not a function")
  end.

(** [++this.executionCounter] *)
Definition nextExecutionId : M ToolStore Z :=
  fun t =>
    (Ok (executionCounter t + 1),
     {| executionCounter := executionCounter t + 1;
        clientCalls := clientCalls t;
        chatCalls := chatCalls t |}).

(** [logToolStart] evaluates [Object.keys(args).length]. *)
Definition logToolStart (args : value) : M ToolStore unit :=
  _ <- lift (objectKeysLength args) ;; ret tt.

(** [executeTool]: its [catch] logs the error and rethrows it. *)
Definition executeTool (toolCall : ToolCall) : M ToolStore string :=
  executionId <- nextExecutionId ;;
  logToolStart (arguments toolCall) ;;
  try_catch
    (if String.eqb (name toolCall) "search_elastic" then searchElastic (arguments toolCall)
     else if String.eqb (name toolCall) "simple_search" then simpleSearch (arguments toolCall)
     else if String.eqb (name toolCall) "list_indices" then listIndices
     else if String.eqb (name toolCall) "get_mapping" then getMapping (arguments toolCall)
     else if String.eqb (name toolCall) "reply" then reply (arguments toolCall)
     else throw (Error ("Unknown tool: " ++ name toolCall)))
    (fun error => throw error).

End WithHost.

(** *** The declared tool set ([getTools]) *)

Record Property : Type := {
  prop_name : string;
  prop_type : string;
  prop_description : string
}.

Record Tool : Type := {
  tool_name : string;
  tool_description : string;
  properties : list Property;
  required : list string
}.

Definition search_elastic_tool : Tool :=
  {| tool_name := "search_elastic";
     tool_description := "Search the Elasticsearch database with a specific query. IMPORTANT: Both index and query parameters are required. Use this to find documents from the database with structured Elasticsearch queries.";
     properties :=
       [ {| prop_name := "index"; prop_type := "string";
            prop_description := "The Elasticsearch index to search in (e.g., " ++ dq ++ "codebase-store" ++ dq ++ ")" |};
         {| prop_name := "query"; prop_type := "object";
            prop_description :=
              "REQUIRED: The Elasticsearch query object. Examples: {" ++ dq ++ "match_all" ++ dq ++ ": {}}, {"
              ++ dq ++ "match" ++ dq ++ ": {" ++ dq ++ "content" ++ dq ++ ": " ++ dq ++ "search_term" ++ dq ++ "}}, {"
              ++ dq ++ "term" ++ dq ++ ": {" ++ dq ++ "extension" ++ dq ++ ": " ++ dq ++ "ts" ++ dq ++ "}}, {"
              ++ dq ++ "bool" ++ dq ++ ": {" ++ dq ++ "must" ++ dq ++ ": [{" ++ dq ++ "match" ++ dq ++ ": {"
              ++ dq ++ "content" ++ dq ++ ": " ++ dq ++ "function" ++ dq ++ "}}, {" ++ dq ++ "term" ++ dq ++ ": {"
              ++ dq ++ "extension" ++ dq ++ ": " ++ dq ++ "js" ++ dq ++ "}}]}}" |};
         {| prop_name := "size"; prop_type := "number";
            prop_description := "Number of results to return (default: 10, max: 100)" |} ];
     required := ["index"; "query"] |}.

Definition simple_search_tool : Tool :=
  {| tool_name := "simple_search";
     tool_description := "Perform a simple text search across codebase documents. This is easier to use than search_elastic for basic queries.";
     properties :=
       [ {| prop_name := "index"; prop_type := "string";
            prop_description := "The index to search in (typically " ++ dq ++ "codebase-store" ++ dq ++ ")" |};
         {| prop_name := "search_text"; prop_type := "string";
            prop_description := "The text to search for (will search across name, content, and file_path fields)" |};
         {| prop_name := "filter_field"; prop_type := "string";
            prop_description := "Optional field to filter by (e.g., " ++ dq ++ "extension" ++ dq ++ ", "
              ++ dq ++ "element_type" ++ dq ++ ", " ++ dq ++ "repository" ++ dq ++ ")" |};
         {| prop_name := "filter_value"; prop_type := "string";
            prop_description := "Value for the filter field (e.g., " ++ dq ++ "ts" ++ dq ++ ", "
              ++ dq ++ "class" ++ dq ++ ", " ++ dq ++ "my-project" ++ dq ++ ")" |};
         {| prop_name := "size"; prop_type := "number";
            prop_description := "Number of results to return (default: 10)" |} ];
     required := ["index"; "search_text"] |}.

Definition list_indices_tool : Tool :=
  {| tool_name := "list_indices";
     tool_description := "List all available Elasticsearch indices to understand what data is available.";
     properties := [];
     required := [] |}.

Definition get_mapping_tool : Tool :=
  {| tool_name := "get_mapping";
     tool_description := "Get the field mapping for a specific Elasticsearch index to understand the data structure.";
     properties :=
       [ {| prop_name := "index"; prop_type := "string";
            prop_description := "The index name to get mapping for" |} ];
     required := ["index"] |}.

Definition reply_tool : Tool :=
  {| tool_name := "reply";
     tool_description := "Provide the final response to the user and end the search loop. Use this when you have gathered sufficient information to answer the user" ++ sq ++ "s question.";
     properties :=
       [ {| prop_name := "message"; prop_type := "string";
            prop_description := "The final response message to send to the user" |} ];
     required := ["message"] |}.

Definition getTools : list Tool :=
  [search_elastic_tool; simple_search_tool; list_indices_tool; get_mapping_tool; reply_tool].

End Tools.

(** ** The completion provider ([ai-providers.ts], [providers/openai-provider.ts]) *)

Module Provider.
Import Js Eff JsString.

Inductive Role : Type := system | user | assistant | tool.

(** [ToolCall] of [ai-providers.ts] ([type] is always ['function']). *)
Record ToolFunction : Type := {
  name : string;
  arguments : string
}.

Record ToolCall : Type := {
  id : string;
  function : ToolFunction
}.

(** A JavaScript array of tool calls; [None] is a hole, which reads as
    [undefined]. *)
Definition ToolCallArray : Type := list (option ToolCall).

Record AIMessage : Type := {
  role : Role;
  content : option string;
  tool_calls : option ToolCallArray;
  tool_call_id : option string;
  msg_name : option string
}.

Record StreamingResponse : Type := {
  response_content : string;
  response_tool_calls : option ToolCallArray
}.

(** The observer [onContent], when there is one, appends to the log of what
    was shown (an observer that throws is not modelled). *)
Definition Shown : Type := list string.

Definition emit (onContent : bool) (text : string) : M Shown unit :=
  if onContent then modify (fun shown => (shown ++ [text])%list) else ret tt.

(** The [AIProvider] interface. *)
Class AIProvider : Type := {
  streamCompletion : list AIMessage -> list Tools.Tool -> bool -> M Shown StreamingResponse
}.

(** *** Reading and writing a JavaScript array *)

(** [a[i]] *)
Definition read {A} (a : list (option A)) (i : nat) : option A :=
  match nth_error a i with
  | Some x => x
  | None => None
  end.

(** [a[i] = v]: past the end the array grows, leaving holes. *)
Fixpoint write {A} (a : list (option A)) (i : nat) (v : A) : list (option A) :=
  match i, a with
  | O, [] => [Some v]
  | O, _ :: rest => Some v :: rest
  | S i', [] => None :: write [] i' v
  | S i', x :: rest => x :: write rest i' v
  end.

(** *** The stream of [OpenAIProvider] *)

Record FunctionDelta : Type := {
  delta_name : option string;
  delta_arguments : option string
}.

Record ToolCallDelta : Type := {
  delta_index : option nat;
  delta_id : option string;
  delta_function : option FunctionDelta
}.

Record Delta : Type := {
  delta_content : option string;
  delta_tool_calls : option (list ToolCallDelta)
}.

(** A chunk with [chunk.choices[0]?.delta]. *)
Record Chunk : Type := {
  delta : option Delta
}.

(** A stream delivers its chunks and then ends or fails. *)
Record Stream : Type := {
  chunks : list Chunk;
  failure : option thrown
}.

Record OpenAIMessage : Type := {
  oa_role : Role;
  oa_content : string;
  oa_tool_calls : option ToolCallArray;
  oa_tool_call_id : option string
}.

Record CompletionRequest : Type := {
  req_model : string;
  req_messages : list OpenAIMessage;
  req_tools : list Tools.Tool
}.

Definition orEmpty (s : option string) : string :=
  match s with
  | Some x => x
  | None => ""
  end.

Definition nonEmpty (s : option string) : bool :=
  negb (String.eqb (orEmpty s) "").

Definition toOpenAIMessage (msg : AIMessage) : OpenAIMessage :=
  match role msg with
  | tool =>
      {| oa_role := tool;
         oa_content := orEmpty (content msg);
         oa_tool_calls := None;
         oa_tool_call_id := tool_call_id msg |}
  | r =>
      {| oa_role := r;
         oa_content := orEmpty (content msg);
         oa_tool_calls :=
           match tool_calls msg with
           | Some calls => if (0 <? List.length calls)%nat then Some calls else None
           | None => None
           end;
         oa_tool_call_id := None |}
  end.

(** The local variables of [streamCompletion]. *)
Record Locals : Type := {
  fullContent : string;
  toolCalls : ToolCallArray;
  isStreamingContent : bool
}.

Definition initialLocals : Locals :=
  {| fullContent := ""; toolCalls := []; isStreamingContent := false |}.

Definition appendName (call : ToolCall) (fragment : string) : ToolCall :=
  {| id := id call;
     function := {| name := name (function call) ++ fragment;
                    arguments := arguments (function call) |} |}.

Definition appendArguments (call : ToolCall) (fragment : string) : ToolCall :=
  {| id := id call;
     function := {| name := name (function call);
                    arguments := arguments (function call) ++ fragment |} |}.

(** [toolCallDelta.function?.name] and [toolCallDelta.function?.arguments] *)
Definition nameOf (d : ToolCallDelta) : option string :=
  match delta_function d with
  | Some f => delta_name f
  | None => None
  end.

Definition argumentsOf (d : ToolCallDelta) : option string :=
  match delta_function d with
  | Some f => delta_arguments f
  | None => None
  end.

(** The body of [for (const toolCallDelta of delta.tool_calls)]. *)
Definition applyToolCallDelta (calls : ToolCallArray) (d : ToolCallDelta) : ToolCallArray :=
  match delta_index d with
  | None => calls
  | Some i =>
      let calls1 :=
        match read calls i with
        | Some _ => calls
        | None =>
            write calls i
              {| id := orEmpty (delta_id d);
                 function := {| name := ""; arguments := "" |} |}
        end in
      match read calls1 i with
      | None => calls1
      | Some toolCall =>
          let toolCall1 :=
            if nonEmpty (nameOf d) then appendName toolCall (orEmpty (nameOf d))
            else toolCall in
          let toolCall2 :=
            if nonEmpty (argumentsOf d) then appendArguments toolCall1 (orEmpty (argumentsOf d))
            else toolCall1 in
          write calls1 i toolCall2
      end
  end.

(** The characters between the newline and " AI Agent: " in the literal of
    [openai-provider.ts], line 63: U+00F0 U+0178 U+2019 U+00AD (a thought
    balloon read in the wrong encoding), as the bytes C3 B0 C5 B8 E2 80 99
    C2 AD of their UTF-8 encoding. *)
Definition thoughtBalloon : string :=
  String (ascii_of_nat 195) (String (ascii_of_nat 176)
    (String (ascii_of_nat 197) (String (ascii_of_nat 184)
      (String (ascii_of_nat 226) (String (ascii_of_nat 128) (String (ascii_of_nat 153)
        (String (ascii_of_nat 194) (String (ascii_of_nat 173) EmptyString)))))))).

(** The body of [for await (const chunk of stream)]. *)
Definition onChunk (onContent : bool) (l : Locals) (chunk : Chunk) : M Shown Locals :=
  match delta chunk with
  | None => ret l
  | Some d =>
      (l1 <-
         (if nonEmpty (delta_content d) then
            (if negb (isStreamingContent l) && onContent
             then emit onContent (nl ++ thoughtBalloon ++ " AI Agent: ")
             else ret tt) ;;
            emit onContent (orEmpty (delta_content d)) ;;
            ret {| fullContent := fullContent l ++ orEmpty (delta_content d);
                   toolCalls := toolCalls l;
                   isStreamingContent := isStreamingContent l || onContent |}
          else ret l) ;;
       match delta_tool_calls d with
       | None => ret l1
       | Some deltas =>
           ret {| fullContent := fullContent l1;
                  toolCalls := fold_left applyToolCallDelta deltas (toolCalls l1);
                  isStreamingContent := isStreamingContent l1 |}
       end)%eff
  end.

Fixpoint onChunks (onContent : bool) (l : Locals) (cs : list Chunk) : M Shown Locals :=
  match cs with
  | [] => ret l
  | c :: rest => (l' <- onChunk onContent l c ;; onChunks onContent l' rest)%eff
  end.

Definition consume (onContent : bool) (stream : Stream) : M Shown Locals :=
  (l <- onChunks onContent initialLocals (chunks stream) ;;
   match failure stream with
   | Some e => throw e
   | None => ret l
   end)%eff.

(** [OpenAIProvider.streamCompletion], for a provider constructed with
    [model] over a completion service [create]. *)
Definition OpenAI_streamCompletion
    (model : string) (create : CompletionRequest -> result Stream)
    (messages : list AIMessage) (tools : list Tools.Tool) (onContent : bool)
    : M Shown StreamingResponse :=
  (stream <- lift (create {| req_model := model;
                             req_messages := map toOpenAIMessage messages;
                             req_tools := tools |}) ;;
   l <- consume onContent stream ;;
   (if isStreamingContent l && onContent then emit onContent nl else ret tt) ;;
   ret {| response_content := fullContent l;
          response_tool_calls :=
            if (0 <? List.length (toolCalls l))%nat then Some (toolCalls l) else None |})%eff.

Definition OpenAIProvider (model : string) (create : CompletionRequest -> result Stream)
    : AIProvider :=
  {| streamCompletion := OpenAI_streamCompletion model create |}.

(** The tool-call deltas of a stream, in arrival order. *)
Definition deltasOf (cs : list Chunk) : list ToolCallDelta :=
  flat_map (fun c =>
              match delta c with
              | Some d => match delta_tool_calls d with Some ds => ds | None => [] end
              | None => []
              end) cs.

(** The fragments that carry index [i], in arrival order. *)
Definition fragmentsAt (i : nat) (ds : list ToolCallDelta) : list ToolCallDelta :=
  filter (fun d => match delta_index d with Some j => Nat.eqb i j | None => false end) ds.

Definition concatNames (ds : list ToolCallDelta) : string :=
  String.concat "" (map (fun d => orEmpty (nameOf d)) ds).

Definition concatArguments (ds : list ToolCallDelta) : string :=
  String.concat "" (map (fun d => orEmpty (argumentsOf d)) ds).

(** What a fragment makes of the slot of its index. *)
Definition absorb (slot : option ToolCall) (d : ToolCallDelta) : ToolCall :=
  let call :=
    match slot with
    | Some call => call
    | None => {| id := orEmpty (delta_id d); function := {| name := EmptyString; arguments := EmptyString |} |}
    end in
  {| id := id call;
     function := {| name := name (function call) ++ orEmpty (nameOf d);
                    arguments := arguments (function call) ++ orEmpty (argumentsOf d) |} |}.

(** The call the fragments [ds] of one index spell out: the [id] of the
    first fragment, and the names and the arguments concatenated in order. *)
Definition assembled (ds : list ToolCallDelta) : option ToolCall :=
  match ds with
  | [] => None
  | d :: _ =>
      Some {| id := orEmpty (delta_id d);
              function := {| name := concatNames ds; arguments := concatArguments ds |} |}
  end.

(** [response.tool_calls], an empty array when it is [undefined]. *)
Definition responseCalls (response : StreamingResponse) : ToolCallArray :=
  match response_tool_calls response with
  | Some calls => calls
  | None => []
  end.

End Provider.

(** ** The agent loop ([ai-agent.ts], [types.ts]) *)

Module Agent.
Import Js Eff JsString.

(** [AgentMessage] and [AgentState] of [types.ts]. *)
Record AgentMessage : Type := {
  role : Provider.Role;
  content : option string;
  tool_calls : option Provider.ToolCallArray;
  tool_call_id : option string;
  name : option string
}.

Record AgentState : Type := {
  query : string;
  messages : list AgentMessage;
  elasticResults : list Tools.ElasticResult;
  isComplete : bool;
  finalResponse : any
}.

(** An [AIAgent] instance: its state, its [ToolSystem] (with the services
    behind it) and what its observer was shown. *)
Record World : Type := {
  state : AgentState;
  toolSystem : Tools.ToolStore;
  shown : Provider.Shown
}.

Definition systemPrompt : string :=
  "You are an AI assistant that helps users query and analyze data from an Elasticsearch database. " ++ nl ++
  nl ++
  "Your goal is to:" ++ nl ++
  "1. Understand the user's question" ++ nl ++
  "2. Explore the available data in Elasticsearch" ++ nl ++
  "3. Refine your searches to find the most relevant information" ++ nl ++
  "4. Provide a comprehensive answer based on the data found" ++ nl ++
  nl ++
  "Available tools:" ++ nl ++
  "- search_elastic: Search the database with specific queries" ++ nl ++
  "- list_indices: See what data collections are available" ++ nl ++
  "- get_mapping: Understand the structure of data in an index" ++ nl ++
  "- reply: Provide your final answer to the user" ++ nl ++
  nl ++
  "Always start by exploring what data is available, then progressively refine your searches. When you have enough information to answer the user's question comprehensively, use the reply tool to provide your final response.".

Definition fallbackMessage : string :=
  "I apologize, but I'm having trouble finding a complete answer. Please try rephrasing your question or being more specific.".

Definition noResponse : string := "No response generated.".

Definition errorResponse (error : thrown) : string :=
  "An error occurred while processing your request: " ++ errorMessage error.

(** The message-count ceiling of the safety check. *)
Definition ceiling : nat := 20.

Definition withState (f : AgentState -> AgentState) : M World unit :=
  modify (fun w => {| state := f (state w); toolSystem := toolSystem w; shown := shown w |}).

Definition push (m : AgentMessage) : M World unit :=
  withState (fun s => {| query := query s;
                         messages := messages s ++ [m];
                         elasticResults := elasticResults s;
                         isComplete := isComplete s;
                         finalResponse := finalResponse s |}).

(** [this.state.finalResponse = r; this.state.isComplete = true] *)
Definition complete (r : any) : M World unit :=
  withState (fun s => {| query := query s;
                         messages := messages s;
                         elasticResults := elasticResults s;
                         isComplete := true;
                         finalResponse := r |}).

Definition onTools {A} (m : M Tools.ToolStore A) : M World A :=
  zoom toolSystem
       (fun t w => {| state := state w; toolSystem := t; shown := shown w |}) m.

Definition onShown {A} (m : M Provider.Shown A) : M World A :=
  zoom shown
       (fun sh w => {| state := state w; toolSystem := toolSystem w; shown := sh |}) m.

Definition initializeState (userQuery : string) : M World unit :=
  modify (fun w =>
    {| state := {| query := userQuery;
                   messages :=
                     [ {| role := Provider.system; content := Some systemPrompt;
                          tool_calls := None; tool_call_id := None; name := None |};
                       {| role := Provider.user; content := Some userQuery;
                          tool_calls := None; tool_call_id := None; name := None |} ];
                   elasticResults := [];
                   isComplete := false;
                   finalResponse := None |};
       toolSystem := toolSystem w;
       shown := shown w |}).

(** [content: msg.content || undefined] and the other fields as they are. *)
Definition toProviderMessage (msg : AgentMessage) : Provider.AIMessage :=
  {| Provider.role := role msg;
     Provider.content := if Provider.nonEmpty (content msg) then content msg else None;
     Provider.tool_calls := tool_calls msg;
     Provider.tool_call_id := tool_call_id msg;
     Provider.msg_name := name msg |}.

Section WithServices.
Variable h : Tools.Host.
Variable aiProvider : Provider.AIProvider.
(** Whether [onStreamingContent] is set. *)
Variable onStreamingContent : bool.

Local Open Scope eff_scope.

Definition callAIProvider : M World Provider.StreamingResponse :=
  msgs <- gets (fun w => messages (state w)) ;;
  response <- onShown (Provider.streamCompletion (map toProviderMessage msgs)
                                                 Tools.getTools onStreamingContent) ;;
  push {| role := Provider.assistant;
          content := Some (Provider.response_content response);
          tool_calls := Provider.response_tool_calls response;
          tool_call_id := None;
          name := None |} ;;
  ret response.

(** The [for] loop of [handleToolCalls], from the current position on. *)
Fixpoint dispatch (toolCalls : Provider.ToolCallArray) : M World unit :=
  match toolCalls with
  | [] => ret tt
  | None :: _ => throw (readOfNullish "undefined" "function")
  | Some toolCall :: rest =>
      let toolName := Provider.name (Provider.function toolCall) in
      match Tools.JSON_parse h (Provider.arguments (Provider.function toolCall)) with
      | None => dispatch rest
      | Some toolArgs =>
          result <-
            try_catch
              (onTools (Tools.executeTool h
                          {| Tools.name := toolName; Tools.arguments := toolArgs |}))
              (fun toolError =>
                 ret ("Error executing " ++ toolName ++ ": " ++ errorMessage toolError)) ;;
          if String.eqb toolName "reply" then
            message <- lift (get (Some toolArgs) "message") ;;
            complete message
          else
            push {| role := Provider.tool;
                    content := Some result;
                    tool_calls := None;
                    tool_call_id := Some (Provider.id toolCall);
                    name := Some toolName |} ;;
            dispatch rest
      end
  end.

Definition handleToolCalls (toolCalls : Provider.ToolCallArray) : M World unit :=
  onShown (Provider.emit onStreamingContent nl) ;;
  dispatch toolCalls.

(** [if (response.tool_calls && response.tool_calls.length > 0) ...
    else if (response.content) ...] *)
Definition route (response : Provider.StreamingResponse) : M World unit :=
  match Provider.response_tool_calls response with
  | Some calls =>
      if (0 <? List.length calls)%nat then handleToolCalls calls
      else if negb (String.eqb (Provider.response_content response) "") then
        complete (Some (Str (Provider.response_content response)))
      else ret tt
  | None =>
      if negb (String.eqb (Provider.response_content response) "") then
        complete (Some (Str (Provider.response_content response)))
      else ret tt
  end.

(** The safety check: [if (this.state.messages.length > 20) ...] *)
Definition enforceCeiling : M World unit :=
  count <- gets (fun w => List.length (messages (state w))) ;;
  if (ceiling <? count)%nat then complete (Some (Str fallbackMessage)) else ret tt.

(** The body of the [try] block of [processQuery]. *)
Definition turn : M World unit :=
  response <- callAIProvider ;;
  route response ;;
  enforceCeiling.

(** One pass through the body of the [while] loop. *)
Definition iteration : M World unit :=
  try_catch turn (fun error => complete (Some (Str (errorResponse error)))).

(** [while (!this.state.isComplete) { ... }], at most [fuel] passes;
    [None] when the passes did not suffice. *)
Fixpoint loop (fuel : nat) (w : World) : option (result unit * World) :=
  if isComplete (state w) then Some (Ok tt, w)
  else
    match fuel with
    | O => None
    | S fuel' =>
        match iteration w with
        | (Ok _, w') => loop fuel' w'
        | (Throw e, w') => Some (Throw e, w')
        end
    end.

Definition processQueryWithin (fuel : nat) (userQuery : string) (w : World)
    : option (result value * World) :=
  match initializeState userQuery w with
  | (Throw e, w0) => Some (Throw e, w0)
  | (Ok _, w0) =>
      match loop fuel w0 with
      | None => None
      | Some (Throw e, w1) => Some (Throw e, w1)
      | Some (Ok _, w1) =>
          Some (Ok (Js.or (finalResponse (state w1)) (Str noResponse)), w1)
      end
  end.

(** No run makes more than [maxPasses] passes (see [loop_terminates]). *)
Definition maxPasses : nat := 19.

Definition processQuery (userQuery : string) (w : World) : option (result value * World) :=
  processQueryWithin maxPasses userQuery w.

(** The instance after [n] passes through the body of the [while] loop, or
    as the loop left it when it ended before. *)
Fixpoint afterPasses (n : nat) (w : World) : World :=
  match n with
  | O => w
  | S n' => if isComplete (state w) then w else afterPasses n' (snd (iteration w))
  end.

(** What the completion service returns when the instance [w] calls it. *)
Definition completionAt (w : World) : result Provider.StreamingResponse * Provider.Shown :=
  Provider.streamCompletion (map toProviderMessage (messages (state w)))
    Tools.getTools onStreamingContent (shown w).

End WithServices.
(** A request that is there (no hole) and is not a [reply] whose payload
    parses. *)
Definition plainRequest (h : Tools.Host) (slot : option Provider.ToolCall) : bool :=
  match slot with
  | None => false
  | Some toolCall =>
      negb (String.eqb (Provider.name (Provider.function toolCall)) "reply"
            && match Tools.JSON_parse h (Provider.arguments (Provider.function toolCall)) with
               | Some _ => true
               | None => false
               end)
  end.

(** A response that asks for between 1 and [k] tools and holds no reply. *)
Definition toolsOnly (h : Tools.Host) (k : nat) (response : Provider.StreamingResponse) : bool :=
  match Provider.response_tool_calls response with
  | Some calls =>
      (0 <? List.length calls)%nat && (List.length calls <=? k)%nat
      && forallb (plainRequest h) calls
  | None => false
  end.

(** A completion service that, whatever conversation it is given, returns
    normally a batch of between 1 and [k] tool calls without a hole and
    without a reply whose payload parses. *)
Definition neverReplies (h : Tools.Host) (aiProvider : Provider.AIProvider) (k : nat) : Prop :=
  forall messages tools onContent shown,
  exists response shown',
    Provider.streamCompletion messages tools onContent shown = (Ok response, shown') /\
    toolsOnly h k response = true.

(** A run of the loop from [w0] in which the completion service, at every
    turn the run comes to, returns normally a batch of between 1 and [k]
    tool calls without a hole and without a reply whose payload parses. *)
Definition asksForToolsAtEveryTurn (h : Tools.Host) (aiProvider : Provider.AIProvider)
    (onStreamingContent : bool) (k : nat) (w0 : World) : Prop :=
  forall n,
    isComplete (state (afterPasses h aiProvider onStreamingContent n w0)) = false ->
    exists response shown',
      completionAt aiProvider onStreamingContent
        (afterPasses h aiProvider onStreamingContent n w0)
      = (Ok response, shown') /\
      toolsOnly h k response = true.

(** The number of stored messages. *)
Definition stored (w : World) : nat := List.length (messages (state w)).

(** What a run returns and how many messages it leaves stored. *)
Definition outcome (run : option (result value * World)) : option (result value * nat) :=
  match run with
  | Some (r, w) => Some (r, List.length (messages (state w)))
  | None => None
  end.

End Agent.


(** ** Concrete services and conversations, for the examples *)

Module Samples.
Import Js Eff.

Definition quoted (s : string) : string := dq ++ s ++ dq.

(** Raw argument payloads: [{}], [{"message":"done"}], [{"message":""}] and
    a payload that is not JSON. *)
Definition rawEmptyObject : string := "{}".
Definition rawReplyDone : string := "{" ++ quoted "message" ++ ":" ++ quoted "done" ++ "}".
Definition rawReplyEmpty : string := "{" ++ quoted "message" ++ ":" ++ quoted EmptyString ++ "}".
Definition rawBroken : string := "{oops".

(** [JSON.parse] on the payloads above. *)
Definition sampleParse (raw : string) : option value :=
  if String.eqb raw rawEmptyObject then Some (Obj [])
  else if String.eqb raw rawReplyDone then Some (Obj [("message", Str "done")])
  else if String.eqb raw rawReplyEmpty then Some (Obj [("message", Str EmptyString)])
  else None.

(** String coercion of the values the examples coerce. *)
Definition sampleString (v : any) : string :=
  match v with
  | None => "undefined"
  | Some Null => "null"
  | Some (Str s) => s
  | Some (Bool true) => "true"
  | Some (Bool false) => "false"
  | Some _ => "[object Object]"
  end.

(** [JSON.stringify(v, null, 2)] on the two values the examples render: the
    empty object and the report of an empty result set. *)
Definition sampleStringify (v : value) : string :=
  match v with
  | Obj [] => "{}"
  | _ => "{" ++ JsString.nl ++ "  " ++ quoted "total" ++ ": 0," ++ JsString.nl ++
         "  " ++ quoted "results" ++ ": []" ++ JsString.nl ++ "}"
  end.

(** A backend with two collections and no documents, and a completion
    service that is out of quota. *)
Definition sampleHost : Tools.Host :=
  {| Tools.JSON_parse := sampleParse;
     Tools.JSON_stringify := sampleStringify;
     Tools.JS_String := sampleString;
     Tools.client_search := fun _ _ => Ok {| Tools.total_value := 0; Tools.hits := [] |};
     Tools.client_cat_indices := fun _ => Ok ["logs"; "users"];
     Tools.client_getMapping := fun _ _ => Ok (Obj []);
     Tools.chat_create := fun _ _ => Throw (Error "You exceeded your current quota") |}.

Definition request (id name arguments : string) : Provider.ToolCall :=
  {| Provider.id := id;
     Provider.function := {| Provider.name := name; Provider.arguments := arguments |} |}.

Definition call (id name arguments : string) : option Provider.ToolCall :=
  Some (request id name arguments).

Definition answer (content : string) (calls : Provider.ToolCallArray)
    : M Provider.Shown Provider.StreamingResponse :=
  ret {| Provider.response_content := content;
         Provider.response_tool_calls :=
           match calls with [] => None | _ => Some calls end |}.

(** A completion service that is unreachable. *)
Definition failingProvider : Provider.AIProvider :=
  {| Provider.streamCompletion := fun _ _ _ => throw (Error "Connection error.") |}.

(** A completion service that asks for [list_indices] on every turn. *)
Definition listingProvider : Provider.AIProvider :=
  {| Provider.streamCompletion := fun _ _ _ =>
       answer "Let me look at the indices." [call "call_1" "list_indices" rawEmptyObject] |}.

(** A completion service that replies with [raw] at once. *)
Definition promptProvider (raw : string) : Provider.AIProvider :=
  {| Provider.streamCompletion := fun _ _ _ =>
       answer EmptyString [call "call_1" "reply" raw] |}.

(** A completion service that asks for [list_indices] on each of its first
    nine turns and replies with [raw] on the tenth. *)
Definition replyingProvider (raw : string) : Provider.AIProvider :=
  {| Provider.streamCompletion := fun messages _ _ =>
       if (List.length messages <? 20)%nat
       then answer "Let me look at the indices." [call "call_1" "list_indices" rawEmptyObject]
       else answer EmptyString [call "call_2" "reply" raw] |}.

Definition freshWorld : Agent.World :=
  {| Agent.state := {| Agent.query := EmptyString;
                       Agent.messages := [];
                       Agent.elasticResults := [];
                       Agent.isComplete := false;
                       Agent.finalResponse := None |};
     Agent.toolSystem := Tools.initialToolStore;
     Agent.shown := [] |}.

(** A batch with a request whose payload does not parse between two that do. *)
Definition brokenRequest : Provider.ToolCall := request "call_2" "search_elastic" rawBroken.

Definition mixedBatch : Provider.ToolCallArray :=
  [call "call_1" "list_indices" rawEmptyObject;
   Some brokenRequest;
   call "call_3" "reply" rawReplyDone].

Definition userQuestion : string := "list the available data".

(** The tool calls of the last stored message of a run. *)
Definition lastBatch (run : option (result value * Agent.World)) : option Provider.ToolCallArray :=
  match run with
  | Some (_, w) =>
      match rev (Agent.messages (Agent.state w)) with
      | m :: _ => Agent.tool_calls m
      | [] => None
      end
  | None => None
  end.

(** A stream that interleaves the fragments of two tool calls. *)
Definition fragment (i : nat) (id name arguments : option string) : Provider.ToolCallDelta :=
  {| Provider.delta_index := Some i;
     Provider.delta_id := id;
     Provider.delta_function :=
       Some {| Provider.delta_name := name; Provider.delta_arguments := arguments |} |}.

Definition toolChunk (ds : list Provider.ToolCallDelta) : Provider.Chunk :=
  {| Provider.delta := Some {| Provider.delta_content := None;
                               Provider.delta_tool_calls := Some ds |} |}.

Definition sampleStream : Provider.Stream :=
  {| Provider.chunks :=
       [ toolChunk [fragment 1 (Some "call_b") (Some "re") None];
         toolChunk [fragment 0 (Some "call_a") (Some "list_") (Some "{")];
         toolChunk [fragment 1 None (Some "ply") (Some "{}");
                    fragment 0 None (Some "indices") (Some "}")] ];
     Provider.failure := None |}.

Definition sampleText : string := "abcdefghijklmnopqrstuvwxyz".

(** A [search_elastic] request for 500 hits. *)
Definition oversizedSearch : value :=
  Obj [("index", Str "codebase-store");
       ("query", Obj [("match_all", Obj [])]);
       ("size", Num 500)].

End Samples.


(** ** The AI SDK provider ([providers/ai-sdk-provider.ts]) *)

Module AiSdk.
Import Js Eff JsString.

(** The messages of the AI SDK: a text, or a list of parts. *)
Inductive Part : Type :=
| TextPart (text : string)
| ToolCallPart (toolCallId toolName : string) (args : value)
| ToolResultPart (toolCallId : option string) (toolName result : string).

Inductive Content : Type :=
| Plain (text : string)
| Parts (parts : list Part).

Record Message : Type := {
  role : Provider.Role;
  content : Content
}.

(** [result.textStream]: it delivers its pieces and then ends or fails. *)
Record TextStream : Type := {
  deltas : list string;
  failure : option thrown
}.

Section WithHost.
Variable h : Tools.Host.
(** What [JSON.parse] throws on a text that is not JSON. *)
Variable syntaxError : string -> thrown.
Variable model : string.
(** [streamText({ model, messages })] *)
Variable streamText : string -> list Message -> result TextStream.

(** [msg.tool_calls.forEach(tc => content.push({ ..., args:
    JSON.parse(tc.function.arguments) }))]; [forEach] skips holes. *)
Fixpoint toolCallParts (calls : Provider.ToolCallArray) : result (list Part) :=
  match calls with
  | [] => Ok []
  | None :: rest => toolCallParts rest
  | Some tc :: rest =>
      match Tools.JSON_parse h (Provider.arguments (Provider.function tc)) with
      | None => Throw (syntaxError (Provider.arguments (Provider.function tc)))
      | Some args =>
          match toolCallParts rest with
          | Ok parts =>
              Ok (ToolCallPart (Provider.id tc) (Provider.name (Provider.function tc)) args
                  :: parts)
          | Throw e => Throw e
          end
      end
  end.

Definition plain (msg : Provider.AIMessage) : Message :=
  {| role := Provider.role msg;
     content := Plain (Provider.orEmpty (Provider.content msg)) |}.

(** The body of [for (const msg of messages)]. *)
Definition convert (msg : Provider.AIMessage) : result Message :=
  match Provider.role msg with
  | Provider.tool =>
      Ok {| role := Provider.tool;
            content :=
              Parts [ToolResultPart (Provider.tool_call_id msg)
                       (if Provider.nonEmpty (Provider.msg_name msg)
                        then Provider.orEmpty (Provider.msg_name msg)
                        else "unknown")
                       (Provider.orEmpty (Provider.content msg))] |}
  | Provider.assistant =>
      match Provider.tool_calls msg with
      | Some calls =>
          if (0 <? List.length calls)%nat then
            match toolCallParts calls with
            | Ok parts =>
                Ok {| role := Provider.assistant;
                      content :=
                        Parts ((if Provider.nonEmpty (Provider.content msg)
                                then [TextPart (Provider.orEmpty (Provider.content msg))]
                                else []) ++ parts) |}
            | Throw e => Throw e
            end
          else Ok (plain msg)
      | None => Ok (plain msg)
      end
  | _ => Ok (plain msg)
  end.

Fixpoint convertAll (messages : list Provider.AIMessage) : result (list Message) :=
  match messages with
  | [] => Ok []
  | msg :: rest =>
      match convert msg with
      | Throw e => Throw e
      | Ok m =>
          match convertAll rest with
          | Ok ms => Ok (m :: ms)
          | Throw e => Throw e
          end
      end
  end.

(** The character between the newline and " AI Agent: " in the literal of
    [ai-sdk-provider.ts], line 87: U+1F4AD, as the bytes F0 9F 92 AD of its
    UTF-8 encoding. *)
Definition thoughtBalloon : string :=
  String (ascii_of_nat 240) (String (ascii_of_nat 159)
    (String (ascii_of_nat 146) (String (ascii_of_nat 173) EmptyString))).

(** The body of [for await (const delta of result.textStream)]. *)
Definition onDelta (onContent : bool) (l : Provider.Locals) (delta : string)
    : M Provider.Shown Provider.Locals :=
  (if negb (String.eqb delta "") then
     (if negb (Provider.isStreamingContent l) && onContent
      then Provider.emit onContent (nl ++ thoughtBalloon ++ " AI Agent: ")
      else ret tt) ;;
     Provider.emit onContent delta ;;
     ret {| Provider.fullContent := Provider.fullContent l ++ delta;
            Provider.toolCalls := Provider.toolCalls l;
            Provider.isStreamingContent := Provider.isStreamingContent l || onContent |}
   else ret l)%eff.

Fixpoint onDeltas (onContent : bool) (l : Provider.Locals) (ds : list string)
    : M Provider.Shown Provider.Locals :=
  match ds with
  | [] => ret l
  | d :: rest => (l' <- onDelta onContent l d ;; onDeltas onContent l' rest)%eff
  end.

(** [AISdkProvider.streamCompletion]: the tools are not passed on, and no
    tool call is extracted. *)
Definition streamCompletion
    (messages : list Provider.AIMessage) (tools : list Tools.Tool) (onContent : bool)
    : M Provider.Shown Provider.StreamingResponse :=
  (aiSdkMessages <- lift (convertAll messages) ;;
   result <- lift (streamText model aiSdkMessages) ;;
   l <- onDeltas onContent Provider.initialLocals (deltas result) ;;
   (match failure result with
    | Some e => throw e
    | None => ret tt
    end) ;;
   (if Provider.isStreamingContent l && onContent
    then Provider.emit onContent nl else ret tt) ;;
   ret {| Provider.response_content := Provider.fullContent l;
          Provider.response_tool_calls :=
            if (0 <? List.length (Provider.toolCalls l))%nat
            then Some (Provider.toolCalls l) else None |})%eff.

Definition AISdkProvider : Provider.AIProvider :=
  {| Provider.streamCompletion := streamCompletion |}.

End WithHost.

(** The constructor of [AIAgent] chooses the provider by name: ['ai-sdk'],
    and the OpenAI one for every other name and when there is none. *)
Definition selectProvider (provider : option string)
    (aiSdk openai : Provider.AIProvider) : Provider.AIProvider :=
  if String.eqb (if Provider.nonEmpty provider then Provider.orEmpty provider else "openai")
       "ai-sdk"
  then aiSdk else openai.

End AiSdk.

(** ** Configuration ([config.ts]) *)

Module Config.
Import Js.

(** The white space [trim] removes, among the code units below 256. *)
Definition isSpace (a : ascii) : bool :=
  let n := nat_of_ascii a in
  Nat.eqb n 9 || Nat.eqb n 10 || Nat.eqb n 11 || Nat.eqb n 12 || Nat.eqb n 13
  || Nat.eqb n 32 || Nat.eqb n 160.

Fixpoint trimStart (s : string) : string :=
  match s with
  | EmptyString => EmptyString
  | String a s' => if isSpace a then trimStart s' else s
  end.

Fixpoint trimEnd (s : string) : string :=
  match s with
  | EmptyString => EmptyString
  | String a s' =>
      match trimEnd s' with
      | EmptyString => if isSpace a then EmptyString else String a EmptyString
      | rest => String a rest
      end
  end.

(** [s.trim()] *)
Definition trim (s : string) : string := trimEnd (trimStart s).

(** [s.split(c)] for a separator of one character: never empty. *)
Fixpoint splitOn (c : ascii) (s : string) : list string :=
  match s with
  | EmptyString => [EmptyString]
  | String a s' =>
      if Ascii.eqb a c then EmptyString :: splitOn c s'
      else
        match splitOn c s' with
        | piece :: pieces => String a piece :: pieces
        | [] => [String a EmptyString]
        end
  end.

Definition equalsSign : ascii := ascii_of_nat 61.
Definition newline : ascii := ascii_of_nat 10.

(** The assignment a line of the [.env] file makes, if any:
    [const [key, value] = line.split('=')] and, when both are non-empty,
    [process.env[key.trim()] = value.trim()]. *)
Definition assignment (line : string) : option (string * string) :=
  match splitOn equalsSign line with
  | key :: value :: _ =>
      if negb (String.eqb key "") && negb (String.eqb value "")
      then Some (trim key, trim value)
      else None
  | _ => None
  end.

(** [process.env], with names told apart by case: the latest assignment of
    a name comes first.  Names and values are kept as they are assigned (a
    platform that drops an empty name or cuts a value at a NUL character is
    not modelled; [loadConfig] reads neither). *)
Definition Env : Type := list (string * string).

Fixpoint getenv (name : string) (env : Env) : option string :=
  match env with
  | [] => None
  | (k, v) :: rest => if String.eqb name k then Some v else getenv name rest
  end.

Definition assign (env : Env) (line : string) : Env :=
  match assignment line with
  | Some kv => kv :: env
  | None => env
  end.

(** The [.env] file of the working directory, when there is one. *)
Definition EnvFile : Type := option string.

Record Config : Type := {
  openaiApiKey : string;
  elasticsearchUrl : string;
  elasticsearchUsername : option string;
  elasticsearchPassword : option string;
  aiProvider : string;
  aiModel : string
}.

(** [process.env.NAME || fallback] *)
Definition envOr (env : Env) (name fallback : string) : string :=
  match getenv name env with
  | Some v => if String.eqb v "" then fallback else v
  | None => fallback
  end.

(** The environment after the file was read. *)
Definition merged (file : EnvFile) (env : Env) : Env :=
  match file with
  | Some envContent => fold_left assign (splitOn newline envContent) env
  | None => env
  end.

Definition loadConfig (file : EnvFile) (env : Env) : result Config * Env :=
  let env' := merged file env in
  let config :=
    {| openaiApiKey := envOr env' "OPENAI_API_KEY" "";
       elasticsearchUrl := envOr env' "ELASTICSEARCH_URL" "http://localhost:9200";
       elasticsearchUsername := getenv "ELASTICSEARCH_USERNAME" env';
       elasticsearchPassword := getenv "ELASTICSEARCH_PASSWORD" env';
       aiProvider := envOr env' "AI_PROVIDER" "openai";
       aiModel := envOr env' "AI_MODEL" "gpt-4o" |} in
  if String.eqb (openaiApiKey config) ""
  then (Throw (Error "OPENAI_API_KEY is required. Please set it as an environment variable or in a .env file."),
        env')
  else (Ok config, env').

(** Whether the character occurs in the text. *)
Fixpoint occurs (c : ascii) (s : string) : bool :=
  match s with
  | EmptyString => false
  | String a s' => Ascii.eqb a c || occurs c s'
  end.

End Config.

(** ** Derived notions, for stating what the tools and the loop do *)

Module Derived.
Import Js Eff.

(** The names [executeTool] dispatches on. *)
Definition knownTool (name : string) : bool :=
  String.eqb name "search_elastic" || String.eqb name "simple_search"
  || String.eqb name "list_indices" || String.eqb name "get_mapping"
  || String.eqb name "reply".

(** A message the log lines of [reply] can take: a string, [null] or
    [undefined]. *)
Definition loggable (message : any) : bool :=
  match message with
  | None | Some Null | Some (Str _) => true
  | Some _ => false
  end.

(** The tool calls on which [executeTool] throws. *)
Definition refused (toolCall : Tools.ToolCall) : bool :=
  match Tools.arguments toolCall with
  | Null => true
  | args =>
      negb (knownTool (Tools.name toolCall))
      || (String.eqb (Tools.name toolCall) "reply"
          && negb (loggable (getOpt (Some args) "message")))
  end.

(** What one tool execution may add to the logs of the remote services: at
    most one backend call, and a completion request only after one. *)
Definition withinOneCall (t t' : Tools.ToolStore) : Prop :=
  exists (calls : list Tools.ClientCall) (requests : list Tools.ChatRequest),
    Tools.clientCalls t' = (Tools.clientCalls t ++ calls)%list /\
    Tools.chatCalls t' = (Tools.chatCalls t ++ requests)%list /\
    (List.length requests <= List.length calls <= 1)%nat.




(** A text of [n] characters. *)
Fixpoint filler (n : nat) : string :=
  match n with
  | O => EmptyString
  | S n' => String "a" (filler n')
  end.

(** The store in which a tool runs: the counter advanced, the logs as they
    were. *)
Definition started (t : Tools.ToolStore) : Tools.ToolStore :=
  {| Tools.executionCounter := Tools.executionCounter t + 1;
     Tools.clientCalls := Tools.clientCalls t;
     Tools.chatCalls := Tools.chatCalls t |}.

(** The content a chunk carries, if any, and the contents of a stream in
    arrival order. *)
Definition contentOf (chunk : Provider.Chunk) : list string :=
  match Provider.delta chunk with
  | Some d =>
      if Provider.nonEmpty (Provider.delta_content d)
      then [Provider.orEmpty (Provider.delta_content d)]
      else []
  | None => []
  end.

Definition contentsOf (chunks : list Provider.Chunk) : list string :=
  flat_map contentOf chunks.

(** The marker each provider shows before the first piece of content of a
    turn: the two literals differ. *)
Definition streamingMarker : string :=
  JsString.nl ++ Provider.thoughtBalloon ++ " AI Agent: ".

Definition aiSdkMarker : string :=
  JsString.nl ++ AiSdk.thoughtBalloon ++ " AI Agent: ".

(** What an observer is shown for the contents of a turn by a provider with
    that marker: nothing when there is none; otherwise the marker, the
    contents and, once the stream has ended, a newline. *)
Definition display (marker : string) (contents : list string) (ended : bool) : list string :=
  match contents with
  | [] => []
  | _ => (marker :: contents ++ (if ended then [JsString.nl] else []))%list
  end.

(** What an observer is shown of [contents] in the middle of a turn. *)
Definition shownBy (marker : string) (onContent started : bool) (contents : list string)
    : list string :=
  if onContent then (if started then contents else display marker contents false) else [].

(** The length of the array the tool-call fragments build: one more than
    the largest index they carry. *)
Definition arrayLength (ds : list Provider.ToolCallDelta) : nat :=
  fold_left (fun n d => match Provider.delta_index d with
                        | Some i => Nat.max n (S i)
                        | None => n
                        end) ds 0%nat.

(** The conversation [initializeState] starts a query with. *)
Definition opening (userQuery : string) : list Agent.AgentMessage :=
  [ {| Agent.role := Provider.system; Agent.content := Some Agent.systemPrompt;
       Agent.tool_calls := None; Agent.tool_call_id := None; Agent.name := None |};
    {| Agent.role := Provider.user; Agent.content := Some userQuery;
       Agent.tool_calls := None; Agent.tool_call_id := None; Agent.name := None |} ].

(** The assistant message [callAIProvider] stores for a response. *)
Definition assistantMessage (response : Provider.StreamingResponse) : Agent.AgentMessage :=
  {| Agent.role := Provider.assistant;
     Agent.content := Some (Provider.response_content response);
     Agent.tool_calls := Provider.response_tool_calls response;
     Agent.tool_call_id := None;
     Agent.name := None |}.

(** The tool message [handleToolCalls] stores for a request and its result. *)
Definition toolMessage (request : Provider.ToolCall) (result : string) : Agent.AgentMessage :=
  {| Agent.role := Provider.tool;
     Agent.content := Some result;
     Agent.tool_calls := None;
     Agent.tool_call_id := Some (Provider.id request);
     Agent.name := Some (Provider.name (Provider.function request)) |}.

(** The tool calls a message requests. *)
Definition batch (m : Agent.AgentMessage) : Provider.ToolCallArray :=
  match Agent.tool_calls m with
  | Some calls => calls
  | None => []
  end.

(** [m] answers a request of one of the assistant messages [earlier]: it
    carries the id and the name of that request. *)
Definition answers (earlier : list Agent.AgentMessage) (m : Agent.AgentMessage) : Prop :=
  exists a request,
    In a earlier /\ Agent.role a = Provider.assistant /\ In (Some request) (batch a) /\
    Agent.tool_call_id m = Some (Provider.id request) /\
    Agent.name m = Some (Provider.name (Provider.function request)).

(** Every tool message of a conversation answers a request made earlier in
    it. *)
Definition linked (conversation : list Agent.AgentMessage) : Prop :=
  forall earlier m later,
    conversation = (earlier ++ m :: later)%list ->
    Agent.role m = Provider.tool ->
    answers earlier m.

(** The conversation of [w] is linked and extends that of [w0]. *)
Definition extends (w0 w : Agent.World) : Prop :=
  linked (Agent.messages (Agent.state w)) /\
  exists new,
    Agent.messages (Agent.state w) = (Agent.messages (Agent.state w0) ++ new)%list.

(** A response with no tool call. *)
Definition noToolCalls (response : Provider.StreamingResponse) : bool :=
  match Provider.response_tool_calls response with
  | Some (_ :: _) => false
  | _ => true
  end.

(** A completion service that never fails and never says or asks for
    anything. *)
Definition silent (aiProvider : Provider.AIProvider) : Prop :=
  forall messages tools onContent shown,
  exists response shown',
    Provider.streamCompletion messages tools onContent shown = (Ok response, shown') /\
    Provider.response_content response = EmptyString /\
    noToolCalls response = true.

(** A completion service whose responses never hold a tool call. *)
Definition toolless (aiProvider : Provider.AIProvider) : Prop :=
  forall messages tools onContent shown response shown',
    Provider.streamCompletion messages tools onContent shown = (Ok response, shown') ->
    noToolCalls response = true.

End Derived.

(** ** More services and inputs, for the examples *)

Module MoreSamples.
Import Js Eff Samples.





(** [{index: 'codebase-store'}] *)
Definition textlessSearch : list (string * value) :=
  [("index", Str "codebase-store")].

Definition contentChunk (text : string) : Provider.Chunk :=
  {| Provider.delta := Some {| Provider.delta_content := Some text;
                               Provider.delta_tool_calls := None |} |}.

(** A stream of two pieces of content with an empty piece in between. *)
Definition contentStream : Provider.Stream :=
  {| Provider.chunks := [contentChunk "You have: "; contentChunk EmptyString;
                         contentChunk "logs, users"];
     Provider.failure := None |}.

(** The same stream, cut by a failure. *)
Definition cutStream : Provider.Stream :=
  {| Provider.chunks := Provider.chunks contentStream;
     Provider.failure := Some (Error "socket hang up") |}.

(** A stream whose only fragments carry index 2. *)
Definition sparseStream : Provider.Stream :=
  {| Provider.chunks :=
       [toolChunk [fragment 2 (Some "call_c") (Some "list_indices") (Some "{}")]];
     Provider.failure := None |}.

Definition respond (content : string) (calls : option Provider.ToolCallArray)
    : Provider.AIProvider :=
  {| Provider.streamCompletion := fun _ _ _ =>
       ret {| Provider.response_content := content;
              Provider.response_tool_calls := calls |} |}.

(** A completion service that answers in words, one that says nothing, one
    whose array of tool calls starts with two holes, and one that replies
    between two other requests. *)
Definition answeringProvider : Provider.AIProvider := respond "You have: logs, users" None.

Definition silentProvider : Provider.AIProvider := respond EmptyString None.

Definition sparseProvider : Provider.AIProvider :=
  respond EmptyString (Some [None; None; call "call_c" "list_indices" rawEmptyObject]).

Definition hastyProvider : Provider.AIProvider :=
  respond EmptyString
    (Some [call "call_1" "list_indices" rawEmptyObject;
           call "call_2" "reply" rawReplyDone;
           call "call_3" "list_indices" rawEmptyObject]).

(** The sample host, with [JSON.parse] extended to the payload [null]. *)
Definition nullHost : Tools.Host :=
  {| Tools.JSON_parse := fun raw => if String.eqb raw "null" then Some Null else sampleParse raw;
     Tools.JSON_stringify := sampleStringify;
     Tools.JS_String := sampleString;
     Tools.client_search := fun _ _ => Ok {| Tools.total_value := 0; Tools.hits := [] |};
     Tools.client_cat_indices := fun _ => Ok ["logs"; "users"];
     Tools.client_getMapping := fun _ _ => Ok (Obj []);
     Tools.chat_create := fun _ _ => Throw (Error "You exceeded your current quota") |}.

(** A request for a tool that does not exist, and the same with the
    payload [null]. *)
Definition ghostRequest : Provider.ToolCall := request "call_9" "delete_index" rawEmptyObject.

Definition nullRequest : Provider.ToolCall := request "call_9" "delete_index" "null".

(** The world in which the first turn of a query runs. *)
Definition openingWorld : Agent.World :=
  snd (Agent.initializeState userQuestion freshWorld).

(** The [SyntaxError] of [JSON.parse] on the payload of [brokenRequest]. *)
Definition sampleSyntaxError (text : string) : thrown :=
  Error "Expected property name or '}' in JSON at position 1".

(** A text stream of two pieces with an empty piece in between. *)
Definition sampleTextStream : AiSdk.TextStream :=
  {| AiSdk.deltas := ["You have: "; EmptyString; "logs, users"];
     AiSdk.failure := None |}.

Definition sampleAiSdk : Provider.AIProvider :=
  AiSdk.AISdkProvider sampleHost sampleSyntaxError "gpt-4o" (fun _ _ => Ok sampleTextStream).

(** A history in which the assistant asked for a tool with a payload that is
    not JSON. *)
Definition brokenHistory : list Provider.AIMessage :=
  [ {| Provider.role := Provider.user; Provider.content := Some userQuestion;
       Provider.tool_calls := None; Provider.tool_call_id := None;
       Provider.msg_name := None |};
    {| Provider.role := Provider.assistant; Provider.content := None;
       Provider.tool_calls := Some [Some brokenRequest]; Provider.tool_call_id := None;
       Provider.msg_name := None |} ].

End MoreSamples.

(** * Properties *)

(** ** Strings *)

Module JsStringFacts.
Import JsString.

Lemma length_app (a b : string) :
  String.length (a ++ b) = (String.length a + String.length b)%nat.
Proof.
  induction a as [|c a IH]; simpl; [reflexivity | now rewrite IH].
Qed.

Lemma length_take (n : nat) (s : string) :
  String.length (take n s) = Nat.min n (String.length s).
Proof.
  revert s; induction n as [|n IH]; intros [|c s]; simpl; try reflexivity.
  now rewrite IH.
Qed.

Lemma length_drop (n : nat) (s : string) :
  String.length (drop n s) = (String.length s - n)%nat.
Proof.
  revert s; induction n as [|n IH]; intros [|c s]; simpl; try reflexivity.
  apply IH.
Qed.

Lemma take_all (n : nat) (s : string) :
  (String.length s <= n)%nat -> take n s = s.
Proof.
  revert s; induction n as [|n IH]; intros [|c s] H; simpl in *; try reflexivity.
  - lia.
  - f_equal. apply IH. lia.
Qed.

Lemma take_app_left (n : nat) (a b : string) :
  (n <= String.length a)%nat -> take n (a ++ b) = take n a.
Proof.
  revert a; induction n as [|n IH]; intros [|c a] H; simpl in *; try reflexivity.
  - lia.
  - f_equal. apply IH. lia.
Qed.

Lemma drop_app_right (n : nat) (a b : string) :
  (String.length a <= n)%nat -> drop n (a ++ b) = drop (n - String.length a) b.
Proof.
  revert a; induction n as [|n IH]; intros [|c a] H; simpl in *; try reflexivity.
  - lia.
  - apply IH. lia.
Qed.

Lemma drop_0 (s : string) : drop 0 s = s.
Proof. destruct s; reflexivity. Qed.

End JsStringFacts.

(** ** Condensation *)

Module CondenseFacts.
Import JsString JsStringFacts Condense.

Lemma estimateTokens_ceilDiv4 (content : string) :
  estimateTokens content = Z.of_nat (ceilDiv4 (String.length content)).
Proof.
  unfold estimateTokens, ceilDiv4, len.
  rewrite Nat2Z.inj_div, Nat2Z.inj_add. reflexivity.
Qed.

Lemma maxCharacters_effectiveBudget (budget : nat) :
  maxCharacters (Z.of_nat budget) = Z.of_nat (effectiveBudget budget).
Proof.
  unfold maxCharacters, effectiveBudget.
  rewrite Nat2Z.inj_div, Nat2Z.inj_mul.
  replace (Z.of_nat budget * 4 * 8) with ((16 * Z.of_nat budget) * 2) by lia.
  replace 10 with (5 * 2) by reflexivity.
  rewrite Z.div_mul_cancel_r by lia. reflexivity.
Qed.

Lemma halfMaxChars_half (budget : nat) :
  halfMaxChars (Z.of_nat budget) = Z.of_nat (effectiveBudget budget / 2).
Proof.
  unfold halfMaxChars. rewrite maxCharacters_effectiveBudget, Nat2Z.inj_div. reflexivity.
Qed.

(** Over budget, the text is longer than the half budget kept at each end. *)
Lemma half_fits (content : string) (budget : nat) :
  (budget < ceilDiv4 (String.length content))%nat ->
  (effectiveBudget budget / 2 <= String.length content)%nat.
Proof.
  unfold ceilDiv4, effectiveBudget. intros H.
  assert (H4 : (4 * budget < String.length content + 3)%nat).
  { destruct (Nat.lt_ge_cases (4 * budget) (String.length content + 3)) as [Hlt|Hge]; [exact Hlt|].
    exfalso. apply (Nat.Div0.div_le_mono _ _ 4) in Hge.
    replace (4 * budget)%nat with (budget * 4)%nat in Hge by lia.
    rewrite Nat.div_mul in Hge by lia. lia. }
  assert (H5 : (16 * budget / 5 <= 16 * budget)%nat) by (apply Nat.Div0.div_le_upper_bound; lia).
  assert (H2 : (16 * budget / 5 / 2 <= 2 * budget)%nat).
  { apply Nat.Div0.div_le_upper_bound.
    apply Nat.Div0.div_le_upper_bound. lia. }
  lia.
Qed.

Lemma substring_prefix (content : string) (n : nat) :
  (n <= String.length content)%nat ->
  substring content 0 (Z.of_nat n) = take n content.
Proof.
  intros H. unfold substring.
  assert (Ha : clamp content 0 = 0) by (unfold clamp, len; lia).
  assert (Hb : clamp content (Z.of_nat n) = Z.of_nat n) by (unfold clamp, len; lia).
  rewrite Ha, Hb.
  replace (Z.min 0 (Z.of_nat n)) with 0 by lia.
  replace (Z.max 0 (Z.of_nat n)) with (Z.of_nat n) by lia.
  rewrite Z.sub_0_r, Nat2Z.id. reflexivity.
Qed.

Lemma substring_suffix (content : string) (n : nat) :
  (n <= String.length content)%nat ->
  substring_from content (len content - Z.of_nat n) = drop (String.length content - n) content.
Proof.
  intros H. unfold substring_from, substring.
  assert (Ha : clamp content (len content - Z.of_nat n)
               = Z.of_nat (String.length content - n)) by (unfold clamp, len; lia).
  assert (Hb : clamp content (len content) = Z.of_nat (String.length content))
    by (unfold clamp, len; lia).
  rewrite Ha, Hb.
  rewrite Z.min_l, Z.max_r by lia.
  rewrite <- Nat2Z.inj_sub by lia. rewrite !Nat2Z.id.
  apply take_all. rewrite length_drop. lia.
Qed.

Lemma condenseContent_over (content : string) (budget : nat) :
  (budget < ceilDiv4 (String.length content))%nat ->
  condenseContent content (Z.of_nat budget)
  = take (effectiveBudget budget / 2) content ++ marker
    ++ drop (String.length content - effectiveBudget budget / 2) content.
Proof.
  intros Hover. unfold condenseContent.
  rewrite estimateTokens_ceilDiv4.
  destruct (Z.leb_spec (Z.of_nat (ceilDiv4 (String.length content))) (Z.of_nat budget)) as [Hle|_];
    [lia|].
  rewrite halfMaxChars_half.
  rewrite substring_prefix, substring_suffix by now apply half_fits.
  reflexivity.
Qed.

(** C3. For every text and every positive token budget, [condenseContent]
    is the reference definition: the text itself when [ceil(length / 4)] is
    within the budget, and otherwise the first [N] characters, the marker and
    the last [N] characters, with [N = floor(floor(budget * 4 * 0.8) / 2)].
    Over budget, the output is no longer than the effective character budget
    plus the marker, and its first and last [N] characters are those of the
    text. *)
Theorem condenseContent_is_reference (content : string) (budget : nat) :
  (0 < budget)%nat ->
  condenseContent content (Z.of_nat budget) = condense_spec content budget /\
  ((budget < ceilDiv4 (String.length content))%nat ->
   let output := condenseContent content (Z.of_nat budget) in
   let N := (effectiveBudget budget / 2)%nat in
   String.length output = (N + String.length marker + N)%nat /\
   (String.length output <= effectiveBudget budget + String.length marker)%nat /\
   firstChars N output = firstChars N content /\
   lastChars N output = lastChars N content).
Proof.
  intros _. split.
  - unfold condense_spec.
    destruct (Nat.leb_spec (ceilDiv4 (String.length content)) budget) as [Hle|Hlt].
    + unfold condenseContent. rewrite estimateTokens_ceilDiv4.
      destruct (Z.leb_spec (Z.of_nat (ceilDiv4 (String.length content))) (Z.of_nat budget));
        [reflexivity | lia].
    + now rewrite condenseContent_over.
  - intros Hover. cbv zeta.
    pose proof (half_fits content budget Hover) as Hfit.
    rewrite condenseContent_over by assumption.
    set (N := (effectiveBudget budget / 2)%nat) in *.
    assert (HlenB : String.length (take N content) = N)
      by (rewrite length_take; lia).
    assert (HlenE : String.length (drop (String.length content - N) content) = N)
      by (rewrite length_drop; lia).
    assert (Hlen : String.length (take N content ++ marker
                                  ++ drop (String.length content - N) content)
                   = (N + String.length marker + N)%nat)
      by (rewrite !length_app, HlenB, HlenE; lia).
    repeat split.
    + exact Hlen.
    + rewrite Hlen.
      assert (2 * N <= effectiveBudget budget)%nat
        by (subst N; apply Nat.Div0.mul_div_le).
      lia.
    + unfold firstChars. rewrite take_app_left by lia.
      apply take_all. lia.
    + unfold lastChars. rewrite Hlen.
      rewrite drop_app_right by lia. rewrite HlenB.
      rewrite drop_app_right by lia.
      replace (N + String.length marker + N - N - N - String.length marker)%nat with 0%nat by lia.
      reflexivity.
Qed.

Lemma condenseContent_is_reference_example :
  (0 < 2)%nat /\
  (2 < ceilDiv4 (String.length Samples.sampleText))%nat /\
  condenseContent Samples.sampleText 2 = "abc" ++ marker ++ "xyz" /\
  condense_spec Samples.sampleText 2 = "abc" ++ marker ++ "xyz" /\
  firstChars 3 (condenseContent Samples.sampleText 2) = "abc" /\
  lastChars 3 (condenseContent Samples.sampleText 2) = "xyz".
Proof.
  assert (Hpos : (0 < 2)%nat) by lia.
  assert (Hover : (2 < ceilDiv4 (String.length Samples.sampleText))%nat) by (vm_compute; lia).
  destruct (condenseContent_is_reference Samples.sampleText 2 Hpos) as [Heq Hbounds].
  destruct (Hbounds Hover) as (_ & _ & Hfirst & Hlast).
  change (Z.of_nat 2) with 2 in *.
  change (effectiveBudget 2 / 2)%nat with 3%nat in *.
  split; [exact Hpos|]. split; [exact Hover|].
  split; [rewrite Heq; reflexivity|]. split; [reflexivity|].
  split; [rewrite Hfirst; reflexivity | rewrite Hlast; reflexivity].
Defined.

End CondenseFacts.

(** ** The tool layer *)

Module ToolsFacts.
Import Js Eff JsString Tools.

Lemma or_default_twice (size : any) (d : value) :
  truthy (Some d) = true ->
  Js.or (Some (Js.or size d)) d = Js.or size d.
Proof.
  intros Hd. unfold Js.or at 1.
  destruct (truthy (Some (Js.or size d))) eqn:Ht; [reflexivity|].
  unfold Js.or in *. destruct size as [v|]; [destruct (truthy (Some v)) eqn:Hv|]; congruence.
Qed.

(** The rephraser returns a string whatever the completion service does,
    after logging its one request. *)
Lemma rephraseResults_total (h : Host) (originalQuery : any) (searchResults : string)
    (t : ToolStore) :
  exists text,
    rephraseResults h originalQuery searchResults t
    = (Ok text,
       {| executionCounter := executionCounter t;
          clientCalls := clientCalls t;
          chatCalls := (chatCalls t ++ [rephraseRequest h originalQuery searchResults])%list |}).
Proof.
  unfold rephraseResults, try_catch, bind, callChat, ret.
  destruct (chat_create h _ _) as [response|error]; eexists; reflexivity.
Qed.

(** C6. When the completion request of the rephraser fails, whatever the
    error, [rephraseResults] catches it and returns the result text it was
    given, unchanged: the call returns normally, having made its one request. *)
Theorem rephraseResults_falls_back (h : Host) (originalQuery : any) (searchResults : string)
    (t : ToolStore) (error : thrown) :
  chat_create h (List.length (chatCalls t)) (rephraseRequest h originalQuery searchResults)
  = Throw error ->
  rephraseResults h originalQuery searchResults t
  = (Ok searchResults,
     {| executionCounter := executionCounter t;
        clientCalls := clientCalls t;
        chatCalls := (chatCalls t ++ [rephraseRequest h originalQuery searchResults])%list |}).
Proof.
  intros Hfail.
  unfold rephraseResults, try_catch, bind, callChat, ret.
  rewrite Hfail. reflexivity.
Qed.

Lemma rephraseResults_falls_back_example :
  chat_create Samples.sampleHost 0
    (rephraseRequest Samples.sampleHost (Some (Str "login")) "{}")
  = Throw (Error "You exceeded your current quota") /\
  fst (rephraseResults Samples.sampleHost (Some (Str "login")) "{}" initialToolStore)
  = Ok "{}".
Proof.
  split; [reflexivity|].
  rewrite (rephraseResults_falls_back Samples.sampleHost (Some (Str "login")) "{}"
             initialToolStore (Error "You exceeded your current quota") eq_refl).
  reflexivity.
Defined.

(** What [searchElastic] sends to the backend once both required parameters
    are there: one search, with the size of the arguments or 10. *)
Lemma searchElastic_request (h : Host) (args : value) (index query size : any) (t : ToolStore) :
  get (Some args) "index" = Ok index -> truthy index = true ->
  get (Some args) "query" = Ok query -> truthy query = true ->
  get (Some args) "size" = Ok size ->
  clientCalls (snd (searchElastic h args t))
  = (clientCalls t ++ [CallSearch {| req_index := index;
                                     body_query := query;
                                     body_size := Js.or size (Num 10);
                                     body_from := Num 0 |}])%list.
Proof.
  intros Hi Hti Hq Htq Hs.
  unfold searchElastic, try_catch, bind, lift.
  rewrite Hi, Hti. cbn [negb]. rewrite Hq, Htq. cbn [negb]. rewrite Hs.
  unfold ElasticClient_search, try_catch, callClient, throw.
  cbn [Tools.size Tools.from Tools.index Tools.query].
  rewrite or_default_twice by reflexivity.
  destruct (client_search h _ _) as [result|error]; cbn [fst snd].
  - destruct (rephraseResults_total h (extractOriginalQuery query)
                (Condense.condenseContent (formatResult h result) 128000)
                {| executionCounter := executionCounter t;
                   clientCalls := (clientCalls t ++ [CallSearch
                     {| req_index := index; body_query := query;
                        body_size := Js.or size (Num 10);
                        body_from := Js.or None (Num 0) |}])%list;
                   chatCalls := chatCalls t |}) as [text Htext].
    rewrite Htext. reflexivity.
  - reflexivity.
Qed.

(** The default: without a [size] argument the backend is asked for 10 hits. *)
Lemma searchElastic_default_size (h : Host) (fields : list (string * value)) (t : ToolStore) :
  truthy (lookup "index" fields) = true ->
  truthy (lookup "query" fields) = true ->
  lookup "size" fields = None ->
  searchCalls (snd (searchElastic h (Obj fields) t))
  = (searchCalls t ++ [{| req_index := lookup "index" fields;
                          body_query := lookup "query" fields;
                          body_size := Num 10;
                          body_from := Num 0 |}])%list.
Proof.
  intros Hi Hq Hs. unfold searchCalls.
  rewrite (searchElastic_request h (Obj fields) _ _ None t eq_refl Hi eq_refl Hq)
    by (cbn; now rewrite Hs).
  rewrite flat_map_app. reflexivity.
Qed.

(** C4. The size of a [search_elastic] request is not capped: asked for 500
    hits, [searchElastic] asks the backend for 500, although the declared
    parameter reads "max: 100". *)
Theorem searchElastic_size_not_capped (h : Host) (t : ToolStore) :
  searchCalls (snd (searchElastic h Samples.oversizedSearch t))
  = (searchCalls t ++ [{| req_index := Some (Str "codebase-store");
                          body_query := Some (Obj [("match_all", Obj [])]);
                          body_size := Num 500;
                          body_from := Num 0 |}])%list
  /\ In {| prop_name := "size"; prop_type := "number";
           prop_description := "Number of results to return (default: 10, max: 100)" |}
        (properties search_elastic_tool).
Proof.
  split.
  - unfold searchCalls.
    rewrite (searchElastic_request h Samples.oversizedSearch
               (Some (Str "codebase-store")) (Some (Obj [("match_all", Obj [])]))
               (Some (Num 500)) t eq_refl eq_refl eq_refl eq_refl eq_refl).
    rewrite flat_map_app. reflexivity.
  - cbn. right. right. left. reflexivity.
Qed.

(** C5, as stated, fails when the arguments lack [index] too: the tool
    returns the error about [index], which does not mention "query". *)
Lemma searchElastic_missing_query_names_index :
  getOpt (Some (Obj [])) "query" = None /\
  searchElastic Samples.sampleHost (Obj []) initialToolStore
  = (Ok "Error: Missing required parameter: index", initialToolStore) /\
  includes "Error: Missing required parameter: index" "query" = false.
Proof.
  repeat split.
Qed.

(** C5, amended. For every invocation of [searchElastic] whose arguments
    lack the [query] field, the tool returns (does not throw) an error string
    and leaves the store as it was: no call to the backend, none to the
    completion service.  The string contains "query" when [index] is present
    and truthy; when the arguments are not [null] and [index] is missing or
    falsy, the string names [index] instead. *)
Theorem searchElastic_missing_query (h : Host) (args : value) (t : ToolStore) :
  getOpt (Some args) "query" = None ->
  exists message,
    searchElastic h args t = (Ok message, t) /\
    isPrefix "Error" message = true /\
    (truthy (getOpt (Some args) "index") = true -> includes message "query" = true) /\
    (truthy (getOpt (Some args) "index") = false -> args <> Null ->
     message = "Error: Missing required parameter: index").
Proof.
  intros Hquery.
  destruct args as [|b|n|s|items|fields].
  2-5: eexists; split; [reflexivity|]; split; [reflexivity|];
       split; [discriminate | intros; reflexivity].
  - eexists. split; [reflexivity|]. split; [reflexivity|].
    split; [discriminate | congruence].
  - cbn [getOpt] in *.
    unfold searchElastic, try_catch, bind, lift, ret. cbn [get].
    destruct (truthy (lookup "index" fields)) eqn:Hindex; cbn [negb].
    + rewrite Hquery. cbn [truthy negb].
      eexists. split; [reflexivity|]. split; [reflexivity|].
      split; [intros; reflexivity | discriminate].
    + eexists. split; [reflexivity|]. split; [reflexivity|].
      split; [discriminate | intros; reflexivity].
Qed.

Lemma searchElastic_missing_query_example :
  getOpt (Some (Obj [("index", Str "codebase-store")])) "query" = None /\
  truthy (getOpt (Some (Obj [("index", Str "codebase-store")])) "index") = true /\
  exists message,
    searchElastic Samples.sampleHost (Obj [("index", Str "codebase-store")]) initialToolStore
    = (Ok message, initialToolStore) /\
    includes message "query" = true.
Proof.
  split; [reflexivity|]. split; [reflexivity|].
  destruct (searchElastic_missing_query Samples.sampleHost
              (Obj [("index", Str "codebase-store")]) initialToolStore eq_refl)
    as (message & Hrun & _ & Hquery & _).
  exists message. split; [exact Hrun | exact (Hquery eq_refl)].
Defined.

End ToolsFacts.

(** ** The completion provider *)

Module ProviderFacts.
Import Js Eff JsString Provider.

Lemma append_empty_r (s : string) : s ++ "" = s.
Proof. induction s as [|c s IH]; simpl; [reflexivity | now rewrite IH]. Qed.

Lemma append_assoc (a b c : string) : (a ++ b) ++ c = a ++ (b ++ c).
Proof. induction a as [|x a IH]; simpl; [reflexivity | now rewrite IH]. Qed.

Lemma concat_empty_cons (x : string) (xs : list string) :
  String.concat "" (x :: xs) = x ++ String.concat "" xs.
Proof. destruct xs; simpl; [now rewrite append_empty_r | reflexivity]. Qed.

(** *** Arrays with holes *)

Lemma read_nil {A} (i : nat) : read (@nil (option A)) i = None.
Proof. unfold read. destruct i; reflexivity. Qed.

Lemma read_write_same {A} (a : list (option A)) (i : nat) (v : A) :
  read (write a i v) i = Some v.
Proof.
  revert a; induction i as [|i IH]; intros [|x a]; simpl; try reflexivity.
  - apply (IH []).
  - apply IH.
Qed.

Lemma read_cons {A} (x : option A) (a : list (option A)) (j : nat) :
  read (x :: a) (S j) = read a j.
Proof. reflexivity. Qed.

Lemma read_write_other {A} (a : list (option A)) (i j : nat) (v : A) :
  i <> j -> read (write a i v) j = read a j.
Proof.
  revert a j; induction i as [|i IH]; intros a j Hij.
  - destruct j as [|j]; [congruence|].
    destruct a as [|x a]; simpl; rewrite !read_cons; [|reflexivity].
    now rewrite !read_nil.
  - destruct j as [|j]; [destruct a; reflexivity|].
    destruct a as [|x a]; simpl; rewrite !read_cons.
    + rewrite IH by congruence. now rewrite !read_nil.
    + apply IH. congruence.
Qed.

(** *** One fragment *)

Lemma nonEmpty_false (fragment : option string) :
  nonEmpty fragment = false -> orEmpty fragment = "".
Proof.
  unfold nonEmpty. destruct (String.eqb_spec (orEmpty fragment) "") as [Hempty|_]; simpl;
    [trivial | discriminate].
Qed.

Lemma applyToolCallDelta_read (calls : ToolCallArray) (d : ToolCallDelta) (i : nat) :
  read (applyToolCallDelta calls d) i
  = if match delta_index d with Some j => Nat.eqb i j | None => false end
    then Some (absorb (read calls i) d)
    else read calls i.
Proof.
  unfold applyToolCallDelta.
  destruct (delta_index d) as [j|]; [|reflexivity].
  destruct (Nat.eqb_spec i j) as [->|Hij].
  - destruct (read calls j) as [call|] eqn:Hslot.
    + rewrite Hslot, read_write_same. f_equal. unfold absorb, appendName, appendArguments.
      destruct call as [cid [cname cargs]].
      destruct (nonEmpty (nameOf d)) eqn:Hn, (nonEmpty (argumentsOf d)) eqn:Ha; simpl;
        try rewrite (nonEmpty_false _ Hn); try rewrite (nonEmpty_false _ Ha);
        rewrite ?append_empty_r; reflexivity.
    + rewrite !read_write_same. f_equal. unfold absorb, appendName, appendArguments.
      destruct (nonEmpty (nameOf d)) eqn:Hn, (nonEmpty (argumentsOf d)) eqn:Ha; simpl;
        try rewrite (nonEmpty_false _ Hn); try rewrite (nonEmpty_false _ Ha);
        reflexivity.
  - destruct (read calls j) as [call|] eqn:Hslot.
    + rewrite Hslot. apply read_write_other. congruence.
    + rewrite read_write_same, !read_write_other by congruence. reflexivity.
Qed.

(** *** All fragments of an index *)

Lemma fold_applyToolCallDelta_read (ds : list ToolCallDelta) (calls : ToolCallArray) (i : nat) :
  read (fold_left applyToolCallDelta ds calls) i
  = fold_left (fun slot d => Some (absorb slot d)) (fragmentsAt i ds) (read calls i).
Proof.
  revert calls; induction ds as [|d ds IH]; intros calls; simpl; [reflexivity|].
  rewrite IH, applyToolCallDelta_read.
  destruct (match delta_index d with Some j => Nat.eqb i j | None => false end); reflexivity.
Qed.

Lemma absorb_onto_call (ds : list ToolCallDelta) (call : ToolCall) :
  fold_left (fun slot d => Some (absorb slot d)) ds (Some call)
  = Some {| id := id call;
            function := {| name := name (function call) ++ concatNames ds;
                           arguments := arguments (function call) ++ concatArguments ds |} |}.
Proof.
  revert call; induction ds as [|d ds IH]; intros [cid [cname cargs]]; simpl.
  - unfold concatNames, concatArguments; simpl. now rewrite !append_empty_r.
  - rewrite IH. unfold concatNames, concatArguments; simpl map.
    rewrite !concat_empty_cons. simpl. now rewrite !append_assoc.
Qed.

Lemma absorb_onto_hole (ds : list ToolCallDelta) :
  fold_left (fun slot d => Some (absorb slot d)) ds None = assembled ds.
Proof.
  destruct ds as [|d ds]; simpl; [reflexivity|].
  rewrite absorb_onto_call. unfold concatNames, concatArguments; simpl map.
  rewrite !concat_empty_cons. reflexivity.
Qed.

(** *** The chunk loop *)

Lemma emit_ok (onContent : bool) (text : string) (shown : Shown) :
  exists shown', emit onContent text shown = (Ok tt, shown').
Proof. unfold emit. destruct onContent; eexists; reflexivity. Qed.

Lemma onChunk_toolCalls (onContent : bool) (l : Locals) (chunk : Chunk) (shown : Shown) :
  exists l' shown',
    onChunk onContent l chunk shown = (Ok l', shown') /\
    toolCalls l' = fold_left applyToolCallDelta (deltasOf [chunk]) (toolCalls l).
Proof.
  unfold onChunk, deltasOf. simpl flat_map. rewrite app_nil_r.
  destruct (delta chunk) as [d|]; [|do 2 eexists; split; reflexivity].
  unfold bind, ret, emit, modify.
  destruct (nonEmpty (delta_content d)), (isStreamingContent l), onContent;
    destruct (delta_tool_calls d); simpl; do 2 eexists; split; reflexivity.
Qed.

Lemma onChunks_toolCalls (onContent : bool) (cs : list Chunk) (l : Locals) (shown : Shown) :
  exists l' shown',
    onChunks onContent l cs shown = (Ok l', shown') /\
    toolCalls l' = fold_left applyToolCallDelta (deltasOf cs) (toolCalls l).
Proof.
  revert l shown; induction cs as [|c cs IH]; intros l shown.
  - do 2 eexists. split; reflexivity.
  - destruct (onChunk_toolCalls onContent l c shown) as (l1 & shown1 & Hrun & Hcalls).
    destruct (IH l1 shown1) as (l2 & shown2 & Hrun2 & Hcalls2).
    exists l2, shown2. split.
    + simpl. unfold bind. rewrite Hrun. exact Hrun2.
    + rewrite Hcalls2, Hcalls. change (c :: cs) with (([c] ++ cs)%list).
      unfold deltasOf. rewrite flat_map_app, fold_left_app. reflexivity.
Qed.

(** C9. For every stream of chunks that the completion service delivers to
    its end, [OpenAIProvider.streamCompletion] returns, for each index, the
    call whose name and whose argument string are the concatenation of the
    name fragments and of the argument fragments carrying that index, in
    arrival order (its id is that of the first fragment); an index no
    fragment carries has no call. *)
Theorem streamCompletion_concatenates_fragments
    (model : string) (create : CompletionRequest -> result Stream)
    (messages : list AIMessage) (tools : list Tools.Tool) (onContent : bool)
    (shown : Shown) (stream : Stream) :
  create {| req_model := model;
            req_messages := map toOpenAIMessage messages;
            req_tools := tools |} = Ok stream ->
  failure stream = None ->
  exists response shown',
    OpenAI_streamCompletion model create messages tools onContent shown
    = (Ok response, shown') /\
    forall i : nat,
      read (responseCalls response) i = assembled (fragmentsAt i (deltasOf (chunks stream))).
Proof.
  intros Hcreate Hend.
  unfold OpenAI_streamCompletion, bind, lift. rewrite Hcreate.
  unfold consume, bind. 
  destruct (onChunks_toolCalls onContent (chunks stream) initialLocals shown)
    as (l & shown1 & Hrun & Hcalls).
  rewrite Hrun, Hend. unfold ret.
  destruct (emit_ok (isStreamingContent l && onContent) nl shown1) as [shown2 Hemit].
  assert (Hshown : exists shown',
             (if isStreamingContent l && onContent then emit onContent nl else ret tt) shown1
             = (Ok tt, shown')).
  { destruct (isStreamingContent l && onContent); [apply emit_ok | eexists; reflexivity]. }
  destruct Hshown as [shown' Hshown]. unfold ret in Hshown. rewrite Hshown.
  do 2 eexists. split; [reflexivity|].
  intros i. unfold responseCalls; simpl.
  rewrite <- absorb_onto_hole, <- (read_nil (A := ToolCall) i).
  change (@nil (option ToolCall)) with (toolCalls initialLocals).
  rewrite <- fold_applyToolCallDelta_read, <- Hcalls.
  destruct (toolCalls l) as [|slot rest]; simpl; [now rewrite read_nil | reflexivity].
Qed.

Lemma streamCompletion_concatenates_fragments_example :
  exists response shown',
    OpenAI_streamCompletion "gpt-4o" (fun _ => Ok Samples.sampleStream) [] Tools.getTools true []
    = (Ok response, shown') /\
    read (responseCalls response) 0
    = Some {| id := "call_a";
              function := {| name := "list_indices"; arguments := "{}" |} |} /\
    read (responseCalls response) 1
    = Some {| id := "call_b";
              function := {| name := "reply"; arguments := "{}" |} |} /\
    read (responseCalls response) 2 = None.
Proof.
  destruct (streamCompletion_concatenates_fragments
              "gpt-4o" (fun _ => Ok Samples.sampleStream) [] Tools.getTools true []
              Samples.sampleStream eq_refl eq_refl)
    as (response & shown' & Hrun & Hcalls).
  exists response, shown'.
  split; [exact Hrun|].
  split; [exact (Hcalls 0%nat)|].
  split; [exact (Hcalls 1%nat) | exact (Hcalls 2%nat)].
Defined.

End ProviderFacts.

(** ** The agent loop *)

Module AgentFacts.
Import Js Eff JsString Agent.
Local Open Scope list_scope.

Section Loop.
Variable h : Tools.Host.
Variable aiProvider : Provider.AIProvider.
Variable onStreamingContent : bool.

(** *** What the pieces leave untouched *)

Lemma onTools_state {A} (m : M Tools.ToolStore A) (w : World) :
  state (snd (onTools m w)) = state w /\ shown (snd (onTools m w)) = shown w.
Proof. unfold onTools, zoom. destruct (m (toolSystem w)); split; reflexivity. Qed.

Lemma onShown_state {A} (m : M Provider.Shown A) (w : World) :
  state (snd (onShown m w)) = state w /\ toolSystem (snd (onShown m w)) = toolSystem w.
Proof. unfold onShown, zoom. destruct (m (shown w)); split; reflexivity. Qed.

(** A tool that throws yields an error text: the dispatcher always gets a
    result, and the agent state is as before. *)
Lemma tool_result (toolName : string) (toolArgs : value) (w : World) :
  exists result w1,
    try_catch
      (onTools (Tools.executeTool h {| Tools.name := toolName; Tools.arguments := toolArgs |}))
      (fun toolError =>
         ret ("Error executing " ++ toolName ++ ": " ++ errorMessage toolError)%string) w
    = (Ok result, w1) /\
    state w1 = state w /\ shown w1 = shown w.
Proof.
  unfold try_catch.
  pose proof (onTools_state
                (Tools.executeTool h {| Tools.name := toolName; Tools.arguments := toolArgs |}) w)
    as [Hstate Hshown].
  destruct (onTools _ w) as [[result|error] w1]; simpl in *;
    do 2 eexists; (split; [reflexivity | split; assumption]).
Qed.

Lemma emit_newline (w : World) :
  onShown (Provider.emit onStreamingContent nl) w
  = (Ok tt, {| state := state w;
               toolSystem := toolSystem w;
               shown := if onStreamingContent then shown w ++ [nl] else shown w |}).
Proof.
  unfold onShown, zoom, Provider.emit, modify, ret.
  destruct onStreamingContent; destruct w; reflexivity.
Qed.

(** *** Requests whose payload does not parse *)

Lemma dispatch_skips (before after : Provider.ToolCallArray) (request : Provider.ToolCall)
    (w : World) :
  Tools.JSON_parse h (Provider.arguments (Provider.function request)) = None ->
  dispatch h (before ++ Some request :: after) w = dispatch h (before ++ after) w.
Proof.
  intros Hparse. revert w.
  induction before as [|slot before IH]; intros w; cbn [app dispatch].
  - now rewrite Hparse.
  - destruct slot as [toolCall|]; [|reflexivity].
    destruct (Tools.JSON_parse h (Provider.arguments (Provider.function toolCall)))
      as [toolArgs|]; [|apply IH].
    unfold bind.
    destruct (try_catch _ _ w) as [[result|error] w1]; [|reflexivity].
    destruct (String.eqb _ "reply"); [reflexivity|].
    destruct (push _ w1) as [[[]|error] w2]; [apply IH | reflexivity].
Qed.

(** *** Stored messages only grow *)

Lemma stored_same (w w1 : World) : state w1 = state w -> stored w1 = stored w.
Proof. unfold stored. now intros ->. Qed.

Lemma dispatch_grows (calls : Provider.ToolCallArray) (w : World) :
  (stored w <= stored (snd (dispatch h calls w)))%nat.
Proof.
  revert w; induction calls as [|slot calls IH]; intros w; cbn [dispatch].
  - apply le_n.
  - destruct slot as [toolCall|]; [|apply le_n].
    destruct (Tools.JSON_parse h (Provider.arguments (Provider.function toolCall)))
      as [toolArgs|]; [|apply IH].
    unfold bind.
    destruct (tool_result (Provider.name (Provider.function toolCall)) toolArgs w)
      as (result & w1 & Hrun & Hstate & _).
    rewrite Hrun.
    destruct (String.eqb _ "reply").
    + unfold lift. destruct (get (Some toolArgs) "message") as [message|error]; cbn;
        rewrite <- (stored_same w w1 Hstate); unfold stored; cbn; apply le_n.
    + cbn [push withState modify].
      etransitivity; [|apply IH].
      rewrite <- (stored_same w w1 Hstate). unfold stored; cbn.
      rewrite length_app; cbn. lia.
Qed.

Lemma route_grows (response : Provider.StreamingResponse) (w : World) :
  (stored w <= stored (snd (route h onStreamingContent response w)))%nat.
Proof.
  unfold route, handleToolCalls.
  destruct (Provider.response_tool_calls response) as [calls|].
  - destruct (0 <? List.length calls)%nat.
    + unfold bind. rewrite emit_newline.
      etransitivity; [|apply dispatch_grows]. apply le_n.
    + destruct (negb _); apply le_n.
  - destruct (negb _); apply le_n.
Qed.

Lemma callAIProvider_unfold (w : World) :
  callAIProvider aiProvider onStreamingContent w
  = match Provider.streamCompletion (map toProviderMessage (messages (state w)))
            Tools.getTools onStreamingContent (shown w) with
    | (Ok response, sh) =>
        (Ok response,
         {| state := {| query := query (state w);
                        messages := messages (state w)
                                    ++ [{| role := Provider.assistant;
                                           content := Some (Provider.response_content response);
                                           tool_calls := Provider.response_tool_calls response;
                                           tool_call_id := None;
                                           name := None |}];
                        elasticResults := elasticResults (state w);
                        isComplete := isComplete (state w);
                        finalResponse := finalResponse (state w) |};
            toolSystem := toolSystem w;
            shown := sh |})
    | (Throw error, sh) =>
        (Throw error, {| state := state w; toolSystem := toolSystem w; shown := sh |})
    end.
Proof.
  unfold callAIProvider, bind, gets, onShown, zoom, push, withState, modify, ret.
  destruct (Provider.streamCompletion _ _ _ _) as [[response|error] sh]; reflexivity.
Qed.

Lemma enforceCeiling_unfold (w : World) :
  enforceCeiling w
  = (Ok tt, if (ceiling <? stored w)%nat
            then snd (complete (Some (Str fallbackMessage)) w)
            else w).
Proof.
  unfold enforceCeiling, bind, gets, stored.
  destruct (ceiling <? _)%nat; reflexivity.
Qed.

(** *** One pass: it completes the query or stores a message *)

Lemma iteration_progress (w : World) :
  exists w',
    iteration h aiProvider onStreamingContent w = (Ok tt, w') /\
    (isComplete (state w') = true \/
     (stored w < stored w' /\ stored w' <= ceiling)%nat).
Proof.
  unfold iteration, try_catch, turn, bind.
  rewrite callAIProvider_unfold.
  destruct (Provider.streamCompletion _ _ _ _) as [[response|error] sh].
  2: { eexists. split; [reflexivity | left; reflexivity]. }
  match goal with
  | |- context [route h onStreamingContent response ?w1] =>
      pose proof (route_grows response w1) as Hgrow;
      assert (Hone : stored w1 = S (stored w))
        by (unfold stored; cbn; rewrite length_app; cbn; lia);
      destruct (route h onStreamingContent response w1) as [[[]|error] w2]
  end.
  2: { eexists. split; [reflexivity | left; reflexivity]. }
  rewrite enforceCeiling_unfold. cbn [snd] in Hgrow.
  destruct (Nat.ltb_spec ceiling (stored w2)) as [Hover|Hwithin].
  - eexists. split; [reflexivity | left; reflexivity].
  - eexists. split; [reflexivity | right; lia].
Qed.

(** The loop ends within the passes that the ceiling leaves. *)
Lemma loop_terminates (fuel : nat) (w : World) :
  isComplete (state w) = true \/ (1 <= fuel /\ ceiling + 1 <= fuel + stored w)%nat ->
  exists w',
    loop h aiProvider onStreamingContent fuel w = Some (Ok tt, w') /\
    isComplete (state w') = true.
Proof.
  revert w; induction fuel as [|fuel IH]; intros w Hmeasure.
  - destruct Hmeasure as [Hdone|[Hfuel _]]; [|lia].
    exists w. cbn [loop]. rewrite Hdone. split; reflexivity.
  - cbn [loop]. destruct (isComplete (state w)) eqn:Hdone.
    + exists w. split; [reflexivity | exact Hdone].
    + destruct Hmeasure as [Habs|[_ Hmeasure]]; [discriminate|].
      destruct (iteration_progress w) as (w1 & Hrun & Hprogress).
      rewrite Hrun. apply IH.
      destruct Hprogress as [Hcomplete|[Hgrow Hwithin]]; [left; exact Hcomplete|].
      right. unfold ceiling in *. lia.
Qed.

(** *** What one request adds to the conversation *)

(** A request that is dispatched (its payload parses, it is not the reply)
    stores exactly one tool message, with the text of the tool or of its
    failure, and the batch goes on. *)
Lemma dispatch_request (request : Provider.ToolCall) (rest : Provider.ToolCallArray)
    (toolArgs : value) (w : World) :
  Tools.JSON_parse h (Provider.arguments (Provider.function request)) = Some toolArgs ->
  String.eqb (Provider.name (Provider.function request)) "reply" = false ->
  let toolName := Provider.name (Provider.function request) in
  let run := Tools.executeTool h {| Tools.name := toolName; Tools.arguments := toolArgs |}
               (toolSystem w) in
  let result := match fst run with
                | Ok text => text
                | Throw error =>
                    ("Error executing " ++ toolName ++ ": " ++ errorMessage error)%string
                end in
  dispatch h (Some request :: rest) w
  = dispatch h rest
      {| state := {| query := query (state w);
                     messages := messages (state w) ++ [Derived.toolMessage request result];
                     elasticResults := elasticResults (state w);
                     isComplete := isComplete (state w);
                     finalResponse := finalResponse (state w) |};
         toolSystem := snd run;
         shown := shown w |}.
Proof.
  intros Hparse Hname. cbv zeta.
  cbn [dispatch]. rewrite Hparse, Hname.
  unfold bind, try_catch, onTools, zoom, ret.
  destruct (Tools.executeTool h _ (toolSystem w)) as [[text|error] t']; reflexivity.
Qed.

(** C7. A request whose payload does not parse is skipped, and the batch
    and the loop go on.  In every batch, the batch is handled exactly as the
    batch without that request is (the same result, the same stored
    messages, the same tool executions).  The request after it is
    dispatched: when its payload parses and it is no reply, its tool is
    executed and a tool message with its result (or with the description of
    what the tool threw) is stored before the rest of the batch is handled;
    when it is a reply with a readable message, it completes the query with
    that message.  A batch holding only such a request leaves the agent
    state and the tool system untouched and returns normally, and a turn
    with such a batch does not end the loop: within the ceiling the query is
    still open after it, with only the assistant message added, and the loop
    makes its next pass. *)
Theorem unparsable_request_is_skipped
    (before after : Provider.ToolCallArray) (request : Provider.ToolCall) (w : World) :
  Tools.JSON_parse h (Provider.arguments (Provider.function request)) = None ->
  handleToolCalls h onStreamingContent (before ++ Some request :: after) w
  = handleToolCalls h onStreamingContent (before ++ after) w
  /\
  handleToolCalls h onStreamingContent [Some request] w
  = (Ok tt, {| state := state w;
               toolSystem := toolSystem w;
               shown := if onStreamingContent then shown w ++ [nl] else shown w |})
  /\
  (forall (next : Provider.ToolCall) (toolArgs : value) (rest : Provider.ToolCallArray),
     Tools.JSON_parse h (Provider.arguments (Provider.function next)) = Some toolArgs ->
     String.eqb (Provider.name (Provider.function next)) "reply" = false ->
     let toolName := Provider.name (Provider.function next) in
     let run := Tools.executeTool h {| Tools.name := toolName; Tools.arguments := toolArgs |}
                  (toolSystem w) in
     let result := match fst run with
                   | Ok text => text
                   | Throw error =>
                       ("Error executing " ++ toolName ++ ": " ++ errorMessage error)%string
                   end in
     dispatch h (Some request :: Some next :: rest) w
     = dispatch h rest
         {| state := {| query := query (state w);
                        messages := messages (state w) ++ [Derived.toolMessage next result];
                        elasticResults := elasticResults (state w);
                        isComplete := isComplete (state w);
                        finalResponse := finalResponse (state w) |};
            toolSystem := snd run;
            shown := shown w |})
  /\
  (forall (next : Provider.ToolCall) (toolArgs : value) (message : any)
          (rest : Provider.ToolCallArray),
     Tools.JSON_parse h (Provider.arguments (Provider.function next)) = Some toolArgs ->
     Provider.name (Provider.function next) = "reply"%string ->
     get (Some toolArgs) "message" = Ok message ->
     exists w',
       dispatch h (Some request :: Some next :: rest) w = (Ok tt, w') /\
       isComplete (state w') = true /\
       finalResponse (state w') = message /\
       messages (state w') = messages (state w))
  /\
  (forall (response : Provider.StreamingResponse) (sh : Provider.Shown) (fuel : nat),
     isComplete (state w) = false ->
     completionAt aiProvider onStreamingContent w = (Ok response, sh) ->
     Provider.response_tool_calls response = Some [Some request] ->
     (stored w + 1 <= ceiling)%nat ->
     loop h aiProvider onStreamingContent (S fuel) w
     = loop h aiProvider onStreamingContent fuel
         {| state := {| query := query (state w);
                        messages := messages (state w) ++ [Derived.assistantMessage response];
                        elasticResults := elasticResults (state w);
                        isComplete := false;
                        finalResponse := finalResponse (state w) |};
            toolSystem := toolSystem w;
            shown := if onStreamingContent then sh ++ [nl] else sh |}).
Proof.
  intros Hparse.
  split; [|split; [|split; [|split]]].
  - unfold handleToolCalls, bind. rewrite !emit_newline. now apply dispatch_skips.
  - unfold handleToolCalls, bind. rewrite !emit_newline. cbn [dispatch]. now rewrite Hparse.
  - intros next toolArgs rest Hnext Hname. cbv zeta.
    pose proof (dispatch_skips [] (Some next :: rest) request w Hparse) as Hskip.
    cbn [app] in Hskip. rewrite Hskip.
    exact (dispatch_request next rest toolArgs w Hnext Hname).
  - intros next toolArgs message rest Hnext Hname Hmessage.
    pose proof (dispatch_skips [] (Some next :: rest) request w Hparse) as Hskip.
    cbn [app] in Hskip. rewrite Hskip. cbn [dispatch].
    rewrite Hnext, Hname. unfold bind.
    destruct (tool_result "reply" toolArgs w) as (result & w1 & Hrun & Hstate & _).
    rewrite Hrun. cbn [String.eqb Ascii.eqb Bool.eqb andb]. unfold lift.
    rewrite Hmessage. eexists.
    split; [reflexivity|]. split; [reflexivity|]. split; [reflexivity|].
    cbn. now rewrite Hstate.
  - intros response sh fuel Hopen Hanswer Hcalls Hroom.
    unfold completionAt in Hanswer.
    cbn [loop]. rewrite Hopen.
    unfold iteration, try_catch, turn, bind.
    rewrite callAIProvider_unfold, Hanswer.
    unfold route. rewrite Hcalls. cbn [List.length Nat.ltb Nat.leb].
    unfold handleToolCalls, bind. rewrite emit_newline.
    cbn [dispatch state toolSystem shown]. rewrite Hparse. unfold ret.
    rewrite enforceCeiling_unfold.
    replace (ceiling <? _)%nat with false
      by (symmetry; apply Nat.ltb_ge; unfold stored in *; cbn [state messages];
          rewrite length_app; cbn [List.length]; lia).
    rewrite Hopen. unfold Derived.assistantMessage. rewrite Hcalls. reflexivity.
Qed.

(** *** Errors *)

Lemma initializeState_stored (userQuery : string) (w : World) :
  exists w0,
    initializeState userQuery w = (Ok tt, w0) /\
    isComplete (state w0) = false /\ stored w0 = 2%nat.
Proof. eexists. repeat split. Qed.

Lemma errorResponse_truthy (error : thrown) :
  Js.or (Some (Str (errorResponse error))) (Str noResponse) = Str (errorResponse error).
Proof. reflexivity. Qed.

(** *** The instances a run passes through *)

Lemma afterPasses_complete (n : nat) (w : World) :
  isComplete (state w) = true -> afterPasses h aiProvider onStreamingContent n w = w.
Proof. destruct n; cbn [afterPasses]; [reflexivity|]. now intros ->. Qed.

Lemma afterPasses_next (n : nat) (w : World) :
  isComplete (state w) = false ->
  afterPasses h aiProvider onStreamingContent (S n) w
  = afterPasses h aiProvider onStreamingContent n
      (snd (iteration h aiProvider onStreamingContent w)).
Proof. intros Hopen. cbn [afterPasses]. now rewrite Hopen. Qed.

(** When the query is still open after [n] passes, the loop has come there:
    it was open all along, every pass has stored a message, and the loop
    goes on from there with the passes it has left. *)
Lemma afterPasses_open (n : nat) (w : World) :
  isComplete (state (afterPasses h aiProvider onStreamingContent n w)) = false ->
  isComplete (state w) = false /\
  (stored w + n <= stored (afterPasses h aiProvider onStreamingContent n w))%nat /\
  (1 <= n -> stored (afterPasses h aiProvider onStreamingContent n w) <= ceiling)%nat /\
  forall fuel,
    loop h aiProvider onStreamingContent (n + fuel) w
    = loop h aiProvider onStreamingContent fuel
        (afterPasses h aiProvider onStreamingContent n w).
Proof.
  revert w; induction n as [|n IH]; intros w Hopen.
  - cbn [afterPasses] in *. split; [exact Hopen|]. split; [lia|]. split; [lia | reflexivity].
  - destruct (isComplete (state w)) eqn:Hw.
    + rewrite afterPasses_complete in Hopen by assumption. congruence.
    + rewrite afterPasses_next in * by assumption.
      destruct (iteration_progress w) as (w1 & Hrun & Hprogress).
      rewrite Hrun in *. cbn [snd] in *.
      destruct (IH w1 Hopen) as (Hw1 & Hcount & Hwithin & Hloop).
      destruct Hprogress as [Hdone|[Hgrow Hroom]]; [congruence|].
      split; [reflexivity|]. split; [lia|]. split.
      * intros _. destruct n as [|n']; [exact Hroom | apply Hwithin; lia].
      * intros fuel. cbn [Nat.add loop]. rewrite Hw, Hrun. apply Hloop.
Qed.

(** C8. [processQuery] returns normally, whatever the completion service
    and the tools do: the loop ends with the completion flag set and the
    answer is the final response, or the sentinel when that is falsy.  When
    the body of a pass of the query throws, at whatever pass of its run (the
    provider call, or the dispatch outside the execution of a tool),
    [processQuery] returns the description of that error: the loop-level
    handler stores it as the final response and sets the completion flag,
    the loop ends there, and the conversation is as the failed pass left it.
    The same holds for the loop started in any open instance.  (What a tool
    throws while it executes is caught before, in [handleToolCalls], and
    becomes the text of its result: [tool_result].) *)
Theorem processQuery_never_throws (userQuery : string) (w : World) :
  (exists answer w',
     processQuery h aiProvider onStreamingContent userQuery w = Some (Ok answer, w') /\
     isComplete (state w') = true /\
     answer = Js.or (finalResponse (state w')) (Str noResponse))
  /\
  (forall (n : nat) (error : thrown) (w1 : World),
     let wn := afterPasses h aiProvider onStreamingContent n
                 (snd (initializeState userQuery w)) in
     isComplete (state wn) = false ->
     turn h aiProvider onStreamingContent wn = (Throw error, w1) ->
     exists w',
       processQuery h aiProvider onStreamingContent userQuery w
       = Some (Ok (Str (errorResponse error)), w') /\
       isComplete (state w') = true /\
       finalResponse (state w') = Some (Str (errorResponse error)) /\
       messages (state w') = messages (state w1))
  /\
  (forall (w0 w1 : World) (error : thrown) (fuel : nat),
     isComplete (state w0) = false ->
     turn h aiProvider onStreamingContent w0 = (Throw error, w1) ->
     exists w2,
       loop h aiProvider onStreamingContent (S fuel) w0 = Some (Ok tt, w2) /\
       isComplete (state w2) = true /\
       finalResponse (state w2) = Some (Str (errorResponse error)) /\
       messages (state w2) = messages (state w1) /\
       Js.or (finalResponse (state w2)) (Str noResponse) = Str (errorResponse error)).
Proof.
  assert (Hcaught : forall (w0 w1 : World) (error : thrown) (fuel : nat),
             isComplete (state w0) = false ->
             turn h aiProvider onStreamingContent w0 = (Throw error, w1) ->
             loop h aiProvider onStreamingContent (S fuel) w0
             = Some (Ok tt, snd (complete (Some (Str (errorResponse error))) w1))).
  { intros w0 w1 error fuel Hopen Hthrow.
    cbn [loop]. rewrite Hopen.
    unfold iteration, try_catch. rewrite Hthrow.
    cbn [complete withState modify snd]. destruct fuel; reflexivity. }
  split; [|split].
  - unfold processQuery, processQueryWithin.
    destruct (initializeState_stored userQuery w) as (w0 & Hinit & Hfresh & Hstored).
    rewrite Hinit.
    destruct (loop_terminates maxPasses w0) as (w1 & Hloop & Hdone).
    { right. rewrite Hstored. unfold maxPasses, ceiling. lia. }
    rewrite Hloop. exists (Js.or (finalResponse (state w1)) (Str noResponse)), w1.
    repeat split. exact Hdone.
  - intros n error w1. cbv zeta. intros Hopen Hthrow.
    unfold processQuery, processQueryWithin.
    destruct (initializeState_stored userQuery w) as (w0 & Hinit & Hfresh & Hstored).
    rewrite Hinit in *. cbn [snd] in *.
    destruct (afterPasses_open n w0 Hopen) as (_ & Hcount & Hwithin & Hloop).
    assert (Hpasses : (n <= 18)%nat).
    { destruct n as [|n']; [lia|].
      assert (stored (afterPasses h aiProvider onStreamingContent (S n') w0) <= ceiling)%nat
        by (apply Hwithin; lia).
      unfold ceiling in *. lia. }
    replace maxPasses with (n + S (18 - n))%nat by (unfold maxPasses; lia).
    rewrite Hloop, (Hcaught _ w1 error (18 - n)%nat Hopen Hthrow).
    eexists. split; [reflexivity|]. repeat split.
  - intros w0 w1 error fuel Hopen Hthrow.
    rewrite (Hcaught w0 w1 error fuel Hopen Hthrow).
    eexists. split; [reflexivity|]. repeat split.
Qed.

(** *** A service that only ever asks for tools *)

Lemma dispatch_plain (calls : Provider.ToolCallArray) (w : World) :
  forallb (plainRequest h) calls = true ->
  exists w',
    dispatch h calls w = (Ok tt, w') /\
    isComplete (state w') = isComplete (state w) /\
    finalResponse (state w') = finalResponse (state w) /\
    (stored w <= stored w' <= stored w + List.length calls)%nat.
Proof.
  revert w; induction calls as [|slot calls IH]; intros w Hplain; cbn [dispatch].
  - exists w. repeat split; lia.
  - cbn [forallb] in Hplain. apply andb_prop in Hplain as [Hslot Hrest].
    destruct slot as [toolCall|]; [|discriminate].
    cbn [plainRequest] in Hslot.
    destruct (Tools.JSON_parse h (Provider.arguments (Provider.function toolCall)))
      as [toolArgs|].
    + rewrite andb_true_r in Hslot. apply negb_true_iff in Hslot.
      unfold bind.
      destruct (tool_result (Provider.name (Provider.function toolCall)) toolArgs w)
        as (result & w1 & Hrun & Hstate & _).
      rewrite Hrun, Hslot. cbn [push withState modify].
      match goal with
      | |- context [dispatch h calls ?w2] =>
          destruct (IH w2 Hrest) as (w' & Hgo & Hflag & Hfinal & Hcount);
          assert (Hone : stored w2 = S (stored w))
            by (unfold stored; cbn; rewrite length_app, Hstate; cbn; lia)
      end.
      exists w'. split; [exact Hgo|].
      cbn in Hflag, Hfinal. rewrite Hstate in Hflag, Hfinal.
      repeat split; try assumption; cbn [List.length]; lia.
    + destruct (IH w Hrest) as (w' & Hgo & Hflag & Hfinal & Hcount).
      exists w'. repeat split; try assumption; cbn [List.length]; lia.
Qed.

Lemma iteration_tools (k : nat) (w : World)
    (response : Provider.StreamingResponse) (sh : Provider.Shown) :
  completionAt aiProvider onStreamingContent w = (Ok response, sh) ->
  toolsOnly h k response = true ->
  exists w',
    iteration h aiProvider onStreamingContent w = (Ok tt, w') /\
    (stored w + 1 <= stored w' <= stored w + 1 + k)%nat /\
    if (ceiling <? stored w')%nat
    then isComplete (state w') = true /\ finalResponse (state w') = Some (Str fallbackMessage)
    else isComplete (state w') = isComplete (state w).
Proof.
  intros Hanswer Htools. unfold completionAt in Hanswer.
  unfold iteration, try_catch, turn, bind.
  rewrite callAIProvider_unfold, Hanswer.
  unfold toolsOnly in Htools. unfold route.
  destruct (Provider.response_tool_calls response) as [calls|]; [|discriminate].
  apply andb_prop in Htools as [Hsize Hplain].
  apply andb_prop in Hsize as [Hsome Hmost].
  rewrite Hsome. apply Nat.leb_le in Hmost.
  unfold handleToolCalls, bind. rewrite emit_newline.
  match goal with
  | |- context [dispatch h calls ?w1] =>
      destruct (dispatch_plain calls w1 Hplain) as (w2 & Hgo & Hflag & Hfinal & Hcount);
      assert (Hone : stored w1 = S (stored w))
        by (unfold stored; cbn; rewrite length_app; cbn; lia)
  end.
  rewrite Hgo, enforceCeiling_unfold.
  destruct (ceiling <? stored w2)%nat eqn:Hover.
  - eexists. split; [reflexivity|].
    cbn [complete withState modify snd].
    unfold stored in *. cbn [state messages] in *. rewrite Hover.
    split; [lia | split; reflexivity].
  - exists w2. split; [reflexivity|]. split; [lia|].
    rewrite Hover. exact Hflag.
Qed.

Lemma loop_tools (k fuel : nat) (w : World) :
  asksForToolsAtEveryTurn h aiProvider onStreamingContent k w ->
  isComplete (state w) = false ->
  (stored w <= ceiling)%nat ->
  (1 <= fuel /\ ceiling + 1 <= fuel + stored w)%nat ->
  exists w',
    loop h aiProvider onStreamingContent fuel w = Some (Ok tt, w') /\
    isComplete (state w') = true /\
    finalResponse (state w') = Some (Str fallbackMessage) /\
    (ceiling + 1 <= stored w' <= ceiling + 1 + k)%nat.
Proof.
  revert w; induction fuel as [|fuel IH]; intros w Hturns Hopen Hwithin Hfuel; [lia|].
  cbn [loop]. rewrite Hopen.
  destruct (Hturns 0%nat Hopen) as (response & sh & Hanswer & Htools).
  cbn [afterPasses] in Hanswer.
  destruct (iteration_tools k w response sh Hanswer Htools) as (w1 & Hrun & Hcount & Hcheck).
  rewrite Hrun.
  destruct (Nat.ltb_spec ceiling (stored w1)) as [Hover|Hunder].
  - destruct Hcheck as [Hdone Hfinal].
    exists w1. split; [|repeat split; try assumption; lia].
    destruct fuel; cbn [loop]; rewrite Hdone; reflexivity.
  - rewrite Hopen in Hcheck. apply IH; try assumption; [|unfold ceiling in *; lia].
    intros n. specialize (Hturns (S n)).
    rewrite afterPasses_next, Hrun in Hturns by assumption. exact Hturns.
Qed.

(** A service that asks for tools whatever it is given does so at every
    turn of every run. *)
Lemma neverReplies_at_every_turn (k : nat) (w : World) :
  neverReplies h aiProvider k ->
  asksForToolsAtEveryTurn h aiProvider onStreamingContent k w.
Proof. intros Hservice n _. apply Hservice. Qed.

(** C2, amended. When, at every turn its run comes to, the completion
    service returns normally a batch of tool calls that is not empty, has no
    hole (every index of the array holds a request) and triggers no reply
    (none of its requests is a reply whose payload parses), [processQuery]
    ends by the message-count ceiling: it returns the fixed apology, with
    the completion flag set, and the conversation then holds more than 20
    messages: at least 21 and at most 21 plus the size of the largest batch
    (22 when every batch holds one request). *)
Theorem ceiling_forces_fallback (k : nat) (userQuery : string) (w : World) :
  asksForToolsAtEveryTurn h aiProvider onStreamingContent k
    (snd (initializeState userQuery w)) ->
  exists w',
    processQuery h aiProvider onStreamingContent userQuery w
    = Some (Ok (Str fallbackMessage), w') /\
    isComplete (state w') = true /\
    finalResponse (state w') = Some (Str fallbackMessage) /\
    (21 <= stored w' <= 21 + k)%nat.
Proof.
  intros Hturns.
  unfold processQuery, processQueryWithin.
  destruct (initializeState_stored userQuery w) as (w0 & Hinit & Hfresh & Hstored).
  rewrite Hinit in *. cbn [snd] in Hturns.
  destruct (loop_tools k maxPasses w0 Hturns Hfresh) as (w1 & Hloop & Hdone & Hfinal & Hcount).
  { rewrite Hstored. unfold ceiling. lia. }
  { rewrite Hstored. unfold maxPasses, ceiling. lia. }
  rewrite Hloop, Hfinal. exists w1. repeat split; try assumption; unfold ceiling in *; lia.
Qed.

(** *** A reply ends the batch *)

(** After requests that are no reply, a [reply] whose payload parses to
    something with a [message] sets the completion flag and the final
    response, and what follows it in the batch changes nothing: it is not
    dispatched. *)
Lemma dispatch_stops_at_reply
    (before after : Provider.ToolCallArray) (request : Provider.ToolCall)
    (toolArgs : value) (message : any) (w : World) :
  forallb (plainRequest h) before = true ->
  Provider.name (Provider.function request) = "reply"%string ->
  Tools.JSON_parse h (Provider.arguments (Provider.function request)) = Some toolArgs ->
  get (Some toolArgs) "message" = Ok message ->
  exists w',
    dispatch h (before ++ Some request :: after) w = (Ok tt, w') /\
    dispatch h (before ++ [Some request]) w = (Ok tt, w') /\
    isComplete (state w') = true /\
    finalResponse (state w') = message /\
    (stored w <= stored w' <= stored w + List.length before)%nat.
Proof.
  intros Hplain Hname Hparse Hmessage. revert w Hplain.
  induction before as [|slot before IH]; intros w Hplain; cbn [app dispatch].
  - rewrite Hparse, Hname. unfold bind.
    destruct (tool_result "reply" toolArgs w) as (result & w1 & Hrun & Hstate & _).
    rewrite Hrun. cbn [String.eqb Ascii.eqb Bool.eqb andb]. unfold lift.
    rewrite Hmessage. eexists.
    split; [reflexivity|]. split; [reflexivity|]. split; [reflexivity|].
    split; [reflexivity|].
    unfold stored; cbn. rewrite Hstate. lia.
  - cbn [forallb] in Hplain. apply andb_prop in Hplain as [Hslot Hrest].
    destruct slot as [toolCall|]; [|discriminate].
    cbn [plainRequest] in Hslot.
    destruct (Tools.JSON_parse h (Provider.arguments (Provider.function toolCall)))
      as [args|].
    + rewrite andb_true_r in Hslot. apply negb_true_iff in Hslot.
      unfold bind.
      destruct (tool_result (Provider.name (Provider.function toolCall)) args w)
        as (result & w1 & Hrun & Hstate & _).
      rewrite Hrun, Hslot. cbn [push withState modify].
      match goal with
      | |- context [dispatch h (before ++ [Some request]) ?w2] =>
          destruct (IH w2 Hrest) as (w' & Hgo & Hsame & Hdone & Hfinal & Hcount);
          assert (Hone : stored w2 = S (stored w))
            by (unfold stored; cbn; rewrite length_app, Hstate; cbn; lia)
      end.
      exists w'. repeat split; try assumption; cbn [List.length]; lia.
    + destruct (IH w Hrest) as (w' & Hgo & Hsame & Hdone & Hfinal & Hcount).
      exists w'. repeat split; try assumption; cbn [List.length]; lia.
Qed.

(** A reply that arrives while the conversation stays within the ceiling
    ends the loop with its message as the final response. *)
Lemma reply_within_ceiling
    (before after : Provider.ToolCallArray) (request : Provider.ToolCall)
    (toolArgs : value) (message : any)
    (response : Provider.StreamingResponse) (sh : Provider.Shown) (fuel : nat) (w : World) :
  isComplete (state w) = false ->
  Provider.streamCompletion (map toProviderMessage (messages (state w)))
    Tools.getTools onStreamingContent (shown w) = (Ok response, sh) ->
  Provider.response_tool_calls response = Some (before ++ Some request :: after) ->
  forallb (plainRequest h) before = true ->
  Provider.name (Provider.function request) = "reply"%string ->
  Tools.JSON_parse h (Provider.arguments (Provider.function request)) = Some toolArgs ->
  get (Some toolArgs) "message" = Ok message ->
  (stored w + 1 + List.length before <= ceiling)%nat ->
  exists w',
    loop h aiProvider onStreamingContent (S fuel) w = Some (Ok tt, w') /\
    isComplete (state w') = true /\
    finalResponse (state w') = message.
Proof.
  intros Hopen Hanswer Hcalls Hplain Hname Hparse Hmessage Hroom.
  cbn [loop]. rewrite Hopen.
  unfold iteration, try_catch, turn, bind.
  rewrite callAIProvider_unfold, Hanswer.
  unfold route. rewrite Hcalls.
  replace (0 <? List.length (before ++ Some request :: after))%nat with true
    by (symmetry; apply Nat.ltb_lt; rewrite length_app; cbn; lia).
  unfold handleToolCalls, bind. rewrite emit_newline.
  match goal with
  | |- context [dispatch h _ ?w1] =>
      destruct (dispatch_stops_at_reply before after request toolArgs message w1
                  Hplain Hname Hparse Hmessage)
        as (w2 & Hgo & _ & Hdone & Hfinal & Hcount);
      assert (Hone : stored w1 = S (stored w))
        by (unfold stored; cbn; rewrite length_app; cbn; lia)
  end.
  rewrite Hgo, enforceCeiling_unfold.
  replace (ceiling <? stored w2)%nat with false
    by (symmetry; apply Nat.ltb_ge; lia).
  exists w2. split; [|split; assumption].
  destruct fuel; cbn [loop]; rewrite Hdone; reflexivity.
Qed.

End Loop.

(** *** Examples *)

Import Samples.

Lemma unparsable_request_is_skipped_example :
  Tools.JSON_parse sampleHost (Provider.arguments (Provider.function brokenRequest)) = None /\
  exists w',
    handleToolCalls sampleHost false mixedBatch freshWorld = (Ok tt, w') /\
    isComplete (state w') = true /\
    finalResponse (state w') = Some (Str "done") /\
    map tool_call_id (messages (state w')) = [Some "call_1"%string] /\
    Tools.executionCounter (toolSystem w') = 2.
Proof.
  split; [reflexivity|].
  pose proof (proj1 (unparsable_request_is_skipped sampleHost listingProvider false
                       [call "call_1" "list_indices" rawEmptyObject]
                       [call "call_3" "reply" rawReplyDone]
                       brokenRequest freshWorld eq_refl)) as Hskip.
  cbn [app] in Hskip. fold mixedBatch in Hskip.
  exists (snd (handleToolCalls sampleHost false mixedBatch freshWorld)).
  rewrite Hskip. repeat split.
Defined.

Lemma processQuery_never_throws_example :
  exists w',
    processQuery sampleHost failingProvider false userQuestion freshWorld
    = Some (Ok (Str "An error occurred while processing your request: Connection error."),
            w') /\
    isComplete (state w') = true /\
    stored w' = 2%nat.
Proof.
  destruct (proj1 (proj2 (processQuery_never_throws sampleHost failingProvider false
                            userQuestion freshWorld))
              0%nat (Error "Connection error.")
              (snd (initializeState userQuestion freshWorld)) eq_refl eq_refl)
    as (w' & Hrun & Hdone & _ & Hmessages).
  exists w'. split; [exact Hrun|]. split; [exact Hdone|].
  unfold stored. rewrite Hmessages. reflexivity.
Defined.

Lemma listingProvider_neverReplies : neverReplies sampleHost listingProvider 1.
Proof. intros messages tools onContent shown. do 2 eexists. split; reflexivity. Qed.

(** C2, as stated, fails: when every turn asks for one tool, each pass
    stores two messages (the assistant's and the tool's), the conversation
    goes from 20 to 22 messages in the tenth pass, and the ceiling forces
    the end with 22 messages stored, more than 21. *)
Lemma one_tool_per_turn_stores_22 :
  neverReplies sampleHost listingProvider 1 /\
  outcome (processQuery sampleHost listingProvider false userQuestion freshWorld)
  = Some (Ok (Str fallbackMessage), 22%nat) /\
  ~ (22 <= 21)%nat.
Proof.
  split; [exact listingProvider_neverReplies|].
  split; [vm_compute; reflexivity | lia].
Qed.

(** A batch with a hole escapes the ceiling too: reading the hole throws,
    and the query ends with the description of that error after three
    messages. *)
Lemma hole_in_batch_ends_with_error :
  outcome (processQuery sampleHost MoreSamples.sparseProvider false userQuestion freshWorld)
  = Some (Ok (Str (errorResponse (readOfNullish "undefined" "function"))), 3%nat).
Proof. vm_compute. reflexivity. Qed.

Lemma ceiling_forces_fallback_example :
  asksForToolsAtEveryTurn sampleHost listingProvider false 1
    (snd (initializeState userQuestion freshWorld)) /\
  exists w',
    processQuery sampleHost listingProvider false userQuestion freshWorld
    = Some (Ok (Str fallbackMessage), w') /\
    (21 <= stored w' <= 21 + 1)%nat.
Proof.
  assert (Hturns : asksForToolsAtEveryTurn sampleHost listingProvider false 1
                     (snd (initializeState userQuestion freshWorld)))
    by (apply neverReplies_at_every_turn; exact listingProvider_neverReplies).
  split; [exact Hturns|].
  destruct (ceiling_forces_fallback sampleHost listingProvider false 1 userQuestion freshWorld
              Hturns) as (w' & Hrun & _ & _ & Hcount).
  exists w'. split; assumption.
Defined.

(** C1. A reply can be lost to the ceiling.  After nine turns that each ask
    for one tool the conversation holds 20 messages; the tenth turn replies
    "done", which stores the 21st message, sets the final response to "done"
    and completes the query; the safety check that follows then replaces the
    final response by the apology, which is what [processQuery] returns.
    The same reply on the first turn is returned as it is. *)
Theorem reply_overridden_by_ceiling :
  Tools.JSON_parse sampleHost rawReplyDone = Some (Obj [("message", Str "done")]) /\
  lastBatch (processQuery sampleHost (replyingProvider rawReplyDone) false userQuestion freshWorld)
  = Some [call "call_2" "reply" rawReplyDone] /\
  outcome (processQuery sampleHost (replyingProvider rawReplyDone) false userQuestion freshWorld)
  = Some (Ok (Str fallbackMessage), 21%nat) /\
  outcome (processQuery sampleHost (promptProvider rawReplyDone) false userQuestion freshWorld)
  = Some (Ok (Str "done"), 3%nat).
Proof.
  split; [reflexivity|].
  split; [vm_compute; reflexivity|].
  split; vm_compute; reflexivity.
Qed.

(** C10. An empty reply on the first turn makes [processQuery] return the
    sentinel; the same reply on the tenth turn, with 21 messages stored, is
    replaced by the apology of the safety check, and the sentinel is not
    returned. *)
Theorem empty_reply_overridden_by_ceiling :
  Tools.JSON_parse sampleHost rawReplyEmpty = Some (Obj [("message", Str EmptyString)]) /\
  outcome (processQuery sampleHost (promptProvider rawReplyEmpty) false userQuestion freshWorld)
  = Some (Ok (Str noResponse), 3%nat) /\
  lastBatch (processQuery sampleHost (replyingProvider rawReplyEmpty) false userQuestion freshWorld)
  = Some [call "call_2" "reply" rawReplyEmpty] /\
  outcome (processQuery sampleHost (replyingProvider rawReplyEmpty) false userQuestion freshWorld)
  = Some (Ok (Str fallbackMessage), 21%nat).
Proof.
  split; [reflexivity|].
  split; [vm_compute; reflexivity|].
  split; vm_compute; reflexivity.
Qed.

End AgentFacts.

(** ** More on the tool layer *)

Module ToolsMore.
Import Js Eff JsString Tools Derived.
Local Open Scope list_scope.

(** Destructs what the goal matches on, innermost first. *)
Ltac split_match :=
  match goal with
  | |- context [match ?x with _ => _ end] =>
      lazymatch x with
      | context [match _ with _ => _ end] => fail
      | _ => destruct x eqn:?
      end
  end.

Ltac unfold_tools :=
  unfold searchElastic, simpleSearch, listIndices, getMapping, reply,
    ElasticClient_search, ElasticClient_getIndices, ElasticClient_getMapping,
    rephraseResults, callClient, callChat, try_catch, bind, lift, ret, throw.

Ltac close_footprint :=
  cbn [fst snd executionCounter clientCalls chatCalls];
  first
    [ exists [], []; rewrite !app_nil_r; cbn; repeat split; lia
    | eexists [_], []; rewrite !app_nil_r; cbn; repeat split; lia
    | eexists [_], [_]; cbn; repeat split; lia ].

Lemma searchElastic_footprint (h : Host) (args : value) (t : ToolStore) :
  executionCounter (snd (searchElastic h args t)) = executionCounter t /\
  withinOneCall t (snd (searchElastic h args t)).
Proof.
  unfold withinOneCall. unfold_tools.
  repeat split_match; split; try reflexivity; close_footprint.
Qed.

Lemma simpleSearch_footprint (h : Host) (args : value) (t : ToolStore) :
  executionCounter (snd (simpleSearch h args t)) = executionCounter t /\
  withinOneCall t (snd (simpleSearch h args t)).
Proof.
  unfold withinOneCall. unfold_tools.
  repeat split_match; split; try reflexivity; close_footprint.
Qed.

Lemma listIndices_footprint (h : Host) (t : ToolStore) :
  executionCounter (snd (listIndices h t)) = executionCounter t /\
  withinOneCall t (snd (listIndices h t)).
Proof.
  unfold withinOneCall. unfold_tools.
  repeat split_match; split; try reflexivity; close_footprint.
Qed.

Lemma getMapping_footprint (h : Host) (args : value) (t : ToolStore) :
  executionCounter (snd (getMapping h args t)) = executionCounter t /\
  withinOneCall t (snd (getMapping h args t)).
Proof.
  unfold withinOneCall. unfold_tools.
  repeat split_match; split; try reflexivity; close_footprint.
Qed.

Lemma reply_footprint (h : Host) (args : value) (t : ToolStore) :
  snd (reply h args t) = t.
Proof. unfold_tools. repeat split_match; reflexivity. Qed.

Lemma rethrow_same {S A} (m : M S A) (s : S) :
  try_catch m (fun error => throw error) s = m s.
Proof. unfold try_catch, throw. destruct (m s) as [[a|e] s']; reflexivity. Qed.

Lemma try_catch_ret {S A} (body : M S A) (recover : thrown -> A) (s : S) :
  exists a s', try_catch body (fun error => ret (recover error)) s = (Ok a, s').
Proof.
  unfold try_catch, ret. destruct (body s) as [[a|e] s']; do 2 eexists; reflexivity.
Qed.

Lemma withinOneCall_started (t : ToolStore) : withinOneCall t (started t).
Proof. exists [], []. cbn. rewrite !app_nil_r. repeat split; lia. Qed.

Lemma executeTool_unfold (h : Host) (toolCall : ToolCall) (t : ToolStore) :
  executeTool h toolCall t
  = match objectKeysLength (arguments toolCall) with
    | Throw error => (Throw error, started t)
    | Ok _ =>
        (if String.eqb (name toolCall) "search_elastic"
         then searchElastic h (arguments toolCall)
         else if String.eqb (name toolCall) "simple_search"
         then simpleSearch h (arguments toolCall)
         else if String.eqb (name toolCall) "list_indices" then listIndices h
         else if String.eqb (name toolCall) "get_mapping"
         then getMapping h (arguments toolCall)
         else if String.eqb (name toolCall) "reply" then reply h (arguments toolCall)
         else throw (Error ("Unknown tool: " ++ name toolCall)%string)) (started t)
    end.
Proof.
  unfold executeTool, logToolStart, nextExecutionId, bind, lift, ret.
  fold (started t).
  destruct (objectKeysLength (arguments toolCall)); [apply rethrow_same | reflexivity].
Qed.

(** X1. Every execution of a tool, whatever its name, its arguments and its
    outcome, advances the execution counter by exactly one, makes at most
    one call to the search backend, and makes at most one completion request
    (the rephrasing), which it only makes after a backend call; what the logs
    held before is kept. *)
Theorem executeTool_footprint (h : Host) (toolCall : ToolCall) (t : ToolStore) :
  executionCounter (snd (executeTool h toolCall t)) = executionCounter t + 1 /\
  withinOneCall t (snd (executeTool h toolCall t)).
Proof.
  rewrite executeTool_unfold.
  destruct (objectKeysLength (arguments toolCall)) as [n|error];
    [|split; [reflexivity | apply withinOneCall_started]].
  destruct (String.eqb (name toolCall) "search_elastic");
    [destruct (searchElastic_footprint h (arguments toolCall) (started t)) as [Hc Hw];
     split; [rewrite Hc; reflexivity | exact Hw]|].
  destruct (String.eqb (name toolCall) "simple_search");
    [destruct (simpleSearch_footprint h (arguments toolCall) (started t)) as [Hc Hw];
     split; [rewrite Hc; reflexivity | exact Hw]|].
  destruct (String.eqb (name toolCall) "list_indices");
    [destruct (listIndices_footprint h (started t)) as [Hc Hw];
     split; [rewrite Hc; reflexivity | exact Hw]|].
  destruct (String.eqb (name toolCall) "get_mapping");
    [destruct (getMapping_footprint h (arguments toolCall) (started t)) as [Hc Hw];
     split; [rewrite Hc; reflexivity | exact Hw]|].
  destruct (String.eqb (name toolCall) "reply").
  - rewrite reply_footprint. split; [reflexivity | apply withinOneCall_started].
  - split; [reflexivity | apply withinOneCall_started].
Qed.

Lemma search_tools_return (h : Host) (args : value) (t : ToolStore) :
  (exists text t', searchElastic h args t = (Ok text, t')) /\
  (exists text t', simpleSearch h args t = (Ok text, t')) /\
  (exists text t', listIndices h t = (Ok text, t')) /\
  (exists text t', getMapping h args t = (Ok text, t')).
Proof. repeat split; apply try_catch_ret. Qed.

Lemma reply_throws_on (h : Host) (args : value) (t : ToolStore) :
  args <> Null ->
  (exists error, fst (reply h args t) = Throw error)
  <-> loggable (getOpt (Some args) "message") = false.
Proof.
  intros Hargs. unfold reply, bind, lift, ret, throw.
  destruct args as [|b|n|s|items|fields]; try congruence; cbn [get getOpt];
    try (split; [intros [error H]; discriminate | discriminate]).
  destruct (lookup "message" fields) as [[|b|n|s|items|fs]|]; cbn;
    (split; [intros [error H]; (discriminate || reflexivity)
            | intros H; (discriminate || (eexists; reflexivity))]).
Qed.

(** X2. [executeTool] throws in exactly three cases: the arguments are
    [null]; the name is none of the five tools; the tool is [reply] and its
    message is neither a string nor [null] nor missing.  On every other call
    it returns the text of a result, whatever the backend and the completion
    service do. *)
Theorem executeTool_throws_exactly_when_refused (h : Host) (toolCall : ToolCall) (t : ToolStore) :
  (exists error, fst (executeTool h toolCall t) = Throw error) <-> refused toolCall = true.
Proof.
  rewrite executeTool_unfold. unfold refused.
  destruct (search_tools_return h (arguments toolCall) (started t))
    as ((x1 & t1 & H1) & (x2 & t2 & H2) & (x3 & t3 & H3) & (x4 & t4 & H4)).
  assert (Hnone : forall text : string,
             (exists error, Ok text = @Throw string error) <-> false = true)
    by (intros text; split; [intros [error H]; discriminate | discriminate]).
  destruct (arguments toolCall) as [|b|n|s|items|fields] eqn:Hargs;
    cbn [objectKeysLength];
    [split; [reflexivity | intros _; eexists; reflexivity] | | | | |];
    unfold knownTool;
    (destruct (String.eqb_spec (name toolCall) "search_elastic") as [E|_];
       [rewrite E, H1; apply Hnone|]);
    (destruct (String.eqb_spec (name toolCall) "simple_search") as [E|_];
       [rewrite E, H2; apply Hnone|]);
    (destruct (String.eqb_spec (name toolCall) "list_indices") as [E|_];
       [rewrite E, H3; apply Hnone|]);
    (destruct (String.eqb_spec (name toolCall) "get_mapping") as [E|_];
       [rewrite E, H4; apply Hnone|]);
    (destruct (String.eqb_spec (name toolCall) "reply") as [E|_];
       [|split; [reflexivity | intros _; eexists; reflexivity]]);
    cbn [orb negb andb];
    rewrite reply_throws_on by discriminate;
    destruct (loggable _); split; (reflexivity || discriminate).
Qed.

(** *** The search pipeline *)





(** X5. [simpleSearch] validates [index] first and [search_text] second:
    when one of them is missing or falsy it returns the error text naming
    the first such parameter, without any call to the backend or to the
    completion service. *)
Theorem simpleSearch_validates (h : Host) (fields : list (string * value)) (t : ToolStore) :
  truthy (lookup "index" fields) && truthy (lookup "search_text" fields) = false ->
  simpleSearch h (Obj fields) t
  = (Ok (if truthy (lookup "index" fields)
         then "Error: Missing required parameter: search_text"
         else "Error: Missing required parameter: index")%string,
     t).
Proof.
  intros Hmissing.
  unfold simpleSearch, try_catch, bind, lift, ret. cbn [get].
  destruct (truthy (lookup "index" fields)); cbn [negb andb] in *; [|reflexivity].
  rewrite Hmissing. reflexivity.
Qed.




(** *** Examples *)



Lemma simpleSearch_validates_example :
  simpleSearch Samples.sampleHost (Obj MoreSamples.textlessSearch) initialToolStore
  = (Ok "Error: Missing required parameter: search_text"%string, initialToolStore).
Proof.
  exact (simpleSearch_validates Samples.sampleHost MoreSamples.textlessSearch
           initialToolStore eq_refl).
Defined.


End ToolsMore.

(** ** More on condensation *)

Module CondenseMore.
Import JsString JsStringFacts Condense CondenseFacts Derived.

Lemma length_over (content : string) (budget : nat) :
  (budget < ceilDiv4 (String.length content))%nat ->
  String.length (condenseContent content (Z.of_nat budget))
  = (effectiveBudget budget / 2 + String.length marker + effectiveBudget budget / 2)%nat.
Proof.
  intros Hover. pose proof (half_fits content budget Hover) as Hfit.
  rewrite condenseContent_over by assumption.
  rewrite !length_app, length_take, length_drop. lia.
Qed.

Lemma condenseContent_under (content : string) (budget : nat) :
  (ceilDiv4 (String.length content) <= budget)%nat ->
  condenseContent content (Z.of_nat budget) = content.
Proof.
  intros Hle. unfold condenseContent. rewrite estimateTokens_ceilDiv4.
  destruct (Z.leb_spec (Z.of_nat (ceilDiv4 (String.length content))) (Z.of_nat budget));
    [reflexivity | lia].
Qed.

(** X8. For a budget of at least 56 tokens the condensed text is itself
    within the budget (by the estimate of four characters per token), so
    condensing is idempotent: condensing a condensed text returns it
    unchanged.  This covers the budget of 128000 tokens the search tools
    condense with. *)
Theorem condenseContent_fits_and_is_idempotent (content : string) (budget : nat) :
  (56 <= budget)%nat ->
  estimateTokens (condenseContent content (Z.of_nat budget)) <= Z.of_nat budget /\
  condenseContent (condenseContent content (Z.of_nat budget)) (Z.of_nat budget)
  = condenseContent content (Z.of_nat budget).
Proof.
  intros Hbudget.
  assert (Hfits : estimateTokens (condenseContent content (Z.of_nat budget))
                  <= Z.of_nat budget).
  { destruct (Nat.leb_spec (ceilDiv4 (String.length content)) budget) as [Hle|Hover].
    - rewrite condenseContent_under by assumption.
      rewrite estimateTokens_ceilDiv4. lia.
    - unfold estimateTokens, len. rewrite length_over by assumption.
      assert (Hhalf : (2 * (effectiveBudget budget / 2) <= effectiveBudget budget)%nat)
        by apply Nat.Div0.mul_div_le.
      assert (Hfifth : (5 * effectiveBudget budget <= 16 * budget)%nat)
        by (unfold effectiveBudget; apply Nat.Div0.mul_div_le).
      change (String.length marker) with 45%nat.
      apply Z.lt_succ_r, Z.div_lt_upper_bound; lia. }
  split; [exact Hfits|].
  apply condenseContent_under.
  rewrite estimateTokens_ceilDiv4 in Hfits. lia.
Qed.

Lemma condenseContent_fits_and_is_idempotent_example :
  (56 <= 56)%nat /\
  String.length (condenseContent (filler 300) 56) = 223%nat /\
  estimateTokens (condenseContent (filler 300) 56) <= 56 /\
  condenseContent (condenseContent (filler 300) 56) 56 = condenseContent (filler 300) 56.
Proof.
  assert (Hbudget : (56 <= 56)%nat) by lia.
  split; [exact Hbudget|]. split; [reflexivity|].
  exact (condenseContent_fits_and_is_idempotent (filler 300) 56 Hbudget).
Defined.

(** Below that budget the marker alone can take the output past the budget:
    with 2 tokens, a text of 26 characters is condensed to 51. *)
Lemma condenseContent_small_budget_overflows :
  estimateTokens (condenseContent Samples.sampleText 2) = 13.
Proof. reflexivity. Qed.

End CondenseMore.

(** ** More on the completion provider *)

Module ProviderMore.
Import Js Eff JsString Provider ProviderFacts Derived.
Local Open Scope list_scope.

Lemma concat_empty_app (a b : list string) :
  String.concat "" (a ++ b) = (String.concat "" a ++ String.concat "" b)%string.
Proof.
  induction a as [|x a IH]; [reflexivity|].
  cbn [app]. rewrite !concat_empty_cons, IH. now rewrite append_assoc.
Qed.

Lemma onChunk_content (onContent : bool) (l : Locals) (chunk : Chunk) (shown : Shown) :
  exists l',
    onChunk onContent l chunk shown
    = (Ok l', shown ++ shownBy streamingMarker onContent (isStreamingContent l)
                         (contentOf chunk)) /\
    fullContent l' = (fullContent l ++ String.concat "" (contentOf chunk))%string /\
    isStreamingContent l'
    = isStreamingContent l
      || (onContent && match contentOf chunk with [] => false | _ => true end).
Proof.
  unfold onChunk, contentOf, shownBy, display, streamingMarker.
  destruct (delta chunk) as [d|].
  2: { exists l. rewrite append_empty_r, andb_false_r, orb_false_r.
       destruct onContent, (isStreamingContent l); rewrite app_nil_r; repeat split. }
  unfold bind, ret, emit, modify.
  destruct (nonEmpty (delta_content d)), (isStreamingContent l) eqn:Hs, onContent;
    destruct (delta_tool_calls d); cbn;
    eexists; (split; [rewrite <- ?app_assoc, ?app_nil_r; reflexivity|]);
    cbn; rewrite ?append_empty_r, ?Hs; split; reflexivity.
Qed.

Lemma shownBy_app (marker : string) (onContent started : bool) (a b : list string) :
  shownBy marker onContent started (a ++ b)
  = shownBy marker onContent started a
    ++ shownBy marker onContent
         (started || (onContent && match a with [] => false | _ => true end)) b.
Proof.
  unfold shownBy, display.
  destruct onContent; [|reflexivity].
  destruct started; cbn [orb andb]; [reflexivity|].
  destruct a as [|x a]; cbn; [reflexivity|].
  rewrite !app_nil_r. reflexivity.
Qed.

Lemma onChunks_content (onContent : bool) (chunks : list Chunk) (l : Locals) (shown : Shown) :
  exists l',
    onChunks onContent l chunks shown
    = (Ok l', shown ++ shownBy streamingMarker onContent (isStreamingContent l)
                         (contentsOf chunks)) /\
    fullContent l' = (fullContent l ++ String.concat "" (contentsOf chunks))%string /\
    isStreamingContent l'
    = isStreamingContent l
      || (onContent && match contentsOf chunks with [] => false | _ => true end).
Proof.
  revert l shown; induction chunks as [|c chunks IH]; intros l shown.
  - exists l. cbn. unfold shownBy.
    rewrite append_empty_r, andb_false_r, orb_false_r.
    destruct onContent, (isStreamingContent l); rewrite app_nil_r; repeat split.
  - destruct (onChunk_content onContent l c shown) as (l1 & Hrun & Hfull & Hflag).
    destruct (IH l1 (shown ++ shownBy streamingMarker onContent (isStreamingContent l)
                                (contentOf c)))
      as (l2 & Hrun2 & Hfull2 & Hflag2).
    exists l2. cbn [onChunks]. unfold bind. rewrite Hrun, Hrun2.
    change (contentsOf (c :: chunks)) with (contentOf c ++ contentsOf chunks).
    rewrite shownBy_app, concat_empty_app, <- Hflag, app_assoc.
    split; [reflexivity|]. split.
    + rewrite Hfull2, Hfull. now rewrite append_assoc.
    + rewrite Hflag2, Hflag, <- orb_assoc. f_equal.
      destruct onContent, (contentOf c), (contentsOf chunks); reflexivity.
Qed.

Lemma closing_newline (marker : string) (onContent started : bool) (contents : list string)
    (shown : Shown) :
  snd ((if (started || (onContent && match contents with [] => false | _ => true end))
           && onContent
        then emit onContent nl else ret tt)
         (shown ++ shownBy marker onContent started contents))
  = shown ++ (if onContent
              then (if started then contents ++ [nl] else display marker contents true)
              else [])
  /\
  fst ((if (started || (onContent && match contents with [] => false | _ => true end))
           && onContent
        then emit onContent nl else ret tt)
         (shown ++ shownBy marker onContent started contents))
  = Ok tt.
Proof.
  unfold shownBy, display, emit, modify, ret.
  destruct onContent, started, contents as [|x contents]; cbn;
    rewrite <- ?app_assoc, ?app_nil_r; split; reflexivity.
Qed.

(** X9. When the stream ends normally, the content [streamCompletion]
    returns is the concatenation of the content pieces in arrival order, and
    an observer has been shown, after what it had been shown before: nothing
    if the turn produced no content, and otherwise the marker once, every
    piece in order, and a final newline.  The marker is the literal of this
    provider, a newline, the four characters U+00F0 U+0178 U+2019 U+00AD and
    " AI Agent: ".  Without an observer nothing is shown. *)
Theorem streamCompletion_streams_content
    (model : string) (create : CompletionRequest -> result Stream)
    (messages : list AIMessage) (tools : list Tools.Tool) (onContent : bool)
    (shown : Shown) (stream : Stream) :
  create {| req_model := model;
            req_messages := map toOpenAIMessage messages;
            req_tools := tools |} = Ok stream ->
  failure stream = None ->
  exists response,
    OpenAI_streamCompletion model create messages tools onContent shown
    = (Ok response,
       shown ++ (if onContent
                 then display streamingMarker (contentsOf (chunks stream)) true
                 else [])) /\
    response_content response = String.concat "" (contentsOf (chunks stream)).
Proof.
  intros Hcreate Hend.
  unfold OpenAI_streamCompletion, bind, lift. rewrite Hcreate.
  unfold consume, bind.
  destruct (onChunks_content onContent (chunks stream) initialLocals shown)
    as (l & Hrun & Hfull & Hflag).
  rewrite Hrun, Hend. unfold ret at 1.
  cbn [initialLocals isStreamingContent fullContent] in Hfull, Hflag.
  rewrite Hflag.
  destruct (closing_newline streamingMarker onContent false (contentsOf (chunks stream))
              shown)
    as [Hshown Hok].
  cbn [isStreamingContent initialLocals].
  match goal with
  | |- context [match ?m ?s with _ => _ end] =>
      change s with (shown ++ shownBy streamingMarker onContent false
                                (contentsOf (chunks stream)));
      destruct (m (shown ++ shownBy streamingMarker onContent false
                              (contentsOf (chunks stream))))
        as [r s'] eqn:Hstep
  end.
  cbn [fst snd] in Hshown, Hok. subst r s'.
  eexists. split; [reflexivity | exact Hfull].
Qed.

(** X10. When the request to the completion service fails,
    [streamCompletion] throws that error and the observer is shown nothing.
    When the stream fails after some chunks, it throws the error of the
    stream; the observer has already been shown the marker of this provider
    (a newline, U+00F0 U+0178 U+2019 U+00AD and " AI Agent: ") and the pieces
    that arrived, and the closing newline is not shown. *)
Theorem streamCompletion_failures
    (model : string) (create : CompletionRequest -> result Stream)
    (messages : list AIMessage) (tools : list Tools.Tool) (onContent : bool)
    (shown : Shown) :
  let request := {| req_model := model;
                    req_messages := map toOpenAIMessage messages;
                    req_tools := tools |} in
  (forall error,
     create request = Throw error ->
     OpenAI_streamCompletion model create messages tools onContent shown
     = (Throw error, shown))
  /\
  (forall stream error,
     create request = Ok stream ->
     failure stream = Some error ->
     OpenAI_streamCompletion model create messages tools onContent shown
     = (Throw error,
        shown ++ (if onContent
                  then display streamingMarker (contentsOf (chunks stream)) false
                  else []))).
Proof.
  cbv zeta. split.
  - intros error Hcreate.
    unfold OpenAI_streamCompletion, bind, lift. now rewrite Hcreate.
  - intros stream error Hcreate Hfail.
    unfold OpenAI_streamCompletion, bind, lift. rewrite Hcreate.
    unfold consume, bind.
    destruct (onChunks_content onContent (chunks stream) initialLocals shown)
      as (l & Hrun & _ & _).
    rewrite Hrun, Hfail. unfold throw, shownBy. cbn [isStreamingContent initialLocals].
    reflexivity.
Qed.

(** *** The shape of the array of tool calls *)

Lemma length_write {A} (a : list (option A)) (i : nat) (v : A) :
  List.length (write a i v) = Nat.max (List.length a) (S i).
Proof.
  revert a; induction i as [|i IH]; intros [|x a]; cbn [write List.length]; try reflexivity.
  - destruct (List.length a); reflexivity.
  - rewrite (IH []). reflexivity.
  - rewrite IH. reflexivity.
Qed.

Lemma length_applyToolCallDelta (calls : ToolCallArray) (d : ToolCallDelta) :
  List.length (applyToolCallDelta calls d)
  = match delta_index d with
    | Some i => Nat.max (List.length calls) (S i)
    | None => List.length calls
    end.
Proof.
  unfold applyToolCallDelta.
  destruct (delta_index d) as [i|]; [|reflexivity].
  destruct (read calls i) as [call|] eqn:Hslot.
  - rewrite Hslot. apply length_write.
  - rewrite read_write_same, !length_write. lia.
Qed.

Lemma length_fold_applyToolCallDelta (ds : list ToolCallDelta) (calls : ToolCallArray) :
  List.length (fold_left applyToolCallDelta ds calls)
  = fold_left (fun n d => match delta_index d with
                          | Some i => Nat.max n (S i)
                          | None => n
                          end) ds (List.length calls).
Proof.
  revert calls; induction ds as [|d ds IH]; intros calls; [reflexivity|].
  cbn [fold_left]. rewrite IH, length_applyToolCallDelta. reflexivity.
Qed.

Lemma fold_max_zero (ds : list ToolCallDelta) (n : nat) :
  fold_left (fun n d => match delta_index d with
                        | Some i => Nat.max n (S i)
                        | None => n
                        end) ds n = 0%nat
  <-> n = 0%nat /\ Forall (fun d => delta_index d = None) ds.
Proof.
  revert n; induction ds as [|d ds IH]; intros n; cbn [fold_left].
  - split; [intros ->; split; [reflexivity | constructor] | intros [-> _]; reflexivity].
  - rewrite IH. destruct (delta_index d) as [i|] eqn:Hi.
    + split; [intros [Hmax _]; lia | intros [_ Hall]; inversion Hall; congruence].
    + split; [intros [-> Hall]; split; [reflexivity | now constructor]
             | intros [-> Hall]; inversion Hall; split; [reflexivity | assumption]].
Qed.

(** X11. When the stream ends normally, the array of tool calls returned
    has one more element than the largest index a fragment carried, whatever
    the order of arrival (the indices no fragment carried are holes); and
    [tool_calls] is [undefined] exactly when no fragment carried an index. *)
Theorem streamCompletion_array_shape
    (model : string) (create : CompletionRequest -> result Stream)
    (messages : list AIMessage) (tools : list Tools.Tool) (onContent : bool)
    (shown : Shown) (stream : Stream) :
  create {| req_model := model;
            req_messages := map toOpenAIMessage messages;
            req_tools := tools |} = Ok stream ->
  failure stream = None ->
  exists response shown',
    OpenAI_streamCompletion model create messages tools onContent shown
    = (Ok response, shown') /\
    List.length (responseCalls response) = arrayLength (deltasOf (chunks stream)) /\
    (response_tool_calls response = None
     <-> Forall (fun d => delta_index d = None) (deltasOf (chunks stream))).
Proof.
  intros Hcreate Hend.
  unfold OpenAI_streamCompletion, bind, lift. rewrite Hcreate.
  unfold consume, bind.
  destruct (onChunks_toolCalls onContent (chunks stream) initialLocals shown)
    as (l & shown1 & Hrun & Hcalls).
  rewrite Hrun, Hend. unfold ret at 1.
  assert (Hshown : exists shown',
             (if isStreamingContent l && onContent then emit onContent nl else ret tt) shown1
             = (Ok tt, shown')).
  { destruct (isStreamingContent l && onContent); [apply emit_ok | eexists; reflexivity]. }
  destruct Hshown as [shown' Hshown]. rewrite Hshown.
  do 2 eexists. split; [reflexivity|].
  assert (Hlen : List.length (toolCalls l) = arrayLength (deltasOf (chunks stream))).
  { rewrite Hcalls, length_fold_applyToolCallDelta. reflexivity. }
  unfold responseCalls. cbn [response_tool_calls].
  pose proof (fold_max_zero (deltasOf (chunks stream)) 0) as Hzero.
  fold (arrayLength (deltasOf (chunks stream))) in Hzero.
  destruct (toolCalls l) as [|slot rest] eqn:Harray; cbn [List.length Nat.ltb Nat.leb] in *.
  - split; [exact Hlen|]. split; [intros _; apply Hzero; auto | reflexivity].
  - split; [exact Hlen|]. split; [discriminate|].
    intros Hall. assert (arrayLength (deltasOf (chunks stream)) = 0%nat) by (apply Hzero; auto).
    congruence.
Qed.

(** *** Examples *)

Lemma streamCompletion_streams_content_example :
  exists response,
    OpenAI_streamCompletion "gpt-4o" (fun _ => Ok MoreSamples.contentStream) []
      Tools.getTools true ["earlier"%string]
    = (Ok response,
       ["earlier"; streamingMarker; "You have: "; "logs, users"; nl]%string) /\
    response_content response = "You have: logs, users"%string.
Proof.
  exact (streamCompletion_streams_content "gpt-4o" (fun _ => Ok MoreSamples.contentStream) []
           Tools.getTools true ["earlier"%string] MoreSamples.contentStream eq_refl eq_refl).
Defined.

Lemma streamCompletion_failures_example :
  OpenAI_streamCompletion "gpt-4o" (fun _ => Ok MoreSamples.cutStream) []
    Tools.getTools true []
  = (Throw (Error "socket hang up"),
     [streamingMarker; "You have: "; "logs, users"]%string).
Proof.
  exact (proj2 (streamCompletion_failures "gpt-4o" (fun _ => Ok MoreSamples.cutStream) []
                  Tools.getTools true [])
           MoreSamples.cutStream (Error "socket hang up") eq_refl eq_refl).
Defined.

Lemma streamCompletion_array_shape_example :
  exists response shown',
    OpenAI_streamCompletion "gpt-4o" (fun _ => Ok MoreSamples.sparseStream) []
      Tools.getTools false []
    = (Ok response, shown') /\
    List.length (responseCalls response) = 3%nat /\
    read (responseCalls response) 0 = None.
Proof.
  destruct (streamCompletion_array_shape "gpt-4o" (fun _ => Ok MoreSamples.sparseStream) []
              Tools.getTools false [] MoreSamples.sparseStream eq_refl eq_refl)
    as (response & shown' & Hrun & Hlen & _).
  exists response, shown'. split; [exact Hrun|]. split; [exact Hlen|].
  cbv in Hrun. injection Hrun as <- _. reflexivity.
Defined.

End ProviderMore.

(** ** More on the agent loop *)

Module AgentMore.
Import Js Eff JsString Agent AgentFacts Derived ToolsMore.
Local Open Scope list_scope.

Section Loop.
Variable h : Tools.Host.
Variable aiProvider : Provider.AIProvider.
Variable onStreamingContent : bool.

(** *** The conversation only grows, and its tool messages stay linked *)

Lemma linked_snoc (conversation : list AgentMessage) (m : AgentMessage) :
  linked conversation ->
  (role m = Provider.tool -> answers conversation m) ->
  linked (conversation ++ [m]).
Proof.
  intros Hlinked Hm earlier x later Heq Hrole.
  destruct later as [|y later0].
  - apply app_inj_tail in Heq as [-> ->]. now apply Hm.
  - destruct (@exists_last _ (y :: later0)) as (later' & z & Hlast); [discriminate|].
    rewrite Hlast, app_comm_cons, app_assoc in Heq.
    apply app_inj_tail in Heq as [Heq _].
    now apply (Hlinked earlier x later').
Qed.

Lemma answers_request (conversation : list AgentMessage) (a : AgentMessage)
    (request : Provider.ToolCall) (result : string) :
  In a conversation -> role a = Provider.assistant -> In (Some request) (batch a) ->
  answers conversation (toolMessage request result).
Proof. intros Hin Hrole Hreq. exists a, request. repeat split; assumption. Qed.

Lemma extends_refl (w : World) : linked (messages (state w)) -> extends w w.
Proof. intros Hl. split; [exact Hl | exists []; now rewrite app_nil_r]. Qed.

Lemma extends_trans (w0 w1 w2 : World) :
  extends w0 w1 -> extends w1 w2 -> extends w0 w2.
Proof.
  intros [_ [new1 H1]] [Hl [new2 H2]]. split; [exact Hl|].
  exists (new1 ++ new2). now rewrite H2, H1, app_assoc.
Qed.

Lemma extends_same (w0 w w' : World) :
  messages (state w') = messages (state w) -> extends w0 w -> extends w0 w'.
Proof. intros Heq [Hl [new Hnew]]. split; rewrite Heq; [exact Hl | now exists new]. Qed.

Lemma extends_complete (r : any) (w : World) :
  linked (messages (state w)) -> extends w (snd (complete r w)).
Proof. intros Hl. apply (extends_same w w); [reflexivity | now apply extends_refl]. Qed.

Lemma dispatch_extends (calls : Provider.ToolCallArray) (a : AgentMessage) (w : World) :
  In a (messages (state w)) -> role a = Provider.assistant ->
  (forall request, In (Some request) calls -> In (Some request) (batch a)) ->
  linked (messages (state w)) ->
  extends w (snd (dispatch h calls w)).
Proof.
  revert w; induction calls as [|slot calls IH]; intros w Hin Hrole Hsub Hlinked.
  - now apply extends_refl.
  - destruct slot as [request|]; [|now apply extends_refl].
    assert (Hrest : forall r, In (Some r) calls -> In (Some r) (batch a))
      by (intros r Hr; apply Hsub; now right).
    destruct (Tools.JSON_parse h (Provider.arguments (Provider.function request)))
      as [toolArgs|] eqn:Hparse.
    2: { cbn [dispatch]. rewrite Hparse. now apply IH. }
    destruct (String.eqb (Provider.name (Provider.function request)) "reply") eqn:Hname.
    + cbn [dispatch]. rewrite Hparse, Hname. unfold bind.
      destruct (tool_result h (Provider.name (Provider.function request)) toolArgs w)
        as (result & w1 & Hrun & Hstate & _).
      rewrite Hrun. unfold lift.
      destruct (get (Some toolArgs) "message") as [message|error]; cbn;
        (apply (extends_same w w); [cbn; now rewrite Hstate | now apply extends_refl]).
    + rewrite (dispatch_request h request calls toolArgs w Hparse Hname).
      match goal with
      | |- extends w (snd (dispatch h calls ?w2)) =>
          assert (Hstep : extends w w2);
          [|apply (extends_trans w w2); [exact Hstep|];
            apply IH; cbn; [apply in_or_app; now left | exact Hrole | exact Hrest
                           | exact (proj1 Hstep)]]
      end.
      split; cbn; [|eexists; reflexivity].
      apply linked_snoc; [exact Hlinked|].
      intros _. apply (answers_request _ a); [exact Hin | exact Hrole | apply Hsub; now left].
Qed.

Lemma route_extends (response : Provider.StreamingResponse) (w : World) :
  In (assistantMessage response) (messages (state w)) ->
  linked (messages (state w)) ->
  extends w (snd (route h onStreamingContent response w)).
Proof.
  intros Hin Hlinked. unfold route, handleToolCalls.
  destruct (Provider.response_tool_calls response) as [calls|] eqn:Hcalls.
  - destruct (0 <? List.length calls)%nat.
    + unfold bind. rewrite emit_newline.
      match goal with
      | |- extends w (snd (dispatch h calls ?w1)) =>
          apply (extends_trans w w1);
          [apply (extends_same w w); [reflexivity | now apply extends_refl]|];
          apply (dispatch_extends calls (assistantMessage response));
          [exact Hin | reflexivity | | exact Hlinked]
      end.
      intros request Hreq. unfold batch, assistantMessage. cbn. now rewrite Hcalls.
    + destruct (negb _); [apply extends_complete | apply extends_refl]; assumption.
  - destruct (negb _); [apply extends_complete | apply extends_refl]; assumption.
Qed.

Lemma iteration_extends (w : World) :
  linked (messages (state w)) ->
  extends w (snd (iteration h aiProvider onStreamingContent w)).
Proof.
  intros Hlinked.
  unfold iteration, try_catch, turn, bind.
  rewrite callAIProvider_unfold.
  destruct (Provider.streamCompletion _ _ _ _) as [[response|error] sh].
  2: { cbn. now apply (extends_same w w), extends_refl. }
  match goal with
  | |- context [route h onStreamingContent response ?w1] =>
      assert (Hone : extends w w1);
      [split; cbn;
       [apply linked_snoc; [exact Hlinked | discriminate] | eexists; reflexivity]|];
      assert (Htwo : extends w1 (snd (route h onStreamingContent response w1)));
      [apply route_extends;
       [cbn; apply in_or_app; right; now left | exact (proj1 Hone)]|];
      destruct (route h onStreamingContent response w1) as [[[]|error] w2]
  end; cbn [snd] in Htwo.
  - rewrite enforceCeiling_unfold.
    destruct (ceiling <? stored w2)%nat; cbn [snd];
      apply (extends_trans w _ _ Hone); [|exact Htwo].
    apply (extends_same _ w2); [reflexivity | exact Htwo].
  - cbn. apply (extends_trans w _ _ Hone).
    apply (extends_same _ w2); [reflexivity | exact Htwo].
Qed.

Lemma loop_extends (fuel : nat) (w w' : World) (r : result unit) :
  linked (messages (state w)) ->
  loop h aiProvider onStreamingContent fuel w = Some (r, w') ->
  extends w w'.
Proof.
  revert w; induction fuel as [|fuel IH]; intros w Hlinked Hloop; cbn [loop] in Hloop.
  - destruct (isComplete (state w)); [|discriminate].
    injection Hloop as _ <-. now apply extends_refl.
  - destruct (isComplete (state w)).
    + injection Hloop as _ <-. now apply extends_refl.
    + pose proof (iteration_extends w Hlinked) as Hstep.
      destruct (iteration h aiProvider onStreamingContent w) as [[[]|error] w1];
        cbn [snd] in Hstep.
      * apply (extends_trans w w1); [exact Hstep|].
        apply IH; [exact (proj1 Hstep) | exact Hloop].
      * injection Hloop as _ <-. exact Hstep.
Qed.

Lemma opening_linked (userQuery : string) : linked (opening userQuery).
Proof.
  intros earlier m later Heq Hrole.
  destruct earlier as [|x [|y [|z earlier]]]; cbn in Heq;
    injection Heq as; subst; discriminate.
Qed.

Lemma processQuery_extends (userQuery : string) (w : World) :
  exists answer w',
    processQuery h aiProvider onStreamingContent userQuery w = Some (Ok answer, w') /\
    linked (messages (state w')) /\
    exists rest, messages (state w') = opening userQuery ++ rest.
Proof.
  unfold processQuery, processQueryWithin.
  destruct (initializeState_stored userQuery w) as (w0 & Hinit & Hfresh & Hstored).
  rewrite Hinit.
  assert (Hopen : messages (state w0) = opening userQuery)
    by (injection Hinit as <-; reflexivity).
  destruct (loop_terminates h aiProvider onStreamingContent maxPasses w0)
    as (w1 & Hloop & Hdone).
  { right. rewrite Hstored. unfold maxPasses, ceiling. lia. }
  rewrite Hloop.
  destruct (loop_extends maxPasses w0 w1 (Ok tt)) as [Hlinked [rest Hrest]];
    [rewrite Hopen; apply opening_linked | exact Hloop|].
  do 2 eexists. split; [reflexivity|]. split; [exact Hlinked|].
  exists rest. now rewrite Hrest, Hopen.
Qed.

(** X12. The conversation of a query starts with the system instruction and
    the user's question and is only ever appended to: when [processQuery]
    returns, the stored messages are those two followed by what the turns
    added, whatever the completion service and the tools did. *)
Theorem conversation_starts_with_opening (userQuery : string) (w : World) :
  exists answer w' rest,
    processQuery h aiProvider onStreamingContent userQuery w = Some (Ok answer, w') /\
    messages (state w') = opening userQuery ++ rest.
Proof.
  destruct (processQuery_extends userQuery w) as (answer & w' & Hrun & _ & rest & Hrest).
  now exists answer, w', rest.
Qed.

(** X13. When [processQuery] returns, every tool message of the
    conversation answers a request of an assistant message stored before it:
    it carries the id and the tool name of one of the tool calls that
    message asked for. *)
Theorem tool_messages_answer_requests (userQuery : string) (w : World) :
  exists answer w',
    processQuery h aiProvider onStreamingContent userQuery w = Some (Ok answer, w') /\
    forall earlier m later,
      messages (state w') = earlier ++ m :: later ->
      role m = Provider.tool ->
      exists a request,
        In a earlier /\ role a = Provider.assistant /\
        In (Some request) (batch a) /\
        tool_call_id m = Some (Provider.id request) /\
        name m = Some (Provider.name (Provider.function request)).
Proof.
  destruct (processQuery_extends userQuery w) as (answer & w' & Hrun & Hlinked & _).
  exists answer, w'. split; [exact Hrun | exact Hlinked].
Qed.

(** *** Answers without tools *)

Lemma route_content (response : Provider.StreamingResponse) (w : World) :
  noToolCalls response = true ->
  route h onStreamingContent response w
  = if String.eqb (Provider.response_content response) ""
    then (Ok tt, w)
    else complete (Some (Str (Provider.response_content response))) w.
Proof.
  unfold noToolCalls, route. intros Hnone.
  destruct (Provider.response_tool_calls response) as [[|slot calls]|];
    try discriminate; cbn [List.length Nat.ltb Nat.leb];
    destruct (String.eqb _ ""); reflexivity.
Qed.

(** X14. A response with content and no tool call ends the loop: the
    assistant message is stored, the completion flag is set and the content
    is the final response, unless storing that message takes the
    conversation past 20 messages, in which case the safety check replaces
    the content by the apology. *)
Theorem content_ends_the_loop
    (response : Provider.StreamingResponse) (sh : Provider.Shown) (fuel : nat) (w : World) :
  isComplete (state w) = false ->
  Provider.streamCompletion (map toProviderMessage (messages (state w)))
    Tools.getTools onStreamingContent (shown w) = (Ok response, sh) ->
  noToolCalls response = true ->
  Provider.response_content response <> ""%string ->
  exists w',
    loop h aiProvider onStreamingContent (S fuel) w = Some (Ok tt, w') /\
    isComplete (state w') = true /\
    messages (state w') = messages (state w) ++ [assistantMessage response] /\
    finalResponse (state w')
    = Some (Str (if (ceiling <? stored w + 1)%nat
                 then fallbackMessage
                 else Provider.response_content response)).
Proof.
  intros Hopen Hanswer Hnone Hcontent.
  cbn [loop]. rewrite Hopen.
  unfold iteration, try_catch, turn, bind.
  rewrite callAIProvider_unfold, Hanswer, route_content by assumption.
  destruct (String.eqb_spec (Provider.response_content response) "") as [Hempty|_];
    [contradiction|].
  cbn [complete withState modify]. rewrite enforceCeiling_unfold.
  replace (stored _) with (stored w + 1)%nat
    by (unfold stored; cbn; rewrite length_app; reflexivity).
  destruct (ceiling <? stored w + 1)%nat; cbn [complete withState modify snd];
    eexists; (split; [destruct fuel; reflexivity | repeat split]).
Qed.

(** *** A service that stays silent *)

Lemma iteration_silent (w : World) :
  silent aiProvider ->
  exists w',
    iteration h aiProvider onStreamingContent w = (Ok tt, w') /\
    stored w' = (stored w + 1)%nat /\
    if (ceiling <? stored w')%nat
    then isComplete (state w') = true /\ finalResponse (state w') = Some (Str fallbackMessage)
    else isComplete (state w') = isComplete (state w).
Proof.
  intros Hsilent.
  destruct (Hsilent (map toProviderMessage (messages (state w))) Tools.getTools
              onStreamingContent (shown w)) as (response & sh & Hanswer & Hempty & Hnone).
  unfold iteration, try_catch, turn, bind.
  rewrite callAIProvider_unfold, Hanswer, route_content, Hempty by assumption.
  cbn [String.eqb]. rewrite enforceCeiling_unfold.
  match goal with
  | |- context [(ceiling <? stored ?w1)%nat] =>
      assert (Hone : stored w1 = (stored w + 1)%nat)
        by (unfold stored; cbn; rewrite length_app; reflexivity);
      destruct (ceiling <? stored w1)%nat eqn:Hover
  end.
  - eexists. split; [reflexivity|]. cbn [complete withState modify snd].
    unfold stored in *. cbn [state messages] in *. rewrite Hover.
    split; [exact Hone | split; reflexivity].
  - eexists. split; [reflexivity|]. rewrite Hover. split; [exact Hone | reflexivity].
Qed.

Lemma loop_silent (fuel : nat) (w : World) :
  silent aiProvider ->
  isComplete (state w) = false ->
  (stored w <= ceiling)%nat ->
  (ceiling + 1 <= fuel + stored w)%nat ->
  exists w',
    loop h aiProvider onStreamingContent fuel w = Some (Ok tt, w') /\
    isComplete (state w') = true /\
    finalResponse (state w') = Some (Str fallbackMessage) /\
    stored w' = (ceiling + 1)%nat.
Proof.
  intros Hsilent. revert w; induction fuel as [|fuel IH]; intros w Hopen Hwithin Hfuel; [lia|].
  cbn [loop]. rewrite Hopen.
  destruct (iteration_silent w Hsilent) as (w1 & Hrun & Hone & Hcheck).
  rewrite Hrun.
  destruct (Nat.ltb_spec ceiling (stored w1)) as [Hover|Hunder].
  - destruct Hcheck as [Hdone Hfinal].
    exists w1. split; [|repeat split; try assumption; lia].
    destruct fuel; cbn [loop]; rewrite Hdone; reflexivity.
  - rewrite Hopen in Hcheck. apply IH; try assumption; lia.
Qed.

(** X15. Against a completion service that never fails and always returns
    an empty content with no tool call, [processQuery] does not hang: it ends
    by the ceiling, returning the apology with exactly 21 messages stored. *)
Theorem silent_service_ends_at_the_ceiling (userQuery : string) (w : World) :
  silent aiProvider ->
  exists w',
    processQuery h aiProvider onStreamingContent userQuery w
    = Some (Ok (Str fallbackMessage), w') /\
    stored w' = 21%nat.
Proof.
  intros Hsilent.
  unfold processQuery, processQueryWithin.
  destruct (initializeState_stored userQuery w) as (w0 & Hinit & Hfresh & Hstored).
  rewrite Hinit.
  destruct (loop_silent maxPasses w0 Hsilent Hfresh) as (w1 & Hloop & Hdone & Hfinal & Hcount).
  { rewrite Hstored. unfold ceiling. lia. }
  { rewrite Hstored. unfold maxPasses, ceiling. lia. }
  rewrite Hloop, Hfinal. exists w1. split; [reflexivity | exact Hcount].
Qed.

(** *** Batches that cannot be dispatched to the end *)



(** X17. A request for a tool that does not exist, with a payload that
    parses, does not stop the batch: the execution is counted, no service is
    called, and the agent stores a tool message for the request that reads
    "Error executing <name>: Unknown tool: <name>"; or, when the payload is
    the JSON [null], "Error executing <name>: Cannot convert undefined or
    null to object", which the logging of the arguments throws before the
    name is looked at.  The rest of the batch is then dispatched. *)
Theorem unknown_tool_is_answered_with_an_error
    (request : Provider.ToolCall) (rest : Provider.ToolCallArray)
    (toolArgs : value) (w : World) :
  Tools.JSON_parse h (Provider.arguments (Provider.function request)) = Some toolArgs ->
  knownTool (Provider.name (Provider.function request)) = false ->
  let toolName := Provider.name (Provider.function request) in
  dispatch h (Some request :: rest) w
  = dispatch h rest
      {| state := {| query := query (state w);
                     messages :=
                       messages (state w)
                       ++ [toolMessage request
                             ("Error executing " ++ toolName ++ ": "
                              ++ match toolArgs with
                                 | Null => "Cannot convert undefined or null to object"
                                 | _ => "Unknown tool: " ++ toolName
                                 end)%string];
                     elasticResults := elasticResults (state w);
                     isComplete := isComplete (state w);
                     finalResponse := finalResponse (state w) |};
         toolSystem := started (toolSystem w);
         shown := shown w |}.
Proof.
  intros Hparse Hunknown. cbv zeta.
  unfold knownTool in Hunknown.
  repeat (apply orb_false_elim in Hunknown as [Hunknown ?]).
  rewrite (dispatch_request h request rest toolArgs w Hparse) by assumption.
  rewrite executeTool_unfold. cbn [Tools.name Tools.arguments].
  destruct toolArgs; cbn [objectKeysLength fst snd errorMessage];
    repeat match goal with H : String.eqb _ _ = false |- _ => rewrite H; clear H end;
    reflexivity.
Qed.

(** *** A reply on the first turn *)

(** X18. When the first response of the completion service holds a [reply]
    whose payload parses to something with a [message], after at most 17
    requests that are no reply, [processQuery] returns that message, or the
    sentinel when the message is falsy ([undefined], [null], [false], 0 or
    the empty string); the requests after the reply play no part. *)
Theorem first_turn_reply_is_the_answer
    (before after : Provider.ToolCallArray) (request : Provider.ToolCall)
    (toolArgs : value) (message : any)
    (response : Provider.StreamingResponse) (sh : Provider.Shown)
    (userQuery : string) (w : World) :
  Provider.streamCompletion (map toProviderMessage (opening userQuery))
    Tools.getTools onStreamingContent (shown w) = (Ok response, sh) ->
  Provider.response_tool_calls response = Some (before ++ Some request :: after) ->
  forallb (plainRequest h) before = true ->
  (List.length before <= 17)%nat ->
  Provider.name (Provider.function request) = "reply"%string ->
  Tools.JSON_parse h (Provider.arguments (Provider.function request)) = Some toolArgs ->
  get (Some toolArgs) "message" = Ok message ->
  exists w',
    processQuery h aiProvider onStreamingContent userQuery w
    = Some (Ok (Js.or message (Str noResponse)), w').
Proof.
  intros Hanswer Hcalls Hplain Hroom Hname Hparse Hmessage.
  unfold processQuery, processQueryWithin, initializeState, modify.
  fold (opening userQuery).
  match goal with
  | |- context [loop h aiProvider onStreamingContent maxPasses ?w0] =>
      destruct (reply_within_ceiling h aiProvider onStreamingContent before after request
                  toolArgs message response sh 18 w0)
        as (w1 & Hloop & Hdone & Hfinal);
      try assumption; try reflexivity
  end.
  { unfold stored, ceiling. cbn. lia. }
  change (S 18) with maxPasses in Hloop. rewrite Hloop, Hfinal.
  eexists. reflexivity.
Qed.

End Loop.

(** *** Examples *)

Import Samples MoreSamples.

Lemma content_ends_the_loop_example :
  exists w',
    loop sampleHost answeringProvider false maxPasses openingWorld = Some (Ok tt, w') /\
    isComplete (state w') = true /\
    stored w' = 3%nat /\
    finalResponse (state w') = Some (Str "You have: logs, users").
Proof.
  destruct (content_ends_the_loop sampleHost answeringProvider false
              {| Provider.response_content := "You have: logs, users";
                 Provider.response_tool_calls := None |} [] 18 openingWorld
              eq_refl eq_refl eq_refl ltac:(discriminate))
    as (w' & Hloop & Hdone & Hmessages & Hfinal).
  exists w'. split; [exact Hloop|]. split; [exact Hdone|].
  split; [unfold stored; rewrite Hmessages; reflexivity | exact Hfinal].
Defined.

Lemma silentProvider_silent : silent silentProvider.
Proof. intros messages tools onContent shown. do 2 eexists. repeat split. Qed.

Lemma silent_service_ends_at_the_ceiling_example :
  silent silentProvider /\
  exists w',
    processQuery sampleHost silentProvider false userQuestion freshWorld
    = Some (Ok (Str fallbackMessage), w') /\
    stored w' = 21%nat.
Proof.
  split; [exact silentProvider_silent|].
  exact (silent_service_ends_at_the_ceiling sampleHost silentProvider false userQuestion
           freshWorld silentProvider_silent).
Defined.


Lemma unknown_tool_is_answered_with_an_error_example :
  (exists w',
     dispatch sampleHost [Some ghostRequest] openingWorld = (Ok tt, w') /\
     stored w' = 3%nat /\
     Tools.executionCounter (toolSystem w') = 1 /\
     Tools.clientCalls (toolSystem w') = [] /\
     map content (skipn 2 (messages (state w')))
     = [Some "Error executing delete_index: Unknown tool: delete_index"%string]) /\
  (exists w',
     dispatch nullHost [Some nullRequest] openingWorld = (Ok tt, w') /\
     Tools.executionCounter (toolSystem w') = 1 /\
     map content (skipn 2 (messages (state w')))
     = [Some ("Error executing delete_index: "
              ++ "Cannot convert undefined or null to object")%string]).
Proof.
  split.
  - eexists.
    rewrite (unknown_tool_is_answered_with_an_error sampleHost ghostRequest [] (Obj [])
               openingWorld eq_refl eq_refl).
    repeat split.
  - eexists.
    rewrite (unknown_tool_is_answered_with_an_error nullHost nullRequest [] Null
               openingWorld eq_refl eq_refl).
    repeat split.
Defined.

Lemma first_turn_reply_is_the_answer_example :
  exists w',
    processQuery sampleHost hastyProvider false userQuestion freshWorld
    = Some (Ok (Str "done"), w').
Proof.
  exact (first_turn_reply_is_the_answer sampleHost hastyProvider false
           [call "call_1" "list_indices" rawEmptyObject]
           [call "call_3" "list_indices" rawEmptyObject]
           (request "call_2" "reply" rawReplyDone)
           (Obj [("message", Str "done")]) (Some (Str "done"))
           {| Provider.response_content := EmptyString;
              Provider.response_tool_calls :=
                Some [call "call_1" "list_indices" rawEmptyObject;
                      call "call_2" "reply" rawReplyDone;
                      call "call_3" "list_indices" rawEmptyObject] |}
           [] userQuestion freshWorld
           eq_refl eq_refl eq_refl ltac:(cbn; lia) eq_refl eq_refl eq_refl).
Defined.

End AgentMore.

(** ** The AI SDK provider *)

Module AiSdkFacts.
Import Js Eff JsString Provider ProviderFacts ProviderMore Derived.
Local Open Scope list_scope.

Section WithHost.
Variable h : Tools.Host.
Variable syntaxError : string -> thrown.
Variable model : string.
Variable streamText : string -> list AiSdk.Message -> result AiSdk.TextStream.

Lemma onDelta_content (onContent : bool) (l : Locals) (d : string) (shown : Shown) :
  exists l',
    AiSdk.onDelta onContent l d shown
    = (Ok l', shown ++ shownBy aiSdkMarker onContent (isStreamingContent l)
                         (filter (fun d => negb (String.eqb d "")) [d])) /\
    toolCalls l' = toolCalls l /\
    fullContent l' = (fullContent l ++ d)%string /\
    isStreamingContent l'
    = isStreamingContent l
      || (onContent && match filter (fun d => negb (String.eqb d "")) [d] with
                       | [] => false
                       | _ => true
                       end).
Proof.
  unfold AiSdk.onDelta, shownBy, display, aiSdkMarker. cbn [filter].
  destruct (String.eqb_spec d "") as [->|_]; cbn [negb].
  - exists l. rewrite append_empty_r, andb_false_r, orb_false_r.
    destruct onContent, (isStreamingContent l); rewrite app_nil_r; repeat split.
  - unfold bind, ret, emit, modify.
    destruct (isStreamingContent l) eqn:Hs, onContent; cbn;
      eexists; (split; [rewrite <- ?app_assoc, ?app_nil_r; reflexivity|]);
      cbn; rewrite ?Hs; repeat split.
Qed.

Lemma concat_nonEmpty (ds : list string) :
  String.concat "" (filter (fun d => negb (String.eqb d "")) ds) = String.concat "" ds.
Proof.
  induction ds as [|d ds IH]; [reflexivity|].
  cbn [filter]. rewrite (concat_empty_cons d ds).
  destruct (String.eqb_spec d "") as [->|_]; cbn [negb].
  - exact IH.
  - rewrite concat_empty_cons, IH. reflexivity.
Qed.

Lemma onDeltas_keeps_toolCalls (onContent : bool) (ds : list string) (l : Locals)
    (shown : Shown) :
  exists l',
    AiSdk.onDeltas onContent l ds shown
    = (Ok l', shown ++ shownBy aiSdkMarker onContent (isStreamingContent l)
                         (filter (fun d => negb (String.eqb d "")) ds))
    /\ toolCalls l' = toolCalls l
    /\ fullContent l' = (fullContent l ++ String.concat "" ds)%string
    /\ isStreamingContent l'
       = isStreamingContent l
         || (onContent && match filter (fun d => negb (String.eqb d "")) ds with
                          | [] => false
                          | _ => true
                          end).
Proof.
  revert l shown; induction ds as [|d ds IH]; intros l shown.
  - exists l. cbn. unfold shownBy.
    rewrite append_empty_r, andb_false_r, orb_false_r.
    destruct onContent, (isStreamingContent l); rewrite app_nil_r; repeat split.
  - destruct (onDelta_content onContent l d shown) as (l1 & Hrun & Hcalls & Hfull & Hflag).
    match type of Hrun with
    | _ = (_, ?shown1) =>
        destruct (IH l1 shown1) as (l2 & Hrun2 & Hcalls2 & Hfull2 & Hflag2)
    end.
    exists l2. cbn [AiSdk.onDeltas]. unfold bind. rewrite Hrun, Hrun2.
    replace (filter (fun d0 => negb (String.eqb d0 "")) (d :: ds))
      with (filter (fun d0 => negb (String.eqb d0 "")) [d]
            ++ filter (fun d0 => negb (String.eqb d0 "")) ds)
      by (cbn [filter]; destruct (negb (String.eqb d "")); reflexivity).
    rewrite shownBy_app, <- Hflag, app_assoc.
    split; [reflexivity|]. split; [congruence|]. split.
    + rewrite Hfull2, Hfull, (concat_empty_cons d ds). now rewrite append_assoc.
    + rewrite Hflag2, Hflag, <- orb_assoc. f_equal.
      destruct onContent, (filter (fun d0 => negb (String.eqb d0 "")) [d]),
        (filter (fun d0 => negb (String.eqb d0 "")) ds); reflexivity.
Qed.

(** X19. The AI SDK provider degrades to text: when the history converts
    and the text stream ends normally, it returns the concatenation of the
    pieces as content and no tool calls, whatever tools it was given; the
    observer is shown the marker of this provider (a newline, U+1F4AD and
    " AI Agent: "), the non-empty pieces and a final newline (nothing when
    there was no text). *)
Theorem aiSdk_returns_text_only
    (messages : list AIMessage) (tools : list Tools.Tool) (onContent : bool)
    (shown : Shown) (converted : list AiSdk.Message) (stream : AiSdk.TextStream) :
  AiSdk.convertAll h syntaxError messages = Ok converted ->
  streamText model converted = Ok stream ->
  AiSdk.failure stream = None ->
  AiSdk.streamCompletion h syntaxError model streamText messages tools onContent shown
  = (Ok {| response_content := String.concat "" (AiSdk.deltas stream);
           response_tool_calls := None |},
     shown ++ (if onContent
               then display aiSdkMarker
                      (filter (fun d => negb (String.eqb d "")) (AiSdk.deltas stream)) true
               else [])).
Proof.
  intros Hconvert Hstream Hend.
  unfold AiSdk.streamCompletion, bind, lift. rewrite Hconvert, Hstream.
  destruct (onDeltas_keeps_toolCalls onContent (AiSdk.deltas stream) initialLocals shown)
    as (l & Hrun & Hcalls & Hfull & Hflag).
  rewrite Hrun, Hend. unfold ret at 1.
  cbn [initialLocals isStreamingContent fullContent toolCalls] in Hcalls, Hfull, Hflag.
  rewrite Hflag, Hcalls, Hfull.
  destruct (closing_newline aiSdkMarker onContent false
              (filter (fun d => negb (String.eqb d "")) (AiSdk.deltas stream)) shown)
    as [Hshown Hok].
  cbn [isStreamingContent initialLocals].
  match goal with
  | |- context [match ?m ?s with _ => _ end] =>
      destruct (m s) as [r s'] eqn:Hstep
  end.
  cbn [fst snd] in Hshown, Hok. subst r s'.
  reflexivity.
Qed.

(** No response of the AI SDK provider holds a tool call. *)
Lemma aiSdk_toolless : toolless (AiSdk.AISdkProvider h syntaxError model streamText).
Proof.
  intros messages tools onContent shown response shown' Hrun.
  cbn [streamCompletion AiSdk.AISdkProvider] in Hrun.
  unfold AiSdk.streamCompletion, bind, lift in Hrun.
  destruct (AiSdk.convertAll h syntaxError messages) as [converted|e]; [|discriminate].
  destruct (streamText model converted) as [stream|e]; [|discriminate].
  destruct (onDeltas_keeps_toolCalls onContent (AiSdk.deltas stream) initialLocals shown)
    as (l & Hdeltas & Hcalls & _).
  rewrite Hdeltas in Hrun.
  destruct (AiSdk.failure stream); [discriminate|]. unfold ret at 1 in Hrun.
  destruct ((if isStreamingContent l && onContent then emit onContent nl else ret tt) _)
    as [[[]|e] s2]; [|discriminate].
  unfold ret in Hrun. injection Hrun as <- _.
  unfold noToolCalls. cbn [response_tool_calls]. rewrite Hcalls. reflexivity.
Qed.

Lemma toolCallParts_throws (calls : ToolCallArray) (tc : ToolCall) :
  In (Some tc) calls ->
  Tools.JSON_parse h (arguments (function tc)) = None ->
  exists text, AiSdk.toolCallParts h syntaxError calls = Throw (syntaxError text).
Proof.
  intros Hin Hparse. induction calls as [|slot calls IH]; [contradiction|].
  cbn [AiSdk.toolCallParts].
  destruct Hin as [->|Hin].
  - rewrite Hparse. eexists. reflexivity.
  - destruct slot as [tc'|]; [|now apply IH].
    destruct (Tools.JSON_parse h (arguments (function tc'))); [|eexists; reflexivity].
    destruct (IH Hin) as [text ->]. eexists. reflexivity.
Qed.

Lemma convert_throws_syntaxError (msg : AIMessage) (e : thrown) :
  AiSdk.convert h syntaxError msg = Throw e -> exists text, e = syntaxError text.
Proof.
  unfold AiSdk.convert.
  destruct (role msg); try discriminate.
  destruct (tool_calls msg) as [calls|]; [|discriminate].
  destruct (0 <? List.length calls)%nat; [|discriminate].
  destruct (AiSdk.toolCallParts h syntaxError calls) as [parts|e'] eqn:Hparts; [discriminate|].
  intros [= <-]. clear -Hparts.
  induction calls as [|[tc|] calls IH]; cbn [AiSdk.toolCallParts] in Hparts;
    [discriminate | | now apply IH].
  destruct (Tools.JSON_parse h (arguments (function tc)));
    [|injection Hparts as <-; eexists; reflexivity].
  destruct (AiSdk.toolCallParts h syntaxError calls); [discriminate|].
  injection Hparts as <-. now apply IH.
Qed.

(** X20. The AI SDK provider cannot take a history in which an assistant
    message holds a tool call whose arguments are not JSON: converting the
    history throws the [SyntaxError] of [JSON.parse], so that
    [streamCompletion] throws before it asks for any text, and the observer
    is shown nothing. *)
Theorem aiSdk_rejects_unparsable_history
    (messages : list AIMessage) (tools : list Tools.Tool) (onContent : bool)
    (shown : Shown) (msg : AIMessage) (calls : ToolCallArray) (tc : ToolCall) :
  In msg messages ->
  role msg = assistant ->
  tool_calls msg = Some calls ->
  In (Some tc) calls ->
  Tools.JSON_parse h (arguments (function tc)) = None ->
  exists text,
    AiSdk.streamCompletion h syntaxError model streamText messages tools onContent shown
    = (Throw (syntaxError text), shown).
Proof.
  intros Hin Hrole Hcalls Htc Hparse.
  assert (Hconvert : exists text,
             AiSdk.convertAll h syntaxError messages = Throw (syntaxError text)).
  { induction messages as [|m rest IH]; [contradiction|].
    cbn [AiSdk.convertAll].
    destruct (AiSdk.convert h syntaxError m) as [converted|e] eqn:Hm.
    - destruct Hin as [->|Hin].
      + exfalso. unfold AiSdk.convert in Hm. rewrite Hrole, Hcalls in Hm.
        destruct (toolCallParts_throws calls tc Htc Hparse) as [text Hthrow].
        rewrite Hthrow in Hm.
        destruct calls; [contradiction|]. cbn in Hm. discriminate.
      + destruct (IH Hin) as [text ->]. eexists. reflexivity.
    - destruct (convert_throws_syntaxError m e Hm) as [text ->]. eexists. reflexivity. }
  destruct Hconvert as [text Hconvert]. exists text.
  unfold AiSdk.streamCompletion, bind, lift. now rewrite Hconvert.
Qed.

End WithHost.
End AiSdkFacts.

(** ** The agent over a provider without tool calls *)

Module DegradedAgent.
Import Js Eff JsString Agent AgentFacts AgentMore Derived.
Local Open Scope list_scope.

Section Loop.
Variable h : Tools.Host.
Variable aiProvider : Provider.AIProvider.
Variable onStreamingContent : bool.
Hypothesis Htoolless : toolless aiProvider.

Lemma iteration_runs_no_tool (w : World) :
  toolSystem (snd (iteration h aiProvider onStreamingContent w)) = toolSystem w.
Proof.
  unfold iteration, try_catch, turn, bind.
  rewrite callAIProvider_unfold.
  destruct (Provider.streamCompletion _ _ _ _) as [[response|error] sh] eqn:Hanswer;
    [|reflexivity].
  rewrite (route_content h onStreamingContent response)
    by exact (Htoolless _ _ _ _ _ _ Hanswer).
  destruct (String.eqb _ ""); cbn [complete withState modify];
    rewrite enforceCeiling_unfold;
    match goal with |- context [(ceiling <? ?n)%nat] => destruct (ceiling <? n)%nat end;
    reflexivity.
Qed.

Lemma loop_runs_no_tool (fuel : nat) (w w' : World) (r : result unit) :
  loop h aiProvider onStreamingContent fuel w = Some (r, w') ->
  toolSystem w' = toolSystem w.
Proof.
  revert w; induction fuel as [|fuel IH]; intros w Hloop; cbn [loop] in Hloop.
  - destruct (isComplete (state w)); [|discriminate]. now injection Hloop as _ <-.
  - destruct (isComplete (state w)); [now injection Hloop as _ <-|].
    pose proof (iteration_runs_no_tool w) as Hstep.
    destruct (iteration h aiProvider onStreamingContent w) as [[[]|error] w1];
      cbn [snd] in Hstep.
    + rewrite <- Hstep. now apply IH.
    + now injection Hloop as _ <-.
Qed.

End Loop.

(** X21. With a completion service whose responses never hold a tool call,
    as the AI SDK provider is, a query never executes a tool: when
    [processQuery] returns, the execution counter and the logs of the calls
    to the backend and of the rephrasing requests are as they were. *)
Theorem toolless_service_runs_no_tool
    (h : Tools.Host) (aiProvider : Provider.AIProvider) (onStreamingContent : bool)
    (userQuery : string) (w : World) :
  toolless aiProvider ->
  exists answer w',
    processQuery h aiProvider onStreamingContent userQuery w = Some (Ok answer, w') /\
    toolSystem w' = toolSystem w.
Proof.
  intros Htoolless.
  unfold processQuery, processQueryWithin.
  destruct (initializeState_stored userQuery w) as (w0 & Hinit & Hfresh & Hstored).
  rewrite Hinit.
  assert (Htools : toolSystem w0 = toolSystem w) by (injection Hinit as <-; reflexivity).
  destruct (loop_terminates h aiProvider onStreamingContent maxPasses w0)
    as (w1 & Hloop & Hdone).
  { right. rewrite Hstored. unfold maxPasses, ceiling. lia. }
  rewrite Hloop. do 2 eexists. split; [reflexivity|].
  rewrite <- Htools.
  exact (loop_runs_no_tool h aiProvider onStreamingContent Htoolless maxPasses w0 w1 _ Hloop).
Qed.

(** *** Examples *)

Lemma aiSdk_returns_text_only_example :
  AiSdk.streamCompletion Samples.sampleHost MoreSamples.sampleSyntaxError "gpt-4o"
    (fun _ _ => Ok MoreSamples.sampleTextStream) [] Tools.getTools true []
  = (Ok {| Provider.response_content := "You have: logs, users";
           Provider.response_tool_calls := None |},
     [aiSdkMarker; "You have: "; "logs, users"; nl]%string).
Proof.
  exact (AiSdkFacts.aiSdk_returns_text_only Samples.sampleHost MoreSamples.sampleSyntaxError
           "gpt-4o" (fun _ _ => Ok MoreSamples.sampleTextStream) [] Tools.getTools true []
           [] MoreSamples.sampleTextStream eq_refl eq_refl eq_refl).
Defined.

Lemma aiSdk_rejects_unparsable_history_example :
  exists text,
    AiSdk.streamCompletion Samples.sampleHost MoreSamples.sampleSyntaxError "gpt-4o"
      (fun _ _ => Ok MoreSamples.sampleTextStream) MoreSamples.brokenHistory
      Tools.getTools true []
    = (Throw (MoreSamples.sampleSyntaxError text), []).
Proof.
  exact (AiSdkFacts.aiSdk_rejects_unparsable_history Samples.sampleHost
           MoreSamples.sampleSyntaxError "gpt-4o" (fun _ _ => Ok MoreSamples.sampleTextStream)
           MoreSamples.brokenHistory Tools.getTools true []
           {| Provider.role := Provider.assistant; Provider.content := None;
              Provider.tool_calls := Some [Some Samples.brokenRequest];
              Provider.tool_call_id := None; Provider.msg_name := None |}
           [Some Samples.brokenRequest] Samples.brokenRequest
           (or_intror (or_introl eq_refl)) eq_refl eq_refl (or_introl eq_refl) eq_refl).
Defined.

Lemma toolless_service_runs_no_tool_example :
  toolless MoreSamples.sampleAiSdk /\
  exists answer w',
    processQuery Samples.sampleHost MoreSamples.sampleAiSdk false Samples.userQuestion
      Samples.freshWorld = Some (Ok answer, w') /\
    toolSystem w' = Tools.initialToolStore.
Proof.
  assert (Htoolless : toolless MoreSamples.sampleAiSdk) by apply AiSdkFacts.aiSdk_toolless.
  split; [exact Htoolless|].
  exact (toolless_service_runs_no_tool Samples.sampleHost MoreSamples.sampleAiSdk false
           Samples.userQuestion Samples.freshWorld Htoolless).
Defined.

End DegradedAgent.

(** ** Configuration *)

Module ConfigFacts.
Import Js Config.
Local Open Scope list_scope.

Lemma splitOn_nonempty (c : ascii) (s : string) :
  exists piece pieces, splitOn c s = piece :: pieces.
Proof.
  induction s as [|a s IH]; cbn [splitOn]; [do 2 eexists; reflexivity|].
  destruct (Ascii.eqb a c); [do 2 eexists; reflexivity|].
  destruct IH as (piece & pieces & ->). do 2 eexists. reflexivity.
Qed.

Lemma splitOn_app (c : ascii) (a b : string) :
  splitOn c (a ++ String c b)%string = splitOn c a ++ splitOn c b.
Proof.
  induction a as [|x a IH]; cbn [String.append splitOn app].
  - now rewrite Ascii.eqb_refl.
  - rewrite IH. destruct (Ascii.eqb x c); [reflexivity|].
    destruct (splitOn_nonempty c a) as (piece & pieces & ->). reflexivity.
Qed.

Lemma splitOn_plain (c : ascii) (s : string) :
  occurs c s = false -> splitOn c s = [s].
Proof.
  induction s as [|a s IH]; cbn [occurs splitOn]; [reflexivity|].
  intros Hno. apply orb_false_elim in Hno as [-> Hno]. now rewrite IH.
Qed.

(** X22. A line of the [.env] file is cut at its second equals sign: what
    follows it is dropped from the value, so that [KEY=a=b] assigns [a]. *)
Theorem env_value_is_cut_at_second_equals_sign (key value rest : string) :
  occurs equalsSign key = false ->
  occurs equalsSign value = false ->
  assignment (key ++ String equalsSign (value ++ String equalsSign rest))%string
  = assignment (key ++ String equalsSign value)%string.
Proof.
  intros Hkey Hvalue. unfold assignment.
  rewrite !splitOn_app, !(splitOn_plain equalsSign key), !(splitOn_plain equalsSign value)
    by assumption.
  reflexivity.
Qed.

Lemma env_value_is_cut_at_second_equals_sign_example :
  assignment "ELASTICSEARCH_PASSWORD=s3cr3t=="
  = Some ("ELASTICSEARCH_PASSWORD", "s3cr3t")%string.
Proof.
  exact (eq_trans
           (env_value_is_cut_at_second_equals_sign "ELASTICSEARCH_PASSWORD" "s3cr3t" "="
              eq_refl eq_refl)
           eq_refl).
Defined.

Lemma merged_last_line (content line : string) (env : Env) :
  occurs newline line = false ->
  merged (Some (content ++ String newline line)%string) env
  = assign (merged (Some content) env) line.
Proof.
  intros Hline. unfold merged.
  rewrite splitOn_app, fold_left_app, (splitOn_plain newline line) by assumption.
  reflexivity.
Qed.

Lemma getenv_latest (name value : string) (env : Env) :
  getenv name ((name, value) :: env) = Some value.
Proof. cbn [getenv]. now rewrite String.eqb_refl. Qed.

Lemma envOr_latest (name value : string) (env : Env) :
  envOr ((name, value) :: env) name "" = value.
Proof.
  unfold envOr. rewrite getenv_latest.
  destruct (String.eqb_spec value "") as [->|_]; reflexivity.
Qed.

(** X23. The [.env] file overrides the process environment, and its last
    line decides: when the last line of the file assigns a value to
    OPENAI_API_KEY, [loadConfig] returns a configuration with that value as
    the key when it is not empty, and throws when it is empty (a value of
    white space only), whatever the environment and the lines before held. *)
Theorem env_file_last_line_decides_the_key (content line value : string) (env : Env) :
  occurs newline line = false ->
  assignment line = Some ("OPENAI_API_KEY"%string, value) ->
  let run := loadConfig (Some (content ++ String newline line)%string) env in
  getenv "OPENAI_API_KEY" (snd run) = Some value /\
  if String.eqb value ""
  then exists error, fst run = Throw error
  else exists config, fst run = Ok config /\ openaiApiKey config = value.
Proof.
  intros Hline Hassign. cbv zeta.
  unfold loadConfig. rewrite merged_last_line by assumption.
  assert (Hassigned : assign (merged (Some content) env) line
                      = ("OPENAI_API_KEY"%string, value) :: merged (Some content) env)
    by (unfold assign; now rewrite Hassign).
  rewrite Hassigned. cbn [openaiApiKey]. rewrite envOr_latest.
  destruct (String.eqb value ""); cbn [fst snd].
  - split; [apply getenv_latest | eexists; reflexivity].
  - split; [apply getenv_latest|]. eexists. split; [reflexivity|].
    reflexivity.
Qed.

Lemma env_file_last_line_decides_the_key_example :
  let env := [("OPENAI_API_KEY", "sk-from-the-shell")]%string in
  (exists config,
     fst (loadConfig (Some "AI_PROVIDER=ai-sdk
OPENAI_API_KEY = sk-from-the-file ") env) = Ok config /\
     openaiApiKey config = "sk-from-the-file"%string) /\
  (exists error,
     fst (loadConfig (Some "AI_PROVIDER=ai-sdk
OPENAI_API_KEY= ") env) = Throw error).
Proof.
  cbv zeta. split.
  - exact (proj2 (env_file_last_line_decides_the_key "AI_PROVIDER=ai-sdk"
                    "OPENAI_API_KEY = sk-from-the-file " "sk-from-the-file"
                    [("OPENAI_API_KEY", "sk-from-the-shell")]%string eq_refl eq_refl)).
  - exact (proj2 (env_file_last_line_decides_the_key "AI_PROVIDER=ai-sdk"
                    "OPENAI_API_KEY= " ""
                    [("OPENAI_API_KEY", "sk-from-the-shell")]%string eq_refl eq_refl)).
Defined.

End ConfigFacts.
